(** * nuget_recommender: the retrieval layer of [nuget_api.py]

    A shallow embedding of the NuGet API clients (service discovery,
    catalog pagination, registration resolution, search lookup and the
    per-package aggregator) together with the failure classification
    predicates, and the properties the specification states about them.

    Modelling conventions.
    - JSON documents returned by the transport are values of [json]; a
      Python [dict] is an association list (of distinct keys; a lookup
      reads the first match), a Python [list] is a Rocq list.
    - Python [str] values are Rocq strings holding their UTF-8 encoding.
      What [str.lower] and [str.strip] compute, and whether [int] refuses
      a run of digits for its length, depend on the interpreter and its
      Unicode tables: they are parameters of the model, gathered in
      [python].  [ascii_lower] and [ascii_strip] are what they compute on
      ASCII strings.
    - A package id is a string, as the catalog pages give it; the other
      entries of a document are kept as the JSON values they are.
    - An exception value is its class together with the [code] attribute
      that [ClientResponseError] carries; message texts are not modelled.
      The class hierarchy is the one of Python 3.7 with aiohttp 3, the
      versions the module was written for ([CancelledError] still derives
      from [Exception] there).
    - [await client.get(url)] is one step of an error-and-state monad: it
      appends a [Get] event to the trace and returns what the transport
      answers.  The transport itself ([utils.http]) is a parameter: any
      function of the request history and the requested URL. *)

From Stdlib Require Import ZArith List String Ascii Bool Lia.
Import ListNotations.
Local Open Scope string_scope.
Local Open Scope list_scope.

(** ** Exceptions *)

Inductive pyclass : Type :=
| BaseException
| KeyboardInterrupt
| Exception
| CancelledError
| TimeoutError
| ClientError
| ClientResponseError
| ContentTypeError
| ClientConnectionError
| ClientConnectorError
| ClientPayloadError
| ValueError
| JSONDecodeError
| LookupError
| KeyError
| IndexError
| TypeError
| AttributeError
| AssertionError
| RuntimeError.

Definition pyclass_eq_dec (c d : pyclass) : {c = d} + {c <> d}.
Proof. decide equality. Defined.

Definition pyclass_eqb (c d : pyclass) : bool :=
  if pyclass_eq_dec c d then true else false.

(** The direct base class. *)
Definition base (c : pyclass) : option pyclass :=
  match c with
  | BaseException => None
  | KeyboardInterrupt => Some BaseException
  | Exception => Some BaseException
  | CancelledError => Some Exception
  | TimeoutError => Some Exception
  | ClientError => Some Exception
  | ClientResponseError => Some ClientError
  | ContentTypeError => Some ClientResponseError
  | ClientConnectionError => Some ClientError
  | ClientConnectorError => Some ClientConnectionError
  | ClientPayloadError => Some ClientError
  | ValueError => Some Exception
  | JSONDecodeError => Some ValueError
  | LookupError => Some Exception
  | KeyError => Some LookupError
  | IndexError => Some LookupError
  | TypeError => Some Exception
  | AttributeError => Some Exception
  | AssertionError => Some Exception
  | RuntimeError => Some Exception
  end.

Fixpoint subclass_upto (fuel : nat) (c d : pyclass) : bool :=
  pyclass_eqb c d ||
  match fuel with
  | O => false
  | S fuel' =>
      match base c with
      | Some b => subclass_upto fuel' b d
      | None => false
      end
  end.

(** No chain of bases is longer than five classes. *)
Definition issubclass (c d : pyclass) : bool := subclass_upto 5 c d.

(** [type(exc).__name__] *)
Definition class_name (c : pyclass) : string :=
  match c with
  | BaseException => "BaseException"
  | KeyboardInterrupt => "KeyboardInterrupt"
  | Exception => "Exception"
  | CancelledError => "CancelledError"
  | TimeoutError => "TimeoutError"
  | ClientError => "ClientError"
  | ClientResponseError => "ClientResponseError"
  | ContentTypeError => "ContentTypeError"
  | ClientConnectionError => "ClientConnectionError"
  | ClientConnectorError => "ClientConnectorError"
  | ClientPayloadError => "ClientPayloadError"
  | ValueError => "ValueError"
  | JSONDecodeError => "JSONDecodeError"
  | LookupError => "LookupError"
  | KeyError => "KeyError"
  | IndexError => "IndexError"
  | TypeError => "TypeError"
  | AttributeError => "AttributeError"
  | AssertionError => "AssertionError"
  | RuntimeError => "RuntimeError"
  end.

Record exn : Type := mkExn { exc_type : pyclass; code : Z }.

Definition isinstance (exc : exn) (c : pyclass) : bool :=
  issubclass (exc_type exc) c.

(** An exception raised by the interpreter itself carries no status. *)
Definition builtin_exn (c : pyclass) : exn := mkExn c 0.

Inductive result (A : Type) : Type :=
| Ok (a : A)
| Raise (e : exn).
Arguments Ok {A} a.
Arguments Raise {A} e.

(** ** JSON values and the Python operations the module applies to them *)

#[local] Set Warnings "-register-all".

Inductive json : Type :=
| JNull
| JBool (b : bool)
| JNum (n : Z)
| JFloat (literal : string)
| JStr (s : string)
| JArr (items : list json)
| JObj (members : list (string * json)).

Fixpoint lookup (k : string) (m : list (string * json)) : option json :=
  match m with
  | [] => None
  | (k', v) :: m' => if String.eqb k k' then Some v else lookup k m'
  end.

(** [j[k]] with a string key: only a dict can be subscripted by a string. *)
Definition getitem (j : json) (k : string) : result json :=
  match j with
  | JObj m =>
      match lookup k m with
      | Some v => Ok v
      | None => Raise (builtin_exn KeyError)
      end
  | _ => Raise (builtin_exn TypeError)
  end.

(** [j.get(k, default)]: only a dict has the method. *)
Definition dict_get (j : json) (k : string) (default : json) : result json :=
  match j with
  | JObj m =>
      match lookup k m with
      | Some v => Ok v
      | None => Ok default
      end
  | _ => Raise (builtin_exn AttributeError)
  end.

Fixpoint prefixb (p s : string) : bool :=
  match p, s with
  | EmptyString, _ => true
  | String a p', String b s' => Ascii.eqb a b && prefixb p' s'
  | String _ _, EmptyString => false
  end.

Fixpoint substringb (p s : string) : bool :=
  prefixb p s ||
  match s with
  | EmptyString => false
  | String _ s' => substringb p s'
  end.

Definition is_str (k : string) (j : json) : bool :=
  match j with
  | JStr s => String.eqb s k
  | _ => false
  end.

(** [k in j] with a string [k]: key membership for a dict, element
    membership for a list, substring test for a string. *)
Definition contains (j : json) (k : string) : result bool :=
  match j with
  | JObj m =>
      match lookup k m with
      | Some _ => Ok true
      | None => Ok false
      end
  | JArr l => Ok (existsb (is_str k) l)
  | JStr s => Ok (substringb k s)
  | _ => Raise (builtin_exn TypeError)
  end.

Fixpoint chars (s : string) : list json :=
  match s with
  | EmptyString => []
  | String a s' => JStr (String a EmptyString) :: chars s'
  end.

(** The elements [for node in j] runs over: the items of a list, the keys
    of a dict, the characters of a string. *)
Definition iter (j : json) : result (list json) :=
  match j with
  | JArr l => Ok l
  | JObj m => Ok (map (fun kv => JStr (fst kv)) m)
  | JStr s => Ok (chars s)
  | _ => Raise (builtin_exn TypeError)
  end.

(** ** Strings *)

Definition lower_ascii (a : ascii) : ascii :=
  let n := nat_of_ascii a in
  if (65 <=? n)%nat && (n <=? 90)%nat then ascii_of_nat (n + 32) else a.

(** [str.lower] on an ASCII string. *)
Fixpoint ascii_lower (s : string) : string :=
  match s with
  | EmptyString => EmptyString
  | String a s' => String (lower_ascii a) (ascii_lower s')
  end.

Fixpoint rev_string (s acc : string) : string :=
  match s with
  | EmptyString => acc
  | String a s' => rev_string s' (String a acc)
  end.

Fixpoint lstrip_char (c : ascii) (s : string) : string :=
  match s with
  | String a s' => if Ascii.eqb a c then lstrip_char c s' else s
  | EmptyString => EmptyString
  end.

(** [s.rstrip('/')] for [c = '/']. *)
Definition rstrip_char (c : ascii) (s : string) : string :=
  rev_string (lstrip_char c (rev_string s EmptyString)) EmptyString.

Definition str_rstrip_slash (j : json) : result string :=
  match j with
  | JStr s => Ok (rstrip_char "/"%char s)
  | _ => Raise (builtin_exn AttributeError)
  end.

(** ASCII white space as [str.strip] sees it. *)
Definition is_space (a : ascii) : bool :=
  let n := nat_of_ascii a in
  ((9 <=? n)%nat && (n <=? 13)%nat) || ((28 <=? n)%nat && (n <=? 32)%nat).

Fixpoint lstrip (s : string) : string :=
  match s with
  | String a s' => if is_space a then lstrip s' else s
  | EmptyString => EmptyString
  end.

(** [str.strip] on an ASCII string. *)
Definition ascii_strip (s : string) : string :=
  rev_string (lstrip (rev_string (lstrip s) EmptyString)) EmptyString.

(** The built-ins whose result depends on the interpreter: [s.lower()]
    and [s.strip()] on any string, and whether [int(ds)] refuses the run
    of decimal digits [ds] with a [ValueError] because of its length
    (never, on an interpreter without a limit on integer strings). *)
Record python : Type := mkPython {
  lower : string -> string;
  strip : string -> string;
  int_refuses : string -> bool
}.

(** [j.lower()]: an attribute of [str] only. *)
Definition str_lower (py : python) (j : json) : result string :=
  match j with
  | JStr s => Ok (lower py s)
  | _ => Raise (builtin_exn AttributeError)
  end.

(** [s.split(',')]: [cur] holds the reversed field being read. *)
Fixpoint split_comma_aux (s cur : string) : list string :=
  match s with
  | EmptyString => [rev_string cur EmptyString]
  | String a s' =>
      if Ascii.eqb a ","%char
      then rev_string cur EmptyString :: split_comma_aux s' EmptyString
      else split_comma_aux s' (String a cur)
  end.

Definition split_comma (s : string) : list string := split_comma_aux s EmptyString.

Definition dquote : string := String (ascii_of_nat 34) EmptyString.

Definition newline : string := String (ascii_of_nat 10) EmptyString.

Definition is_digit (a : ascii) : bool :=
  let n := nat_of_ascii a in (48 <=? n)%nat && (n <=? 57)%nat.

(** The longest run of digits at the head of [s], and what follows it. *)
Fixpoint span_digits (s : string) : string * string :=
  match s with
  | String a s' =>
      if is_digit a
      then let (ds, r) := span_digits s' in (String a ds, r)
      else (EmptyString, s)
  | EmptyString => (EmptyString, EmptyString)
  end.

Fixpoint drop_prefix (p s : string) : option string :=
  match p, s with
  | EmptyString, _ => Some s
  | String a p', String b s' =>
      if Ascii.eqb a b then drop_prefix p' s' else None
  | String _ _, EmptyString => None
  end.

(** [int(ds)] for a run of decimal digits, [acc] being the value read so far. *)
Fixpoint int_of_digits (ds : string) (acc : Z) : Z :=
  match ds with
  | EmptyString => acc
  | String a ds' =>
      int_of_digits ds' (10 * acc + Z.of_nat (nat_of_ascii a - 48))%Z
  end.

(** [page([0-9]+)\.json$] anchored at the head of [s]; [$] also matches
    just before a final line feed.  The digit run is followed by a dot, so
    the greedy [+] never has to give a digit back. *)
Definition match_page_here (s : string) : option string :=
  match drop_prefix "page" s with
  | Some r =>
      let (ds, r') := span_digits r in
      if String.eqb ds EmptyString then None
      else if String.eqb r' ".json" || String.eqb r' (".json" ++ newline)%string
           then Some ds
           else None
  | None => None
  end.

(** [re.search(r'page([0-9]+)\.json$', s)], then [match.group(1)]: the
    digits at the leftmost position where the pattern matches. *)
Fixpoint search_pageno (s : string) : option string :=
  match match_page_here s with
  | Some ds => Some ds
  | None =>
      match s with
      | EmptyString => None
      | String _ s' => search_pageno s'
      end
  end.

(** [int(ds)] for a run of decimal digits. *)
Definition py_int (py : python) (ds : string) : result Z :=
  if int_refuses py ds then Raise (builtin_exn ValueError)
  else Ok (int_of_digits ds 0).

(** ** Endpoints *)

Definition DEV : string := "DEV".
Definition INT : string := "INT".
Definition PROD : string := "PROD".
Definition VALID_ENDPOINTS : list string := [DEV; INT; PROD].

Definition DEV_INDEX : string := "https://apidev.nugettest.org/v3/index.json".
Definition INT_INDEX : string := "https://apiint.nugettest.org/v3/index.json".
Definition PROD_INDEX : string := "https://api.nuget.org/v3/index.json".

Definition CATALOG_TYPE : string := "Catalog/3.0.0".
Definition REGISTRATION_TYPE : string := "RegistrationsBaseUrl".
Definition SEARCH_TYPE : string := "SearchQueryService".

(** ** Failure classification *)

Definition ok_filter (exc : exn) : bool :=
  if isinstance exc CancelledError || isinstance exc TimeoutError then true
  else if isinstance exc ClientResponseError && (500 <=? code exc)%Z then true
  else false.

Definition can_ignore_exception (exc : exn) : bool :=
  ok_filter exc || isinstance exc ClientError.

(** ** The error-and-state monad *)

Definition M (S A : Type) : Type := S -> result A * S.

Definition ret {S A : Type} (a : A) : M S A := fun s => (Ok a, s).

Definition raise {S A : Type} (e : exn) : M S A := fun s => (Raise e, s).

Definition bind {S A B : Type} (m : M S A) (k : A -> M S B) : M S B :=
  fun s =>
    match m s with
    | (Ok a, s') => k a s'
    | (Raise e, s') => (Raise e, s')
    end.

(** A computation that touches no state: subscripts, method calls on
    JSON values, constructors. *)
Definition lift {S A : Type} (r : result A) : M S A := fun s => (r, s).

Notation "x <- m ;; k" := (bind m (fun x => k))
  (at level 61, m at next level, right associativity).
Notation "m ;;; k" := (bind m (fun _ => k))
  (at level 61, right associativity).

(** [try: body except Exception as exc: handler(exc)]: an exception that is
    not an [Exception] passes through untouched. *)
Definition try_except_Exception {S A : Type}
    (body : M S A) (handler : exn -> M S A) : M S A :=
  fun s =>
    match body s with
    | (Ok a, s') => (Ok a, s')
    | (Raise e, s') =>
        if isinstance e Exception then handler e s' else (Raise e, s')
    end.

(** The same bind on pure results, for comprehensions. *)
Definition rbind {A B : Type} (r : result A) (k : A -> result B) : result B :=
  match r with
  | Ok a => k a
  | Raise e => Raise e
  end.

Fixpoint rmap {A B : Type} (f : A -> result B) (l : list A) : result (list B) :=
  match l with
  | [] => Ok []
  | x :: l' =>
      rbind (f x) (fun y => rbind (rmap f l') (fun ys => Ok (y :: ys)))
  end.

(** ** Events *)

Inductive event : Type :=
| Get (url : json)
| LogDebug (id excname : string)
| PrintExc (exc : exn).

Definition trace : Type := list event.

Definition emit {A : Type} (ev : event) (a : A) : M trace A :=
  fun tr => (Ok a, tr ++ [ev]).

(** [check_endpoint] and [get_endpoint_url] are synchronous code; they are
    written in the monad so that their effect on the trace can be stated. *)
Definition check_endpoint (endpoint : string) : M trace string :=
  if negb (existsb (String.eqb endpoint) VALID_ENDPOINTS)
  then raise (builtin_exn ValueError)
  else ret endpoint.

Definition get_endpoint_url (endpoint : string) : M trace string :=
  check_endpoint endpoint ;;;
  if String.eqb endpoint DEV then ret DEV_INDEX
  else if String.eqb endpoint INT then ret INT_INDEX
  else if String.eqb endpoint PROD then ret PROD_INDEX
  else raise (builtin_exn AssertionError).

(** ** Objects

    Each class is a record in a module of its name; [None] fields are
    [option]s, or [JNull] where the field holds a JSON value. *)

Record NugetContext : Type := mkContext { endpoint_url : json }.

Module NugetClient.
Record t : Type := mk { _type : string; _endpoint_url : option string }.
End NugetClient.

Module NugetCatalogClient.
Record t : Type := mk { client : NugetClient.t; _catalog_json : json }.
End NugetCatalogClient.

Module NugetPage.
Record t : Type := mk { pageno : Z; _url : json; _json : json }.
End NugetPage.

Module RegistrationLeaf.
Record t : Type := mk {
  authors : json;
  description : json;
  icon_url : json;
  id : json;
  license_url : json;
  listed : json;
  project_url : json;
  published : json;
  summary : json;
  tags : json;
  version : json
}.
End RegistrationLeaf.

Module RegistrationPage.
Record t : Type := mk {
  count : json;
  _json : json;
  _leaves : option (list RegistrationLeaf.t)
}.
End RegistrationPage.

Module PackageRegistrationInfo.
Record t : Type := mk { count : json; _pages : list RegistrationPage.t }.
End PackageRegistrationInfo.

Module PackageCatalogInfo.
Record t : Type := mk {
  authors : list string;
  created : json;
  description : json;
  id : json;
  is_prerelease : json;
  listed : json;
  summary : json;
  tags : json;
  version : json
}.
End PackageCatalogInfo.

Module PackageSearchInfo.
Record t : Type := mk { id : json; total_downloads : json; verified : json }.
End PackageSearchInfo.

Module NugetSearchResults.
Record t : Type := mk { _url : string; _json : json; total_hits : json }.
End NugetSearchResults.

(** What [NugetPackage.search] can hold: a hit, or the one instance of
    [NullPackageSearchInfo]. *)
Inductive search_info : Type :=
| Hit (d : PackageSearchInfo.t)
| NullPackageSearchInfo.

Definition NULL_SEARCH_INFO : search_info := NullPackageSearchInfo.

Definition search_info_id (s : search_info) : json :=
  match s with
  | Hit d => PackageSearchInfo.id d
  | NullPackageSearchInfo => JStr EmptyString
  end.

Definition search_info_total_downloads (s : search_info) : json :=
  match s with
  | Hit d => PackageSearchInfo.total_downloads d
  | NullPackageSearchInfo => JNum (-1)
  end.

Definition search_info_verified (s : search_info) : json :=
  match s with
  | Hit d => PackageSearchInfo.verified d
  | NullPackageSearchInfo => JBool false
  end.

Module NugetPackage.
Record t : Type := mk {
  id : string;
  version : json;
  _catalog_url : json;
  catalog : option PackageCatalogInfo.t;
  reg : option PackageRegistrationInfo.t;
  search : option search_info;
  loaded : bool
}.

Definition set_catalog (self : t) (v : PackageCatalogInfo.t) : t :=
  mk (id self) (version self) (_catalog_url self)
     (Some v) (reg self) (search self) (loaded self).

Definition set_reg (self : t) (v : PackageRegistrationInfo.t) : t :=
  mk (id self) (version self) (_catalog_url self)
     (catalog self) (Some v) (search self) (loaded self).

Definition set_search (self : t) (v : search_info) : t :=
  mk (id self) (version self) (_catalog_url self)
     (catalog self) (reg self) (Some v) (loaded self).

Definition set_loaded (self : t) (v : bool) : t :=
  mk (id self) (version self) (_catalog_url self)
     (catalog self) (reg self) (search self) v.
End NugetPackage.

(** [NugetPackage.__init__] once the stub's three entries have been read:
    nothing is loaded yet. *)
Definition new_NugetPackage (id : string) (version catalog_url : json)
    : NugetPackage.t :=
  NugetPackage.mk id version catalog_url None None None false.

(** Truth value of a field that is [None] or an object; none of the
    classes defines [__bool__] or [__len__]. *)
Definition truthy {A : Type} (o : option A) : bool :=
  match o with
  | Some _ => true
  | None => false
  end.

(** [l[-1]] *)
Definition last_item {A : Type} (l : list A) : result A :=
  match l with
  | [] => Raise (builtin_exn IndexError)
  | x :: l' => Ok (last l' x)
  end.

(** ** Constructors that read a JSON document *)

Definition NugetPage_init (py : python) (url : json) : result NugetPage.t :=
  match url with
  | JStr s =>
      match search_pageno s with
      | Some ds =>
          rbind (py_int py ds) (fun pageno =>
          Ok (NugetPage.mk pageno url JNull))
      | None => Raise (builtin_exn AttributeError)
      end
  | _ => Raise (builtin_exn TypeError)
  end.

Definition RegistrationLeaf_init (j : json) : result RegistrationLeaf.t :=
  rbind (dict_get j "authors" (JArr [])) (fun authors =>
  rbind (dict_get j "description" (JStr EmptyString)) (fun description =>
  rbind (dict_get j "iconUrl" (JStr EmptyString)) (fun icon_url =>
  rbind (getitem j "id") (fun id =>
  rbind (dict_get j "licenseUrl" (JStr EmptyString)) (fun license_url =>
  rbind (dict_get j "listed" (JBool true)) (fun listed =>
  rbind (dict_get j "project_url" (JStr EmptyString)) (fun project_url =>
  rbind (dict_get j "published" (JStr EmptyString)) (fun published =>
  rbind (dict_get j "summary" (JStr EmptyString)) (fun summary =>
  rbind (dict_get j "tags" (JArr [])) (fun tags =>
  rbind (getitem j "version") (fun version =>
  Ok (RegistrationLeaf.mk authors description icon_url id license_url
        listed project_url published summary tags version)))))))))))).

Definition RegistrationPage_init (j : json) : result RegistrationPage.t :=
  rbind (getitem j "count") (fun count =>
  Ok (RegistrationPage.mk count j None)).

Definition PackageRegistrationInfo_init (j : json)
    : result PackageRegistrationInfo.t :=
  rbind (getitem j "count") (fun count =>
  rbind (getitem j "items") (fun items =>
  rbind (iter items) (fun nodes =>
  rbind (rmap RegistrationPage_init nodes) (fun pages =>
  Ok (PackageRegistrationInfo.mk count pages))))).

Definition PackageSearchInfo_init (j : json) : result PackageSearchInfo.t :=
  rbind (getitem j "id") (fun id =>
  rbind (getitem j "totalDownloads") (fun total_downloads =>
  rbind (getitem j "verified") (fun verified =>
  Ok (PackageSearchInfo.mk id total_downloads verified)))).

(** [[name.strip() for name in j['authors'].split(',')]] *)
Definition split_authors (py : python) (j : json) : result (list string) :=
  match j with
  | JStr s => Ok (map (strip py) (split_comma s))
  | _ => Raise (builtin_exn AttributeError)
  end.

Definition PackageCatalogInfo_init (py : python) (j : json)
    : result PackageCatalogInfo.t :=
  rbind (contains j "authors") (fun has_authors =>
  rbind (if has_authors : bool
         then rbind (getitem j "authors") (split_authors py)
         else Ok []) (fun authors =>
  rbind (dict_get j "created" (JStr EmptyString)) (fun created =>
  rbind (dict_get j "description" (JStr EmptyString)) (fun description =>
  rbind (getitem j "id") (fun id =>
  rbind (dict_get j "isPrerelease" (JBool false)) (fun is_prerelease =>
  rbind (dict_get j "listed" (JBool true)) (fun listed =>
  rbind (dict_get j "summary" JNull) (fun summary =>
  rbind (dict_get j "tags" (JArr [])) (fun tags =>
  rbind (getitem j "version") (fun version =>
  Ok (PackageCatalogInfo.mk authors created description id is_prerelease
        listed summary tags version))))))))))).

(** [RegistrationLeaf(node['catalogEntry'])] *)
Definition leaf_of_node (node : json) : result RegistrationLeaf.t :=
  rbind (getitem node "catalogEntry") RegistrationLeaf_init.

(** [[RegistrationLeaf(node['catalogEntry']) for node in j['items']]] *)
Definition leaves_of (j : json) : result (list RegistrationLeaf.t) :=
  rbind (getitem j "items") (fun items =>
  rbind (iter items) (fun nodes =>
  rmap leaf_of_node nodes)).

(** ** Properties of loaded registration objects *)

Definition RegistrationPage_newest_leaf (self : RegistrationPage.t)
    : result RegistrationLeaf.t :=
  match RegistrationPage._leaves self with
  | Some leaves => last_item leaves
  | None => Raise (builtin_exn TypeError)
  end.

Definition newest_leaf (self : PackageRegistrationInfo.t)
    : result RegistrationLeaf.t :=
  rbind (last_item (PackageRegistrationInfo._pages self))
        RegistrationPage_newest_leaf.

Definition last_updated (self : PackageRegistrationInfo.t) : result json :=
  rbind (newest_leaf self) (fun leaf => Ok (RegistrationLeaf.published leaf)).

Definition listed (self : PackageRegistrationInfo.t) : result json :=
  rbind (newest_leaf self) (fun leaf => Ok (RegistrationLeaf.listed leaf)).

(** ** URL building *)

(** [str(x)] for a field that is [None] or a [str], as [format] renders it. *)
Definition format_opt (o : option string) : string :=
  match o with
  | Some s => s
  | None => "None"
  end.

Definition url_of_opt (o : option string) : json :=
  match o with
  | Some s => JStr s
  | None => JNull
  end.

Definition is_alpha (a : ascii) : bool :=
  let n := nat_of_ascii a in
  ((65 <=? n)%nat && (n <=? 90)%nat) || ((97 <=? n)%nat && (n <=? 122)%nat).

(** Characters [quote_plus] never escapes. *)
Definition is_unreserved (a : ascii) : bool :=
  is_alpha a || is_digit a || Ascii.eqb a "_"%char || Ascii.eqb a "."%char
  || Ascii.eqb a "-"%char || Ascii.eqb a "~"%char.

Definition hex_digit (n : nat) : ascii :=
  if (n <? 10)%nat then ascii_of_nat (48 + n) else ascii_of_nat (55 + n).

Fixpoint quote_plus (s : string) : string :=
  match s with
  | EmptyString => EmptyString
  | String a s' =>
      if is_unreserved a then String a (quote_plus s')
      else if Ascii.eqb a " "%char then String "+"%char (quote_plus s')
      else
        let n := nat_of_ascii a in
        String "%"%char
          (String (hex_digit (n / 16))
             (String (hex_digit (n mod 16)) (quote_plus s')))
  end.

(** [urlencode] of a dict whose values are already strings. *)
Fixpoint urlencode (params : list (string * string)) : string :=
  match params with
  | [] => EmptyString
  | [(k, v)] => (quote_plus k ++ "=" ++ quote_plus v)%string
  | (k, v) :: rest =>
      (quote_plus k ++ "=" ++ quote_plus v ++ "&" ++ urlencode rest)%string
  end.

(** ** Clients *)

Section Transport.

(** The interpreter's built-ins. *)
Variable py : python.

(** [self._ctx.client.get]: what the retrying transport finally answers
    to a request, given everything that happened before it. *)
Variable net : trace -> json -> result json.

Variable ctx : NugetContext.

Definition client_get (url : json) : M trace json :=
  fun tr => (net tr url, tr ++ [Get url]).

(** [next(node['@id'] for node in nodes if node['@type'] == type_)].  The
    [StopIteration] of an exhausted generator cannot leave the coroutine
    that evaluates it: it surfaces as a [RuntimeError]. *)
Fixpoint first_resource (type_ : string) (nodes : list json) : result json :=
  match nodes with
  | [] => Raise (builtin_exn RuntimeError)
  | node :: rest =>
      rbind (getitem node "@type") (fun ty =>
      if is_str type_ ty then getitem node "@id"
      else first_resource type_ rest)
  end.

Definition load_index (self : NugetClient.t) : M trace NugetClient.t :=
  index_json <- client_get (endpoint_url ctx) ;;
  nodes <- lift (getitem index_json "resources") ;;
  nodes <- lift (iter nodes) ;;
  url <- lift (first_resource (NugetClient._type self) nodes) ;;
  stripped <- lift (str_rstrip_slash url) ;;
  ret (NugetClient.mk (NugetClient._type self) (Some stripped)).

Definition NugetClient_load (self : NugetClient.t) : M trace NugetClient.t :=
  load_index self.

(** *** Catalog *)

Definition NugetCatalogClient_init : NugetCatalogClient.t :=
  NugetCatalogClient.mk (NugetClient.mk CATALOG_TYPE None) JNull.

Definition load_catalog (self : NugetCatalogClient.t)
    : M trace NugetCatalogClient.t :=
  let cli := NugetCatalogClient.client self in
  j <- client_get (url_of_opt (NugetClient._endpoint_url cli)) ;;
  ret (NugetCatalogClient.mk cli j).

Definition NugetCatalogClient_load (self : NugetCatalogClient.t)
    : M trace NugetCatalogClient.t :=
  cli <- NugetClient_load (NugetCatalogClient.client self) ;;
  load_catalog
    (NugetCatalogClient.mk cli (NugetCatalogClient._catalog_json self)).

Definition NugetPage_load (self : NugetPage.t) : M trace NugetPage.t :=
  j <- client_get (NugetPage._url self) ;;
  ret (NugetPage.mk (NugetPage.pageno self) (NugetPage._url self) j).

(** [[node['@id'] for node in self._catalog_json['items']]] *)
Definition page_urls (self : NugetCatalogClient.t) : result (list json) :=
  rbind (getitem (NugetCatalogClient._catalog_json self) "items")
    (fun items =>
  rbind (iter items) (fun nodes =>
  rmap (fun node => getitem node "@id") nodes)).

(** The asynchronous generator [load_pages] returns: not started yet,
    suspended at its [yield] with the URLs still to visit, or finished
    (exhausted, or closed by an exception). *)
Inductive pages_gen : Type :=
| GenCreated (self : NugetCatalogClient.t)
| GenSuspended (rest : list json)
| GenFinished.

Definition load_pages (self : NugetCatalogClient.t) : pages_gen :=
  GenCreated self.

(** The loop of the generator, entered with the URLs not yet visited;
    it runs up to the next [yield]. *)
Definition resume (urls : list json) (tr : trace)
    : result (option NugetPage.t) * (pages_gen * trace) :=
  match urls with
  | [] => (Ok None, (GenFinished, tr))
  | url :: rest =>
      match (page <- lift (NugetPage_init py url) ;; NugetPage_load page) tr with
      | (Ok page, tr') => (Ok (Some page), (GenSuspended rest, tr'))
      | (Raise e, tr') => (Raise e, (GenFinished, tr'))
      end
  end.

(** One [__anext__]: [Ok None] stands for [StopAsyncIteration]. *)
Definition anext : M (pages_gen * trace) (option NugetPage.t) :=
  fun s =>
    let (g, tr) := s in
    match g with
    | GenCreated self =>
        match page_urls self with
        | Ok urls => resume urls tr
        | Raise e => (Raise e, (GenFinished, tr))
        end
    | GenSuspended rest => resume rest tr
    | GenFinished => (Ok None, (GenFinished, tr))
    end.

(** [async for page in gen], stopped after at most [n] pages. *)
Fixpoint take_pages (n : nat) : M (pages_gen * trace) (list NugetPage.t) :=
  match n with
  | O => ret []
  | S n' =>
      next <- anext ;;
      match next with
      | None => ret []
      | Some page => pages <- take_pages n' ;; ret (page :: pages)
      end
  end.

(** *** Registration *)

Definition NugetRegistrationClient_init : NugetClient.t :=
  NugetClient.mk REGISTRATION_TYPE None.

Definition RegistrationPage_load (self : RegistrationPage.t)
    : M trace RegistrationPage.t :=
  inline <- lift (contains (RegistrationPage._json self) "items") ;;
  j <- (if negb inline
        then url <- lift (getitem (RegistrationPage._json self) "@id") ;;
             client_get url
        else ret (RegistrationPage._json self)) ;;
  leaves <- lift (leaves_of j) ;;
  ret (RegistrationPage.mk (RegistrationPage.count self) j (Some leaves)).

(** [await self._pages[-1].load()]: the last page is loaded in place. *)
Definition PackageRegistrationInfo_load (self : PackageRegistrationInfo.t)
    : M trace PackageRegistrationInfo.t :=
  page <- lift (last_item (PackageRegistrationInfo._pages self)) ;;
  page' <- RegistrationPage_load page ;;
  ret (PackageRegistrationInfo.mk
         (PackageRegistrationInfo.count self)
         (removelast (PackageRegistrationInfo._pages self) ++ [page'])).

Definition reg_url (self : NugetClient.t) (id_ : string) : string :=
  (format_opt (NugetClient._endpoint_url self) ++ "/" ++ lower py id_
     ++ "/index.json")%string.

Definition load_package (self : NugetClient.t) (id_ : string)
    : M trace PackageRegistrationInfo.t :=
  reg_json <- client_get (JStr (reg_url self id_)) ;;
  info <- lift (PackageRegistrationInfo_init reg_json) ;;
  PackageRegistrationInfo_load info.

(** *** Search *)

Definition NugetSearchClient_init : NugetClient.t :=
  NugetClient.mk SEARCH_TYPE None.

Definition NugetSearchResults_load (self : NugetSearchResults.t)
    : M trace NugetSearchResults.t :=
  j <- client_get (JStr (NugetSearchResults._url self)) ;;
  total_hits <- lift (getitem j "totalHits") ;;
  ret (NugetSearchResults.mk (NugetSearchResults._url self) j total_hits).

(** [search(q=q)]: no further parameters, so the dict is [q] followed by
    the default [prerelease=True]. *)
Definition search (self : NugetClient.t) (q : string)
    : M trace NugetSearchResults.t :=
  let search_params := [("q", q); ("prerelease", "True")] in
  let qstring := urlencode search_params in
  let search_url :=
    (format_opt (NugetClient._endpoint_url self) ++ "?" ++ qstring)%string in
  NugetSearchResults_load (NugetSearchResults.mk search_url JNull JNull).

(** [next((d for d in results if d.id.lower() == id.lower()),
    NULL_SEARCH_INFO)] over the nodes of [results._json['data']]: each hit
    is built only when the iteration reaches it. *)
Fixpoint find_search_info (id : string) (nodes : list json)
    : result search_info :=
  match nodes with
  | [] => Ok NULL_SEARCH_INFO
  | node :: rest =>
      rbind (PackageSearchInfo_init node) (fun d =>
      rbind (str_lower py (PackageSearchInfo.id d)) (fun lowered =>
      if String.eqb lowered (lower py id) then Ok (Hit d)
      else find_search_info id rest))
  end.

Definition lookup_search_info (id : string) (results : NugetSearchResults.t)
    : result search_info :=
  rbind (getitem (NugetSearchResults._json results) "data") (fun data =>
  rbind (iter data) (fun nodes =>
  find_search_info id nodes)).

(** *** The aggregator *)

Definition PM (A : Type) : Type := M (NugetPackage.t * trace) A.

(** An awaited client call inside a method of the package. *)
Definition io {A : Type} (m : M trace A) : PM A :=
  fun s =>
    let (r, tr') := m (snd s) in (r, (fst s, tr')).

Definition self_ : PM NugetPackage.t := fun s => (Ok (fst s), s).

Definition assign (f : NugetPackage.t -> NugetPackage.t) : PM unit :=
  fun s => (Ok tt, (f (fst s), snd s)).

Definition _load_catalog_info : PM unit :=
  self <- self_ ;;
  j <- io (client_get (NugetPackage._catalog_url self)) ;;
  info <- lift (PackageCatalogInfo_init py j) ;;
  assign (fun self => NugetPackage.set_catalog self info).

Definition _load_reg_info : PM unit :=
  cli <- io (NugetClient_load NugetRegistrationClient_init) ;;
  self <- self_ ;;
  info <- io (load_package cli (NugetPackage.id self)) ;;
  assign (fun self => NugetPackage.set_reg self info).

Definition _load_search_info : PM unit :=
  cli <- io (NugetClient_load NugetSearchClient_init) ;;
  self <- self_ ;;
  let query := ("id:" ++ dquote ++ NugetPackage.id self ++ dquote)%string in
  results <- io (search cli query) ;;
  found <- lift (lookup_search_info (NugetPackage.id self) results) ;;
  assign (fun self => NugetPackage.set_search self found).

(** The [try] block of [load]. *)
Definition load_body (catalog reg search : bool) : PM NugetPackage.t :=
  (if catalog then _load_catalog_info else ret tt) ;;;
  (if reg then _load_reg_info else ret tt) ;;;
  (if search then _load_search_info else ret tt) ;;;
  assign (fun self =>
    NugetPackage.set_loaded self
      (truthy (NugetPackage.catalog self)
       && truthy (NugetPackage.reg self)
       && truthy (NugetPackage.search self))) ;;;
  self_.

(** The [except Exception as exc] block of [load]: one debug line for an
    exception that can be ignored, [tb.print_exc()] for any other, then
    the bare [raise]. *)
Definition load_handler (exc : exn) : PM NugetPackage.t :=
  (if can_ignore_exception exc
   then self <- self_ ;;
        io (emit (LogDebug (NugetPackage.id self)
                    (class_name (exc_type exc))) tt)
   else io (emit (PrintExc exc) tt)) ;;;
  raise exc.

Definition load (catalog reg search : bool) : PM NugetPackage.t :=
  try_except_Exception (load_body catalog reg search) load_handler.

End Transport.

(** ** Vocabulary of the properties *)

(** A node of the result set from which a hit with a string id can be
    built. *)
Definition is_hit (node : json) : bool :=
  match PackageSearchInfo_init node with
  | Ok d =>
      match PackageSearchInfo.id d with
      | JStr _ => true
      | _ => false
      end
  | Raise _ => false
  end.

(** The id of the hit built from [node] equals [id] up to case. *)
Definition hit_matches (py : python) (id : string) (node : json) : bool :=
  match PackageSearchInfo_init node with
  | Ok d =>
      match PackageSearchInfo.id d with
      | JStr s => String.eqb (lower py s) (lower py id)
      | _ => false
      end
  | Raise _ => false
  end.

(** A string of ASCII characters. *)
Fixpoint is_ascii (s : string) : bool :=
  match s with
  | EmptyString => true
  | String a s' => (nat_of_ascii a <? 128)%nat && is_ascii s'
  end.

(** On ASCII strings [str.lower] is [ascii_lower], whatever the
    interpreter. *)
Definition lower_on_ascii (py : python) : Prop :=
  forall s, is_ascii s = true -> lower py s = ascii_lower s.

(** An interpreter for ASCII documents, with the default limit of 4300
    digits on integer strings. *)
Definition sample_python : python :=
  mkPython ascii_lower ascii_strip
    (fun ds => (4300 <? String.length ds)%nat).

(** ** Sample documents *)

Definition sample_hit_other : json :=
  JObj [("id", JStr "Other"); ("totalDownloads", JNum 1);
        ("verified", JBool false)].

Definition sample_hit_foo_bar : json :=
  JObj [("id", JStr "Foo.Bar"); ("totalDownloads", JNum 7);
        ("verified", JBool true)].

Definition sample_hits : list json := [sample_hit_other; sample_hit_foo_bar].

Definition sample_results : NugetSearchResults.t :=
  NugetSearchResults.mk "https://search.example/query?q=foo.bar"
    (JObj [("totalHits", JNum 2); ("data", JArr sample_hits)])
    (JNum 2).

(** A small service: one catalog with two pages, one package [Foo] with a
    catalog entry, a registration index of one inline page with one leaf,
    and a search index that knows the package. *)

Definition sample_ctx : NugetContext := mkContext (JStr PROD_INDEX).

Definition sample_index : json :=
  JObj [("resources",
         JArr [JObj [("@id", JStr "https://api.nuget.org/v3/catalog0/index.json");
                     ("@type", JStr CATALOG_TYPE)];
               JObj [("@id", JStr "https://api.nuget.org/v3/registration/");
                     ("@type", JStr REGISTRATION_TYPE)];
               JObj [("@id", JStr "https://api.nuget.org/query");
                     ("@type", JStr SEARCH_TYPE)]])].

Definition sample_page_urls : list json :=
  [JStr "https://api.nuget.org/v3/catalog0/page0.json";
   JStr "https://api.nuget.org/v3/catalog0/page1.json"].

Definition sample_catalog : json :=
  JObj [("items", JArr (map (fun url => JObj [("@id", url)]) sample_page_urls))].

Definition sample_entry_url : string :=
  "https://api.nuget.org/v3/catalog0/data/foo.1.0.0.json".

Definition sample_stub : json :=
  JObj [("nuget:id", JStr "Foo"); ("nuget:version", JStr "1.0.0");
        ("@id", JStr sample_entry_url)].

Definition sample_page : json := JObj [("items", JArr [sample_stub])].

Definition sample_entry : json :=
  JObj [("id", JStr "Foo"); ("version", JStr "1.0.0");
        ("authors", JStr "Ann, Bob");
        ("created", JStr "2023-01-01T00:00:00Z")].

Definition sample_leaf : json :=
  JObj [("id", JStr "Foo"); ("version", JStr "1.0.0");
        ("published", JStr "2023-06-01T00:00:00Z")].

Definition sample_registration : json :=
  JObj [("count", JNum 1);
        ("items",
         JArr [JObj [("count", JNum 1);
                     ("items", JArr [JObj [("catalogEntry", sample_leaf)]])]])].

Definition sample_search : json :=
  JObj [("totalHits", JNum 1);
        ("data", JArr [JObj [("id", JStr "Foo"); ("totalDownloads", JNum 100);
                             ("verified", JBool true)]])].

Definition sample_documents : list (string * json) :=
  [(PROD_INDEX, sample_index);
   ("https://api.nuget.org/v3/catalog0/index.json", sample_catalog);
   ("https://api.nuget.org/v3/catalog0/page0.json", sample_page);
   ("https://api.nuget.org/v3/catalog0/page1.json", sample_page);
   (sample_entry_url, sample_entry);
   ("https://api.nuget.org/v3/registration/foo/index.json",
    sample_registration);
   ("https://api.nuget.org/query?q=id%3A%22Foo%22&prerelease=True",
    sample_search)].

(** A transport that serves [documents] and answers every other request
    with the response error [missing]. *)
Definition serve (documents : list (string * json)) (missing : exn)
    (history : trace) (url : json) : result json :=
  match url with
  | JStr s =>
      match lookup s documents with
      | Some doc => Ok doc
      | None => Raise missing
      end
  | _ => Raise (builtin_exn TypeError)
  end.

Definition not_found : exn := mkExn ClientResponseError 404.

Definition sample_net : trace -> json -> result json :=
  serve sample_documents not_found.

Definition sample_package : NugetPackage.t :=
  new_NugetPackage "Foo" (JStr "1.0.0") (JStr sample_entry_url).

(** The same service with the catalog entry of [Foo] missing. *)
Definition sample_net_no_entry : trace -> json -> result json :=
  serve (filter (fun kv => negb (String.eqb (fst kv) sample_entry_url))
                sample_documents)
        not_found.

(** The same service with the service index unreachable: the request is
    cancelled. *)
Definition sample_net_no_index : trace -> json -> result json :=
  serve (filter (fun kv => negb (String.eqb (fst kv) PROD_INDEX))
                sample_documents)
        (mkExn CancelledError 0).

(** ** Vocabulary of the trace properties *)

Definition is_get (ev : event) : bool :=
  match ev with
  | Get _ => true
  | _ => false
  end.

(** A client computation that only adds requests to the trace. *)
Definition gets_only {A : Type} (m : M trace A) : Prop :=
  forall tr, exists evs, snd (m tr) = tr ++ evs /\ forallb is_get evs = true.

(** What one sub-load of the aggregator does to the package and to the
    trace: it adds requests only, assigns its field through [setter] when
    it completes, and leaves the package as it found it when it raises. *)
Definition sub_load_spec {V : Type} (m : PM unit)
    (setter : NugetPackage.t -> V -> NugetPackage.t) : Prop :=
  forall p tr r p1 tr1,
    m (p, tr) = (r, (p1, tr1)) ->
    (exists evs, tr1 = tr ++ evs /\ forallb is_get evs = true)
    /\ match r with
       | Ok _ => exists v, p1 = setter p v
       | Raise _ => p1 = p
       end.

(** The package after a sub-load that the flag [flag] enables or skips. *)
Definition after_sub_load {V : Type} (flag : bool)
    (setter : NugetPackage.t -> V -> NugetPackage.t)
    (p p1 : NugetPackage.t) : Prop :=
  if flag then exists v, p1 = setter p v else p1 = p.

(** The event the [except] block of [load] adds for [exc]. *)
Definition log_event (id : string) (exc : exn) : event :=
  if can_ignore_exception exc
  then LogDebug id (class_name (exc_type exc))
  else PrintExc exc.

(** A method of the package that only adds events to the trace. *)
Definition extends_trace {A : Type} (m : PM A) : Prop :=
  forall p tr, exists evs, snd (snd (m (p, tr))) = tr ++ evs.

(** The page [self] once the document [doc] holding its leaves is known:
    the end of [RegistrationPage.load]. *)
Definition page_loaded_from (self : RegistrationPage.t) (doc : json)
    : result RegistrationPage.t :=
  rbind (leaves_of doc) (fun leaves =>
  Ok (RegistrationPage.mk (RegistrationPage.count self) doc (Some leaves))).

Definition sample_catalog_client : NugetCatalogClient.t :=
  NugetCatalogClient.mk
    (NugetClient.mk CATALOG_TYPE
       (Some "https://api.nuget.org/v3/catalog0/index.json"))
    sample_catalog.

Definition sample_registration_client : NugetClient.t :=
  NugetClient.mk REGISTRATION_TYPE
    (Some "https://api.nuget.org/v3/registration").

(** ** Vocabulary of the string properties *)

(** The first character of [s] satisfies [f]. *)
Definition starts_with (f : ascii -> bool) (s : string) : bool :=
  match s with
  | String a _ => f a
  | EmptyString => false
  end.

(** The last character of [s] satisfies [f]. *)
Fixpoint ends_with (f : ascii -> bool) (s : string) : bool :=
  match s with
  | EmptyString => false
  | String a EmptyString => f a
  | String _ s' => ends_with f s'
  end.

Fixpoint all_chars (f : ascii -> bool) (s : string) : bool :=
  match s with
  | EmptyString => true
  | String a s' => f a && all_chars f s'
  end.

Fixpoint count_chars (f : ascii -> bool) (s : string) : nat :=
  match s with
  | EmptyString => 0
  | String a s' => (if f a then 1 else 0) + count_chars f s'
  end.

Definition is_slash (a : ascii) : bool := Ascii.eqb a "/"%char.

Definition is_comma (a : ascii) : bool := Ascii.eqb a ","%char.

(** [','.join(fields)] *)
Fixpoint join_comma (fields : list string) : string :=
  match fields with
  | [] => EmptyString
  | [field] => field
  | field :: rest => (field ++ "," ++ join_comma rest)%string
  end.

(** Dropping the leading characters that satisfy [f]: the common shape of
    [lstrip_char] and [lstrip]. *)
Fixpoint lstrip_by (f : ascii -> bool) (s : string) : string :=
  match s with
  | String a s' => if f a then lstrip_by f s' else s
  | EmptyString => EmptyString
  end.

Definition rstrip_by (f : ascii -> bool) (s : string) : string :=
  rev_string (lstrip_by f (rev_string s EmptyString)) EmptyString.

Definition not_comma (a : ascii) : bool := negb (is_comma a).

(** [s.strip()] takes characters away from the two ends of [s] only:
    what it returns stands inside [s]. *)
Definition strip_inside (py : python) : Prop :=
  forall s, exists before after,
    s = (before ++ strip py s ++ after)%string.

(** [m.get(k, default)] on the members of a dict. *)
Definition lookup_default (k : string) (m : list (string * json))
    (default : json) : json :=
  match lookup k m with
  | Some v => v
  | None => default
  end.

Definition not_p (a : ascii) : bool := negb (Ascii.eqb a "p"%char).

(** ** Vocabulary of the discovery properties *)

(** The resource [node] declares the type [type_]. *)
Definition has_type (type_ : string) (node : json) : bool :=
  match getitem node "@type" with
  | Ok ty => is_str type_ ty
  | Raise _ => false
  end.

(** The resource [node] declares a type, and it is not [type_]. *)
Definition has_other_type (type_ : string) (node : json) : bool :=
  match getitem node "@type" with
  | Ok ty => negb (is_str type_ ty)
  | Raise _ => false
  end.

(** A catalog client whose root document has an item without [@id]. *)
Definition sample_broken_catalog_client : NugetCatalogClient.t :=
  NugetCatalogClient.mk
    (NugetClient.mk CATALOG_TYPE
       (Some "https://api.nuget.org/v3/catalog0/index.json"))
    (JObj [("items",
            JArr [JObj [("@id",
                         JStr "https://api.nuget.org/v3/catalog0/page0.json")];
                  JObj []])]).

(** ** Ages of a package

    [days_alive] and [days_abandoned] rest on two things that are outside
    the module and are taken as parameters: the truth value Python gives
    to a floating-point number, and the number of whole days from the date
    a time stamp denotes to [UTC_TOMORROW], that is
    [(UTC_TOMORROW - dateparser.parse(stamp)).days], which raises when the
    stamp cannot be parsed or carries no time zone. *)

Section Ages.

Variable float_truth : string -> bool.

Variable days_to_tomorrow : json -> result Z.

(** [bool(j)] *)
Definition py_bool (j : json) : bool :=
  match j with
  | JNull => false
  | JBool b => b
  | JNum n => negb (n =? 0)%Z
  | JFloat literal => float_truth literal
  | JStr s => negb (String.eqb s EmptyString)
  | JArr items => match items with [] => false | _ :: _ => true end
  | JObj members => match members with [] => false | _ :: _ => true end
  end.

Definition days_alive (self : NugetPackage.t) : result Z :=
  match NugetPackage.catalog self with
  | None => Raise (builtin_exn AttributeError)
  | Some info =>
      let created := PackageCatalogInfo.created info in
      if negb (py_bool created) then Ok (-1)%Z
      else rbind (days_to_tomorrow created) (fun days => Ok (Z.max days 1))
  end.

Definition days_abandoned (self : NugetPackage.t) : result Z :=
  match NugetPackage.reg self with
  | None => Raise (builtin_exn AttributeError)
  | Some info =>
      rbind (last_updated info) (fun last_updated =>
      if negb (py_bool last_updated) then Ok (-1)%Z
      else rbind (days_to_tomorrow last_updated)
                 (fun days => Ok (Z.max days 1)))
  end.

End Ages.

(** ** Vocabulary of the URL properties *)

(** The characters a quoted parameter is made of. *)
Definition url_safe (a : ascii) : bool :=
  is_unreserved a || Ascii.eqb a "+"%char || Ascii.eqb a "%"%char.

(** The characters that would end or split a query parameter. *)
Definition is_delimiter (a : ascii) : bool :=
  Ascii.eqb a "&"%char || Ascii.eqb a "="%char || Ascii.eqb a "?"%char
  || Ascii.eqb a "#"%char || Ascii.eqb a " "%char || Ascii.eqb a "/"%char.

(** The sample service with a catalog entry that lacks its version. *)
Definition sample_net_bad_entry : trace -> json -> result json :=
  serve ((sample_entry_url, JObj [("id", JStr "Foo")]) :: sample_documents)
        not_found.

(** A registration with two pages, both remote: only the second is
    served, at its own URL. *)
Definition sample_paged_index : json :=
  JObj [("count", JNum 3);
        ("items",
         JArr [JObj [("@id",
                      JStr "https://api.nuget.org/v3/registration/paged.lib/page/1.json");
                     ("count", JNum 2)];
               JObj [("@id",
                      JStr "https://api.nuget.org/v3/registration/paged.lib/page/2.json");
                     ("count", JNum 1)]])].

Definition sample_paged_last_page : json :=
  JObj [("count", JNum 1);
        ("items", JArr [JObj [("catalogEntry", sample_leaf)]])].

Definition sample_net_paged : trace -> json -> result json :=
  serve [("https://api.nuget.org/v3/registration/paged.lib/index.json",
          sample_paged_index);
         ("https://api.nuget.org/v3/registration/paged.lib/page/2.json",
          sample_paged_last_page)]
        not_found.

Definition sample_leaf_object : RegistrationLeaf.t :=
  RegistrationLeaf.mk (JArr []) (JStr EmptyString) (JStr EmptyString)
    (JStr "Foo") (JStr EmptyString) (JBool true) (JStr EmptyString)
    (JStr "2023-06-01T00:00:00Z") (JStr EmptyString) (JArr [])
    (JStr "1.0.0").

(** ** Vocabulary of the failure classification *)

(** The errors raised on a response whose body cannot be read as JSON: a
    body that is not JSON ([JSONDecodeError]), a body of another content
    type ([ContentTypeError]) and a truncated body
    ([ClientPayloadError]). *)
Definition is_malformed_body (exc : exn) : bool :=
  match exc_type exc with
  | JSONDecodeError | ContentTypeError | ClientPayloadError => true
  | _ => false
  end.

(** The classes [ok_filter] tests for, with their subclasses. *)
Definition cancellations : list pyclass := [CancelledError; TimeoutError].

Definition response_errors : list pyclass :=
  [ClientResponseError; ContentTypeError].

Definition client_errors : list pyclass :=
  [ClientError; ClientResponseError; ContentTypeError;
   ClientConnectionError; ClientConnectorError; ClientPayloadError].

(** * Properties *)

(** ** Failure classification *)



(** C6 (amended). [ok_filter] accepts exactly the cancellations and
    timeouts and the response errors, [ContentTypeError] among them, that
    carry a status of 500 or more.  [can_ignore_exception] accepts exactly
    what [ok_filter] accepts and the instances of aiohttp's [ClientError]:
    the connection errors, but also the payload errors and every response
    error whatever its status.  So a response error with a 4xx status is
    not retryable and is ignorable; a body that is not JSON and a
    truncated body are not retryable, the first not ignorable either, the
    second ignorable; and a body of the wrong content type is retryable
    exactly when the response has a status of 500 or more. *)
Theorem ok_filter_classification (exc : exn) :
  (ok_filter exc = true <->
     In (exc_type exc) cancellations
     \/ (In (exc_type exc) response_errors /\ (500 <= code exc)%Z))
  /\ (can_ignore_exception exc = true <->
        ok_filter exc = true \/ In (exc_type exc) client_errors)
  /\ (In (exc_type exc) response_errors ->
      (400 <= code exc < 500)%Z ->
      ok_filter exc = false /\ can_ignore_exception exc = true)
  /\ (exc_type exc = JSONDecodeError ->
      ok_filter exc = false /\ can_ignore_exception exc = false)
  /\ (exc_type exc = ClientPayloadError ->
      ok_filter exc = false /\ can_ignore_exception exc = true)
  /\ (exc_type exc = ContentTypeError ->
      ok_filter exc = (500 <=? code exc)%Z
      /\ can_ignore_exception exc = true).
Proof.
  assert (Hok : ok_filter exc = true <->
            In (exc_type exc) cancellations
            \/ (In (exc_type exc) response_errors /\ (500 <= code exc)%Z)).
  { destruct exc as [cls status].
    unfold ok_filter, isinstance, cancellations, response_errors.
    cbn [exc_type code].
    destruct (Z.leb_spec 500 status) as [Hs | Hs];
      destruct cls; cbn; split;
      try discriminate; try tauto; try (intros _; tauto);
      intros [[H | [H | []]] | [[H | [H | []]] H']];
      try discriminate H; try lia. }
  assert (Hcan : can_ignore_exception exc = true <->
            ok_filter exc = true \/ In (exc_type exc) client_errors).
  { unfold can_ignore_exception. rewrite orb_true_iff.
    destruct exc as [cls status].
    unfold isinstance, client_errors. cbn [exc_type].
    destruct cls; cbn; split; try tauto;
      intros [H | H]; auto;
      try discriminate H;
      repeat (destruct H as [H | H]; try discriminate H); destruct H. }
  split; [exact Hok|]. split; [exact Hcan|].
  destruct exc as [cls status]. cbn [exc_type code] in *.
  unfold response_errors.
  split; [|split; [|split]].
  - intros Hcls Hcode.
    assert (Hlt : (500 <=? status)%Z = false) by (apply Z.leb_gt; lia).
    destruct Hcls as [<- | [<- | []]];
      unfold can_ignore_exception, ok_filter, isinstance; cbn;
      rewrite Hlt; now split.
  - intros ->. now split.
  - intros ->. now split.
  - intros ->. unfold can_ignore_exception, ok_filter, isinstance; cbn.
    split; [|now rewrite orb_true_r].
    now destruct (500 <=? status)%Z.
Qed.

Lemma ok_filter_classification_witness :
  ok_filter (mkExn ClientResponseError 503) = true
  /\ (ok_filter not_found = false /\ can_ignore_exception not_found = true)
  /\ can_ignore_exception (mkExn ClientConnectorError 0) = true.
Proof.
  split; [|split].
  - apply (proj2 (proj1 (ok_filter_classification
                           (mkExn ClientResponseError 503)))).
    right. split; [left; reflexivity | simpl; lia].
  - apply (proj1 (proj2 (proj2 (ok_filter_classification not_found)))).
    + left; reflexivity.
    + simpl; lia.
  - apply (proj2 (proj1 (proj2 (ok_filter_classification
                                  (mkExn ClientConnectorError 0))))).
    right. unfold client_errors. simpl. tauto.
Defined.

(** C6 as stated fails.  A body of the wrong content type on a response
    with status 502 is a malformed body, and [ok_filter] accepts it: the
    transport retries it. *)
Lemma malformed_body_retried_on_5xx :
  ~ (forall exc, is_malformed_body exc = true -> ok_filter exc = false).
Proof.
  intros H. specialize (H (mkExn ContentTypeError 502) eq_refl).
  discriminate H.
Qed.

(** ** Endpoint resolution *)

(** C7. A recognised endpoint name resolves to its hard-coded index URL
    and leaves the trace as it was; any other name raises [ValueError],
    again with the trace untouched, so no request precedes the failure. *)
Theorem get_endpoint_url_resolves (endpoint : string) (tr : trace) :
  (In endpoint VALID_ENDPOINTS ->
   exists url,
     In (endpoint, url)
        [(DEV, DEV_INDEX); (INT, INT_INDEX); (PROD, PROD_INDEX)]
     /\ get_endpoint_url endpoint tr = (Ok url, tr))
  /\ (~ In endpoint VALID_ENDPOINTS ->
      get_endpoint_url endpoint tr = (Raise (builtin_exn ValueError), tr)).
Proof.
  split.
  - intros [H | [H | [H | []]]]; subst endpoint.
    + exists DEV_INDEX; split; [now left | reflexivity].
    + exists INT_INDEX; split; [right; now left | reflexivity].
    + exists PROD_INDEX; split; [right; right; now left | reflexivity].
  - intros Hout.
    unfold get_endpoint_url, check_endpoint, bind.
    destruct (existsb (String.eqb endpoint) VALID_ENDPOINTS) eqn:Hex.
    + exfalso; apply Hout.
      apply existsb_exists in Hex; destruct Hex as [x [Hin Heq]].
      apply String.eqb_eq in Heq; now subst x.
    + reflexivity.
Qed.

Lemma get_endpoint_url_resolves_witness :
  (exists url,
     In (PROD, url) [(DEV, DEV_INDEX); (INT, INT_INDEX); (PROD, PROD_INDEX)]
     /\ get_endpoint_url PROD [] = (Ok url, []))
  /\ get_endpoint_url "STAGING" [Get (JStr "u")]
     = (Raise (builtin_exn ValueError), [Get (JStr "u")]).
Proof.
  split.
  - apply (proj1 (get_endpoint_url_resolves PROD [])).
    right; right; left; reflexivity.
  - apply (proj2 (get_endpoint_url_resolves "STAGING" [Get (JStr "u")])).
    intros [H | [H | [H | []]]]; discriminate H.
Defined.

(** ** Search lookup *)

Lemma find_search_info_skip (py : python) (id : string)
      (before rest : list json) :
  Forall (fun node => is_hit node = true) before ->
  Forall (fun node => hit_matches py id node = false) before ->
  find_search_info py id (before ++ rest) = find_search_info py id rest.
Proof.
  induction before as [|node before IH]; intros Hwf Hno; [reflexivity|].
  inversion Hwf as [|? ? Hnode Hwf']; subst.
  inversion Hno as [|? ? Hn Hno']; subst.
  simpl. unfold is_hit in Hnode. unfold hit_matches in Hn.
  destruct (PackageSearchInfo_init node) as [d|e]; [|discriminate].
  simpl. destruct (PackageSearchInfo.id d); try discriminate.
  simpl. rewrite Hn. now apply IH.
Qed.

(** C5. Over a result set whose nodes are hits with string ids, the lookup
    returns the first hit whose id equals the package id once both are
    lower-cased by [str.lower], whatever that function does beyond ASCII;
    when no hit matches it returns [NULL_SEARCH_INFO], whose attributes
    are the empty id, -1 downloads and [false], and it raises nothing.
    As [str.lower] lower-cases the letters of an ASCII string, the hit
    ["Foo.Bar"] matches the id ["foo.bar"]. *)
Theorem lookup_search_info_case_insensitive
    (py : python) (id : string) (results : NugetSearchResults.t)
    (nodes : list json) :
  getitem (NugetSearchResults._json results) "data" = Ok (JArr nodes) ->
  (forall before node rest d s,
      nodes = before ++ node :: rest ->
      Forall (fun n => is_hit n = true) before ->
      Forall (fun n => hit_matches py id n = false) before ->
      PackageSearchInfo_init node = Ok d ->
      PackageSearchInfo.id d = JStr s ->
      lower py s = lower py id ->
      lookup_search_info py id results = Ok (Hit d))
  /\ (Forall (fun n => is_hit n = true) nodes ->
      Forall (fun n => hit_matches py id n = false) nodes ->
      lookup_search_info py id results = Ok NULL_SEARCH_INFO
      /\ search_info_id NULL_SEARCH_INFO = JStr EmptyString
      /\ search_info_total_downloads NULL_SEARCH_INFO = JNum (-1)
      /\ search_info_verified NULL_SEARCH_INFO = JBool false)
  /\ (lower_on_ascii py ->
      hit_matches py "foo.bar"
        (JObj [("id", JStr "Foo.Bar"); ("totalDownloads", JNum 7);
               ("verified", JBool true)]) = true).
Proof.
  intros Hdata. unfold lookup_search_info. rewrite Hdata. simpl.
  split; [|split].
  - intros before node rest d s Hnodes Hwf Hno Hd Hid Hlow.
    subst nodes. rewrite find_search_info_skip by assumption.
    simpl. rewrite Hd. simpl. rewrite Hid. simpl.
    rewrite Hlow, String.eqb_refl. reflexivity.
  - intros Hwf Hno. repeat split.
    rewrite <- (app_nil_r nodes).
    rewrite find_search_info_skip by assumption. reflexivity.
  - intros Hascii. unfold hit_matches. simpl.
    rewrite (Hascii "Foo.Bar" eq_refl), (Hascii "foo.bar" eq_refl).
    reflexivity.
Qed.

Lemma lookup_search_info_case_insensitive_witness :
  lookup_search_info sample_python "foo.bar" sample_results
  = Ok (Hit (PackageSearchInfo.mk (JStr "Foo.Bar") (JNum 7) (JBool true)))
  /\ lookup_search_info sample_python "Missing" sample_results
     = Ok NULL_SEARCH_INFO
  /\ hit_matches sample_python "foo.bar"
       (JObj [("id", JStr "Foo.Bar"); ("totalDownloads", JNum 7);
              ("verified", JBool true)]) = true.
Proof.
  split; [|split].
  - eapply (proj1 (lookup_search_info_case_insensitive sample_python
                     "foo.bar" sample_results sample_hits eq_refl)
              [sample_hit_other]).
    + reflexivity.
    + repeat constructor.
    + repeat constructor.
    + reflexivity.
    + reflexivity.
    + reflexivity.
  - apply (proj1 (proj2 (lookup_search_info_case_insensitive sample_python
                           "Missing" sample_results sample_hits eq_refl))).
    + repeat constructor.
    + repeat constructor.
  - apply (proj2 (proj2 (lookup_search_info_case_insensitive sample_python
                           "foo.bar" sample_results sample_hits eq_refl))).
    intros s _. reflexivity.
Defined.

(** ** Registration: empty indexes and empty pages *)

Section Registration_empty.

Variable py : python.
Variable net : trace -> json -> result json.

(** C10. Loading a [PackageRegistrationInfo] that has no page raises
    [IndexError] without issuing a request, hence so does [load_package]
    when the index it fetched lists no page; and [newest_leaf] raises
    [IndexError] on a loaded page without leaves, also through the
    property of the same name of the index. *)
Theorem registration_requires_pages_and_leaves :
  (forall (self : PackageRegistrationInfo.t) (tr : trace),
      PackageRegistrationInfo._pages self = [] ->
      PackageRegistrationInfo_load net self tr
      = (Raise (builtin_exn IndexError), tr))
  /\ (forall (cli : NugetClient.t) (id_ : string) (tr : trace)
             (reg_json count : json),
         net tr (JStr (reg_url py cli id_)) = Ok reg_json ->
         getitem reg_json "count" = Ok count ->
         getitem reg_json "items" = Ok (JArr []) ->
         load_package py net cli id_ tr
         = (Raise (builtin_exn IndexError),
            tr ++ [Get (JStr (reg_url py cli id_))]))
  /\ (forall page : RegistrationPage.t,
         RegistrationPage._leaves page = Some [] ->
         RegistrationPage_newest_leaf page = Raise (builtin_exn IndexError))
  /\ (forall (self : PackageRegistrationInfo.t)
             (before : list RegistrationPage.t) (page : RegistrationPage.t),
         PackageRegistrationInfo._pages self = before ++ [page] ->
         RegistrationPage._leaves page = Some [] ->
         newest_leaf self = Raise (builtin_exn IndexError)).
Proof.
  repeat split.
  - intros self tr Hpages.
    unfold PackageRegistrationInfo_load, bind, lift. now rewrite Hpages.
  - intros cli id_ tr reg_json count Hnet Hcount Hitems.
    unfold load_package, bind, client_get, lift. rewrite Hnet.
    unfold PackageRegistrationInfo_init. rewrite Hcount, Hitems. reflexivity.
  - intros page Hleaves.
    unfold RegistrationPage_newest_leaf. now rewrite Hleaves.
  - intros self before page Hpages Hleaves.
    unfold newest_leaf, last_item. rewrite Hpages.
    destruct before as [|p0 before]; simpl.
    + unfold RegistrationPage_newest_leaf. now rewrite Hleaves.
    + rewrite last_last. simpl.
      unfold RegistrationPage_newest_leaf. now rewrite Hleaves.
Qed.

End Registration_empty.

(** ** Catalog pages *)

Lemma NugetPage_init_url (py : python) (url : json) (page : NugetPage.t) :
  NugetPage_init py url = Ok page -> NugetPage._url page = url.
Proof.
  unfold NugetPage_init. destruct url; try discriminate.
  destruct (search_pageno s) as [ds|]; [|discriminate].
  destruct (py_int py ds); [|discriminate].
  intros H; injection H as <-. reflexivity.
Qed.

Lemma firstn_min {A : Type} (n : nat) (l : list A) :
  firstn (Nat.min n (List.length l)) l = firstn n l.
Proof.
  destruct (Nat.le_ge_cases n (List.length l)) as [Hle | Hge].
  - now rewrite Nat.min_l.
  - rewrite Nat.min_r by assumption.
    now rewrite firstn_all, firstn_all2.
Qed.

(** The URLs [load_pages] visits are the [@id]s of the items of the root
    document, in the order of the document. *)
Lemma page_urls_of_items (self : NugetCatalogClient.t)
      (nodes urls : list json) :
  getitem (NugetCatalogClient._catalog_json self) "items" = Ok (JArr nodes) ->
  Forall2 (fun node url => getitem node "@id" = Ok url) nodes urls ->
  page_urls self = Ok urls.
Proof.
  intros Hitems Hids. unfold page_urls. rewrite Hitems. simpl.
  clear Hitems.
  induction Hids as [|node url nodes urls Hid _ IH]; [reflexivity|].
  cbn [rmap]. rewrite Hid. cbn [rbind]. now rewrite IH.
Qed.

Section Catalog_pages.

Variable py : python.
Variable net : trace -> json -> result json.

(** One turn of the generator loop, spelled out. *)
Lemma resume_cons (url : json) (rest : list json) (tr : trace) :
  resume py net (url :: rest) tr =
  match NugetPage_init py url with
  | Raise e => (Raise e, (GenFinished, tr))
  | Ok page =>
      match net tr url with
      | Ok doc =>
          (Ok (Some (NugetPage.mk (NugetPage.pageno page) url doc)),
           (GenSuspended rest, tr ++ [Get url]))
      | Raise e => (Raise e, (GenFinished, tr ++ [Get url]))
      end
  end.
Proof.
  unfold resume, NugetPage_load, client_get, bind, lift, ret.
  destruct (NugetPage_init py url) as [page|e] eqn:Hinit; [|reflexivity].
  rewrite (NugetPage_init_url _ _ _ Hinit). cbv beta.
  destruct (net tr url); reflexivity.
Qed.

Lemma take_pages_finished (n : nat) (tr : trace) :
  take_pages py net n (GenFinished, tr) = (Ok [], (GenFinished, tr)).
Proof. destruct n; reflexivity. Qed.

Lemma take_pages_cons (n : nat) (url : json) (rest : list json)
      (tr : trace) :
  take_pages py net (S n) (GenSuspended (url :: rest), tr) =
  match NugetPage_init py url with
  | Raise e => (Raise e, (GenFinished, tr))
  | Ok page =>
      match net tr url with
      | Ok doc =>
          let (r, st) :=
            take_pages py net n (GenSuspended rest, tr ++ [Get url]) in
          match r with
          | Ok pages =>
              (Ok (NugetPage.mk (NugetPage.pageno page) url doc :: pages),
               st)
          | Raise e => (Raise e, st)
          end
      | Raise e => (Raise e, (GenFinished, tr ++ [Get url]))
      end
  end.
Proof.
  cbn [take_pages]. unfold bind at 1. cbn [anext]. rewrite resume_cons.
  destruct (NugetPage_init py url) as [page|e]; [|reflexivity].
  destruct (net tr url) as [doc|e]; [|reflexivity].
  unfold bind, ret.
  destruct (take_pages py net n (GenSuspended rest, tr ++ [Get url]))
    as [[pages|e] st]; reflexivity.
Qed.

(** What [n] turns of the loop request, from any point of the iteration:
    a prefix of the URLs still to visit, in their order. *)
Lemma take_pages_suspended (n : nat) :
  forall (urls : list json) (tr : trace),
  exists m,
    (m <= Nat.min n (List.length urls))%nat
    /\ snd (snd (take_pages py net n (GenSuspended urls, tr)))
       = tr ++ map Get (firstn m urls)
    /\ forall pages,
         fst (take_pages py net n (GenSuspended urls, tr)) = Ok pages ->
         m = Nat.min n (List.length urls)
         /\ map NugetPage._url pages = firstn m urls
         /\ fst (snd (take_pages py net n (GenSuspended urls, tr)))
            = (if (n <=? List.length urls)%nat
               then GenSuspended (skipn n urls) else GenFinished).
Proof.
  induction n as [|n IH]; intros urls tr.
  - exists 0%nat. simpl. rewrite app_nil_r.
    split; [lia|]. split; [reflexivity|].
    intros pages [= <-]. repeat split.
  - destruct urls as [|url rest].
    + exists 0%nat. simpl. rewrite app_nil_r.
      split; [lia|]. split; [reflexivity|].
      intros pages [= <-]. repeat split.
    + rewrite take_pages_cons.
      destruct (NugetPage_init py url) as [page|e] eqn:Hinit.
      * destruct (net tr url) as [doc|e].
        -- destruct (IH rest (tr ++ [Get url])) as (m & Hm & Htr & Hok).
           exists (S m).
           destruct (take_pages py net n (GenSuspended rest, tr ++ [Get url]))
             as [[pages|e] [g' tr']] eqn:Hrec.
           ++ pose proof (eq_trans
                (eq_sym (f_equal (fun x => snd (snd x)) Hrec)) Htr) as Htr'.
              destruct (Hok pages (f_equal fst Hrec)) as (Hmin & Hurls & Hg).
              pose proof (eq_trans
                (eq_sym (f_equal (fun x => fst (snd x)) Hrec)) Hg) as Hg'.
              cbn [fst snd] in *.
              split; [simpl; lia|].
              split; [subst tr'; simpl; now rewrite <- app_assoc|].
              intros pages' [= <-]. simpl.
              split; [lia|]. split; [now rewrite Hurls | exact Hg'].
           ++ pose proof (eq_trans
                (eq_sym (f_equal (fun x => snd (snd x)) Hrec)) Htr) as Htr'.
              cbn [fst snd] in *.
              split; [simpl; lia|].
              split; [subst tr'; simpl; now rewrite <- app_assoc|].
              discriminate.
        -- exists 1%nat. cbn [fst snd].
           split; [simpl; lia|]. split; [reflexivity|]. discriminate.
      * exists 0%nat. cbn [fst snd]. simpl. rewrite app_nil_r.
        split; [lia|]. split; [reflexivity|]. discriminate.
Qed.

Lemma take_pages_created (n : nat) (self : NugetCatalogClient.t)
      (urls : list json) (tr : trace) :
  page_urls self = Ok urls ->
  take_pages py net (S n) (load_pages self, tr)
  = take_pages py net (S n) (GenSuspended urls, tr).
Proof.
  intros Hurls. cbn [take_pages]. unfold bind at 1 3, load_pages.
  cbn [anext]. now rewrite Hurls.
Qed.

(** When every URL names a page and every request is answered, the
    iteration does not raise. *)
Lemma take_pages_succeeds (n : nat) :
  forall (urls : list json) (tr : trace),
    Forall (fun url => exists page, NugetPage_init py url = Ok page) urls ->
    (forall history url, In url urls -> exists doc, net history url = Ok doc) ->
    exists pages, fst (take_pages py net n (GenSuspended urls, tr)) = Ok pages.
Proof.
  induction n as [|n IH]; intros urls tr Hwf Hnet.
  - now exists [].
  - destruct urls as [|url rest]; [now exists []|].
    rewrite take_pages_cons.
    inversion Hwf as [|? ? [page Hpage] Hwf']; subst.
    rewrite Hpage.
    destruct (Hnet tr url (or_introl eq_refl)) as [doc Hdoc]. rewrite Hdoc.
    destruct (IH rest (tr ++ [Get url]) Hwf') as [pages Hpages].
    { intros history u Hin. apply Hnet. now right. }
    destruct (take_pages py net n (GenSuspended rest, tr ++ [Get url]))
      as [[pages'|e] st] eqn:Hrec.
    + eexists; reflexivity.
    + pose proof (eq_trans (eq_sym (f_equal fst Hrec)) Hpages) as Habs.
      discriminate Habs.
Qed.

Lemma load_pages_from_urls
    (self : NugetCatalogClient.t) (urls : list json)
    (n : nat) (tr : trace) :
  page_urls self = Ok urls ->
  exists m,
    (m <= Nat.min n (List.length urls))%nat
    /\ snd (snd (take_pages py net n (load_pages self, tr)))
       = tr ++ map Get (firstn m urls)
    /\ forall pages,
         fst (take_pages py net n (load_pages self, tr)) = Ok pages ->
         m = Nat.min n (List.length urls)
         /\ List.length pages = m
         /\ map NugetPage._url pages = firstn m urls
         /\ (0 < n <= List.length urls ->
             fst (snd (take_pages py net n (load_pages self, tr)))
             = GenSuspended (skipn n urls))%nat.
Proof.
  intros Hurls. destruct n as [|n].
  - exists 0%nat. simpl. rewrite app_nil_r.
    split; [lia|]. split; [reflexivity|].
    intros pages [= <-]. repeat split. lia.
  - rewrite (take_pages_created n self urls tr Hurls).
    destruct (take_pages_suspended (S n) urls tr) as (m & Hm & Htr & Hok).
    exists m. split; [exact Hm|]. split; [exact Htr|].
    intros pages Hpages.
    destruct (Hok pages Hpages) as (Hmin & Hmap & Hg).
    split; [exact Hmin|]. split; [|split; [exact Hmap|]].
    + rewrite <- (length_map NugetPage._url), Hmap, length_firstn. lia.
    + intros Hn. rewrite Hg.
      destruct (S n <=? List.length urls)%nat eqn:Hle; [reflexivity|].
      apply Nat.leb_gt in Hle. lia.
Qed.

(** C3. Iterating [load_pages] for at most [n] pages over a catalog whose
    root document has the items [nodes], [urls] being their [@id]s in the
    order of the document: the requests issued are exactly the first [m]
    of these URLs, in that order and once each, for some [m] within [n]
    and the number of items; when the iteration does not raise, [m] is
    the number of pages delivered, the pages are those of the first [m]
    URLs, and the generator is left suspended before the next URL, so
    that after the k-th page has been delivered the request for the
    (k+1)-th has not been issued.  When every URL names a page and the
    transport answers every request, the iteration delivers the pages of
    the first [n] URLs of the document and has requested exactly these. *)
Theorem load_pages_sequential
    (self : NugetCatalogClient.t) (nodes urls : list json)
    (n : nat) (tr : trace) :
  getitem (NugetCatalogClient._catalog_json self) "items" = Ok (JArr nodes) ->
  Forall2 (fun node url => getitem node "@id" = Ok url) nodes urls ->
  (exists m,
      (m <= Nat.min n (List.length nodes))%nat
      /\ snd (snd (take_pages py net n (load_pages self, tr)))
         = tr ++ map Get (firstn m urls)
      /\ forall pages,
           fst (take_pages py net n (load_pages self, tr)) = Ok pages ->
           m = Nat.min n (List.length nodes)
           /\ List.length pages = m
           /\ map NugetPage._url pages = firstn m urls
           /\ (0 < n <= List.length nodes ->
               fst (snd (take_pages py net n (load_pages self, tr)))
               = GenSuspended (skipn n urls))%nat)
  /\ (Forall (fun url => exists page, NugetPage_init py url = Ok page) urls ->
      (forall history url,
          In url urls -> exists doc, net history url = Ok doc) ->
      exists pages,
        fst (take_pages py net n (load_pages self, tr)) = Ok pages
        /\ map NugetPage._url pages = firstn n urls
        /\ snd (snd (take_pages py net n (load_pages self, tr)))
           = tr ++ map Get (firstn n urls)).
Proof.
  intros Hitems Hids.
  pose proof (page_urls_of_items self nodes urls Hitems Hids) as Hurls.
  rewrite (Forall2_length Hids).
  destruct (load_pages_from_urls self urls n tr Hurls)
    as (m & Hm & Htr & Hok).
  split.
  - exists m. split; [exact Hm|]. split; [exact Htr|]. exact Hok.
  - intros Hwf Hnet.
    assert (Hsome : exists pages,
               fst (take_pages py net n (load_pages self, tr)) = Ok pages).
    { destruct n as [|n]; [now exists []|].
      rewrite (take_pages_created n self urls tr Hurls).
      now apply take_pages_succeeds. }
    destruct Hsome as [pages Hpages]. exists pages.
    destruct (Hok pages Hpages) as (Hmin & _ & Hmap & _).
    subst m. rewrite firstn_min in Hmap, Htr. now repeat split.
Qed.

End Catalog_pages.

(** ** Sample runs *)

Example sample_load_all :
  fst (load sample_python sample_net sample_ctx true true true (sample_package, []))
  = Ok (NugetPackage.mk "Foo" (JStr "1.0.0") (JStr sample_entry_url)
          (Some (PackageCatalogInfo.mk ["Ann"; "Bob"]
                   (JStr "2023-01-01T00:00:00Z") (JStr EmptyString)
                   (JStr "Foo") (JBool false) (JBool true) JNull (JArr [])
                   (JStr "1.0.0")))
          (fst (snd (load sample_python sample_net sample_ctx true true true
                       (sample_package, [])))).(NugetPackage.reg)
          (Some (Hit (PackageSearchInfo.mk (JStr "Foo") (JNum 100)
                        (JBool true))))
          true).
Proof. vm_compute. reflexivity. Qed.

Example sample_load_all_trace :
  snd (snd (load sample_python sample_net sample_ctx true true true (sample_package, [])))
  = [Get (JStr sample_entry_url);
     Get (JStr PROD_INDEX);
     Get (JStr "https://api.nuget.org/v3/registration/foo/index.json");
     Get (JStr PROD_INDEX);
     Get (JStr "https://api.nuget.org/query?q=id%3A%22Foo%22&prerelease=True")].
Proof. vm_compute. reflexivity. Qed.

(** ** The monad *)

Lemma bind_inv {S A B : Type} (m : M S A) (k : A -> M S B)
      (s s' : S) (r : result B) :
  bind m k s = (r, s') ->
  (exists a s1, m s = (Ok a, s1) /\ k a s1 = (r, s'))
  \/ (exists e, m s = (Raise e, s') /\ r = Raise e).
Proof.
  unfold bind. destruct (m s) as [[a|e] s1].
  - intros H. left. now exists a, s1.
  - intros [= <- <-]. right. now exists e.
Qed.

Lemma bind_ok {S A B : Type} (m : M S A) (k : A -> M S B)
      (s s' : S) (a : A) :
  m s = (Ok a, s') -> bind m k s = k a s'.
Proof. unfold bind. now intros ->. Qed.

Lemma bind_raise {S A B : Type} (m : M S A) (k : A -> M S B)
      (s s' : S) (e : exn) :
  m s = (Raise e, s') -> bind m k s = (Raise e, s').
Proof. unfold bind. now intros ->. Qed.

(** ** Traces of the clients *)

Create HintDb trace_db.

Lemma gets_only_ret {A : Type} (a : A) : gets_only (ret a).
Proof. intros tr; exists []; simpl; now rewrite app_nil_r. Qed.

Lemma gets_only_raise {A : Type} (e : exn) : gets_only (@raise trace A e).
Proof. intros tr; exists []; simpl; now rewrite app_nil_r. Qed.

Lemma gets_only_lift {A : Type} (r : result A) : gets_only (lift r).
Proof. intros tr; exists []; simpl; now rewrite app_nil_r. Qed.

Lemma gets_only_bind {A B : Type} (m : M trace A) (k : A -> M trace B) :
  gets_only m -> (forall a, gets_only (k a)) -> gets_only (bind m k).
Proof.
  intros Hm Hk tr. unfold bind.
  destruct (Hm tr) as (evs & Htr & Hevs).
  destruct (m tr) as [[a|e] tr1]; simpl in Htr; subst tr1.
  - destruct (Hk a (tr ++ evs)) as (evs' & Htr' & Hevs').
    exists (evs ++ evs'). rewrite Htr', app_assoc, forallb_app, Hevs, Hevs'.
    now split.
  - now exists evs.
Qed.

#[local] Hint Resolve gets_only_ret gets_only_raise gets_only_lift : trace_db.

Ltac gets_only_steps :=
  repeat first
    [ solve [auto with trace_db] | apply gets_only_bind; [|intros ?] ].

Section Client_traces.

Variable py : python.
Variable net : trace -> json -> result json.
Variable ctx : NugetContext.

Lemma gets_only_client_get (url : json) : gets_only (client_get net url).
Proof. intros tr; exists [Get url]; now split. Qed.

Hint Resolve gets_only_client_get : trace_db.

Lemma gets_only_NugetClient_load (self : NugetClient.t) :
  gets_only (NugetClient_load net ctx self).
Proof. unfold NugetClient_load, load_index. gets_only_steps. Qed.

Lemma gets_only_RegistrationPage_load (self : RegistrationPage.t) :
  gets_only (RegistrationPage_load net self).
Proof.
  unfold RegistrationPage_load. gets_only_steps.
  destruct (negb _); gets_only_steps.
Qed.

Hint Resolve gets_only_NugetClient_load gets_only_RegistrationPage_load
  : trace_db.

Lemma gets_only_load_package (self : NugetClient.t) (id_ : string) :
  gets_only (load_package py net self id_).
Proof.
  unfold load_package, PackageRegistrationInfo_load. gets_only_steps.
Qed.

Lemma gets_only_search (self : NugetClient.t) (q : string) :
  gets_only (search net self q).
Proof. unfold search, NugetSearchResults_load. gets_only_steps. Qed.

End Client_traces.

(** ** Traces of the methods of the package *)

Lemma extends_trace_bind {A B : Type} (m : PM A) (k : A -> PM B) :
  extends_trace m -> (forall a, extends_trace (k a)) ->
  extends_trace (bind m k).
Proof.
  intros Hm Hk p tr. unfold bind.
  destruct (Hm p tr) as (evs & Htr).
  destruct (m (p, tr)) as [[a|e] [p1 tr1]]; cbn [fst snd] in Htr; subst tr1.
  - destruct (Hk a p1 (tr ++ evs)) as (evs' & Htr').
    exists (evs ++ evs'). now rewrite Htr', app_assoc.
  - now exists evs.
Qed.

Lemma extends_trace_io {A : Type} (m : M trace A) :
  gets_only m -> extends_trace (io m).
Proof.
  intros Hm p tr. destruct (Hm tr) as (evs & Htr & _).
  exists evs. unfold io; cbn [fst snd]. now destruct (m tr).
Qed.

Lemma extends_trace_lift {A : Type} (r : result A) : extends_trace (lift r).
Proof. intros p tr; exists []; simpl; now rewrite app_nil_r. Qed.

Lemma extends_trace_self : extends_trace self_.
Proof. intros p tr; exists []; simpl; now rewrite app_nil_r. Qed.

Lemma extends_trace_assign (f : NugetPackage.t -> NugetPackage.t) :
  extends_trace (assign f).
Proof. intros p tr; exists []; simpl; now rewrite app_nil_r. Qed.

#[local] Hint Resolve extends_trace_lift extends_trace_self
  extends_trace_assign : trace_db.

(** ** The aggregator, sub-load by sub-load *)

Section Aggregator.

Variable py : python.
Variable net : trace -> json -> result json.
Variable ctx : NugetContext.

Lemma io_run {A : Type} (m : M trace A) (p : NugetPackage.t) (tr : trace) :
  io m (p, tr) = (fst (m tr), (p, snd (m tr))).
Proof. unfold io; simpl. now destruct (m tr). Qed.

Lemma _load_catalog_info_spec :
  sub_load_spec (_load_catalog_info py net) NugetPackage.set_catalog.
Proof.
  intros p tr r p1 tr1.
  unfold _load_catalog_info, client_get, bind, self_, io, lift, assign.
  cbn [fst snd].
  destruct (net tr (NugetPackage._catalog_url p)) as [j|e].
  - destruct (PackageCatalogInfo_init py j) as [info|e];
      intros [= <- <- <-];
      (split; [exists [Get (NugetPackage._catalog_url p)]; now split|]).
    + now exists info.
    + reflexivity.
  - intros [= <- <- <-].
    split; [exists [Get (NugetPackage._catalog_url p)]; now split|].
    reflexivity.
Qed.

Lemma _load_reg_info_spec :
  sub_load_spec (_load_reg_info py net ctx) NugetPackage.set_reg.
Proof.
  intros p tr r p1 tr1.
  unfold _load_reg_info, bind. rewrite io_run.
  destruct (gets_only_NugetClient_load net ctx NugetRegistrationClient_init tr)
    as (evs & Htr & Hevs).
  destruct (NugetClient_load net ctx NugetRegistrationClient_init tr)
    as [[cli|e] tr2]; cbn [fst snd] in *; subst tr2.
  - unfold self_ at 1. cbn [fst snd]. rewrite io_run.
    destruct (gets_only_load_package py net cli (NugetPackage.id p) (tr ++ evs))
      as (evs' & Htr' & Hevs').
    destruct (load_package py net cli (NugetPackage.id p) (tr ++ evs))
      as [[info|e] tr3]; cbn [fst snd] in *; subst tr3;
      unfold assign; cbn [fst snd]; intros [= <- <- <-];
      (split; [exists (evs ++ evs');
               now rewrite app_assoc, forallb_app, Hevs, Hevs'|]).
    + now exists info.
    + reflexivity.
  - intros [= <- <- <-]. split; [now exists evs | reflexivity].
Qed.

Lemma _load_search_info_spec :
  sub_load_spec (_load_search_info py net ctx) NugetPackage.set_search.
Proof.
  intros p tr r p1 tr1.
  unfold _load_search_info, bind. rewrite io_run.
  destruct (gets_only_NugetClient_load net ctx NugetSearchClient_init tr)
    as (evs & Htr & Hevs).
  destruct (NugetClient_load net ctx NugetSearchClient_init tr)
    as [[cli|e] tr2]; cbn [fst snd] in *; subst tr2.
  - unfold self_ at 1. cbn [fst snd]. rewrite io_run.
    match goal with
    | |- context [search net cli ?q ?t] =>
        destruct (gets_only_search net cli q t) as (evs' & Htr' & Hevs');
        destruct (search net cli q t) as [[results|e] tr3]
    end; cbn [fst snd] in *; subst tr3.
    + unfold lift, assign.
      destruct (lookup_search_info py (NugetPackage.id p) results)
        as [found|e]; cbn [fst snd]; intros [= <- <- <-];
        (split; [exists (evs ++ evs');
                 now rewrite app_assoc, forallb_app, Hevs, Hevs'|]).
      * now exists found.
      * reflexivity.
    + intros [= <- <- <-].
      split; [|reflexivity].
      exists (evs ++ evs'). now rewrite app_assoc, forallb_app, Hevs, Hevs'.
  - intros [= <- <- <-]. split; [now exists evs | reflexivity].
Qed.

Lemma NugetClient_load_trace (self : NugetClient.t) (tr : trace) :
  snd (NugetClient_load net ctx self tr) = tr ++ [Get (endpoint_url ctx)].
Proof.
  unfold NugetClient_load, load_index, client_get, bind, lift, ret.
  destruct (net tr (endpoint_url ctx)) as [j|e]; [|reflexivity].
  destruct (getitem j "resources") as [nodes|e]; [|reflexivity].
  destruct (iter nodes) as [l|e]; [|reflexivity].
  destruct (first_resource (NugetClient._type self) l) as [url|e];
    [|reflexivity].
  destruct (str_rstrip_slash url); reflexivity.
Qed.

(** A method that starts by loading a client of its own starts with the
    request for the service index. *)
Lemma discovery_first {A : Type} (self : NugetClient.t)
      (k : NugetClient.t -> PM A) (p : NugetPackage.t) (tr : trace) :
  (forall cli, extends_trace (k cli)) ->
  exists rest,
    snd (snd (bind (io (NugetClient_load net ctx self)) k (p, tr)))
    = tr ++ Get (endpoint_url ctx) :: rest.
Proof.
  intros Hk. unfold bind. rewrite io_run, NugetClient_load_trace.
  destruct (fst (NugetClient_load net ctx self tr)) as [cli|e].
  - destruct (Hk cli p (tr ++ [Get (endpoint_url ctx)])) as (evs & ->).
    exists evs. now rewrite <- app_assoc.
  - now exists [].
Qed.

Lemma _load_reg_info_first_request (p : NugetPackage.t) (tr : trace) :
  exists rest,
    snd (snd (_load_reg_info py net ctx (p, tr)))
    = tr ++ Get (endpoint_url ctx) :: rest.
Proof.
  unfold _load_reg_info. apply discovery_first. intros cli.
  repeat first
    [ solve [auto with trace_db]
    | apply extends_trace_io; apply gets_only_load_package
    | apply extends_trace_bind; [|intros ?] ].
Qed.

Lemma _load_search_info_first_request (p : NugetPackage.t) (tr : trace) :
  exists rest,
    snd (snd (_load_search_info py net ctx (p, tr)))
    = tr ++ Get (endpoint_url ctx) :: rest.
Proof.
  unfold _load_search_info. apply discovery_first. intros cli.
  repeat first
    [ solve [auto with trace_db]
    | apply extends_trace_io; apply gets_only_search
    | apply extends_trace_bind; [|intros ?] ].
Qed.

(** A sub-load behind its flag. *)
Lemma guarded_sub_load_spec {V : Type} (flag : bool) (m : PM unit)
      (setter : NugetPackage.t -> V -> NugetPackage.t) :
  sub_load_spec m setter ->
  forall p tr r p1 tr1,
    (if flag then m else ret tt) (p, tr) = (r, (p1, tr1)) ->
    (exists evs, tr1 = tr ++ evs /\ forallb is_get evs = true)
    /\ match r with
       | Ok _ => after_sub_load flag setter p p1
       | Raise _ => flag = true /\ p1 = p
       end.
Proof.
  intros Hm p tr r p1 tr1. destruct flag; simpl.
  - intros Hrun. destruct (Hm _ _ _ _ _ Hrun) as [Hevs Hp].
    split; [exact Hevs|]. destruct r; [exact Hp | now split].
  - intros [= <- <- <-]. split; [|reflexivity].
    exists []. now rewrite app_nil_r.
Qed.

(** The [try] block of [load]: the package it leaves behind, and the
    requests it adds, whether it completes or raises. *)
Lemma load_body_spec (catalog reg search : bool)
      (p : NugetPackage.t) (tr : trace)
      (r : result NugetPackage.t) (p' : NugetPackage.t) (tr' : trace) :
  load_body py net ctx catalog reg search (p, tr) = (r, (p', tr')) ->
  (exists evs, tr' = tr ++ evs /\ forallb is_get evs = true)
  /\ match r with
     | Ok q =>
         q = p'
         /\ exists p1 p2 p3,
             after_sub_load catalog NugetPackage.set_catalog p p1
             /\ after_sub_load reg NugetPackage.set_reg p1 p2
             /\ after_sub_load search NugetPackage.set_search p2 p3
             /\ p' = NugetPackage.set_loaded p3
                       (truthy (NugetPackage.catalog p3)
                        && truthy (NugetPackage.reg p3)
                        && truthy (NugetPackage.search p3))
     | Raise _ =>
         (catalog = true /\ p' = p)
         \/ (reg = true
             /\ after_sub_load catalog NugetPackage.set_catalog p p')
         \/ (search = true
             /\ exists p1,
                 after_sub_load catalog NugetPackage.set_catalog p p1
                 /\ after_sub_load reg NugetPackage.set_reg p1 p')
     end.
Proof.
  unfold load_body. intros Hrun.
  apply bind_inv in Hrun as [(u1 & [p1 tr1] & H1 & Hrun) | (e & H1 & ->)];
    destruct (guarded_sub_load_spec catalog _ _ _load_catalog_info_spec
                _ _ _ _ _ H1) as [(evs1 & -> & Hevs1) Hp1].
  2:{ split; [now exists evs1|]. now left. }
  apply bind_inv in Hrun as [(u2 & [p2 tr2] & H2 & Hrun) | (e & H2 & ->)];
    destruct (guarded_sub_load_spec reg _ _ _load_reg_info_spec
                _ _ _ _ _ H2) as [(evs2 & -> & Hevs2) Hp2].
  2:{ split.
      - exists (evs1 ++ evs2).
        now rewrite app_assoc, forallb_app, Hevs1, Hevs2.
      - right; left. destruct Hp2 as [-> ->]. now split. }
  apply bind_inv in Hrun as [(u3 & [p3 tr3] & H3 & Hrun) | (e & H3 & ->)];
    destruct (guarded_sub_load_spec search _ _ _load_search_info_spec
                _ _ _ _ _ H3) as [(evs3 & -> & Hevs3) Hp3].
  2:{ split.
      - exists (evs1 ++ evs2 ++ evs3).
        now rewrite !app_assoc, !forallb_app, Hevs1, Hevs2, Hevs3.
      - right; right. destruct Hp3 as [-> ->]. split; [reflexivity|].
        now exists p1. }
  unfold bind, assign, self_ in Hrun; cbn [fst snd] in Hrun.
  injection Hrun as <- <- <-. split.
  - exists (evs1 ++ evs2 ++ evs3).
    now rewrite !app_assoc, !forallb_app, Hevs1, Hevs2, Hevs3.
  - split; [reflexivity|]. now exists p1, p2, p3.
Qed.

End Aggregator.

(** ** The aggregator as a whole *)

Section Load.

Variable py : python.
Variable net : trace -> json -> result json.
Variable ctx : NugetContext.

(** [load] is its [try] block followed, for an [Exception], by one log
    event and the same exception. *)
Lemma load_run (catalog reg search : bool) (p : NugetPackage.t) (tr : trace) :
  load py net ctx catalog reg search (p, tr) =
  match load_body py net ctx catalog reg search (p, tr) with
  | (Ok q, st) => (Ok q, st)
  | (Raise e, (p', tr')) =>
      if isinstance e Exception
      then (Raise e, (p', tr' ++ [log_event (NugetPackage.id p') e]))
      else (Raise e, (p', tr'))
  end.
Proof.
  unfold load, try_except_Exception.
  destruct (load_body py net ctx catalog reg search (p, tr))
    as [[q|e] [p' tr']]; [reflexivity|].
  destruct (isinstance e Exception); [|reflexivity].
  unfold load_handler, log_event, bind, self_, io, emit, raise.
  destruct (can_ignore_exception e); reflexivity.
Qed.

Lemma after_sub_load_fields {V : Type} (flag : bool)
      (setter : NugetPackage.t -> V -> NugetPackage.t)
      (p p1 : NugetPackage.t) :
  (forall q v,
      NugetPackage.id (setter q v) = NugetPackage.id q
      /\ NugetPackage.version (setter q v) = NugetPackage.version q
      /\ NugetPackage._catalog_url (setter q v) = NugetPackage._catalog_url q
      /\ NugetPackage.loaded (setter q v) = NugetPackage.loaded q) ->
  after_sub_load flag setter p p1 ->
  NugetPackage.id p1 = NugetPackage.id p
  /\ NugetPackage.version p1 = NugetPackage.version p
  /\ NugetPackage._catalog_url p1 = NugetPackage._catalog_url p
  /\ NugetPackage.loaded p1 = NugetPackage.loaded p.
Proof.
  intros Hset. unfold after_sub_load. destruct flag.
  - intros [v ->]. apply Hset.
  - intros ->. now repeat split.
Qed.

Lemma after_catalog_fields (flag : bool) (p p1 : NugetPackage.t) :
  after_sub_load flag NugetPackage.set_catalog p p1 ->
  NugetPackage.id p1 = NugetPackage.id p
  /\ NugetPackage.version p1 = NugetPackage.version p
  /\ NugetPackage._catalog_url p1 = NugetPackage._catalog_url p
  /\ NugetPackage.loaded p1 = NugetPackage.loaded p.
Proof. apply after_sub_load_fields. intros q v. now repeat split. Qed.

Lemma after_reg_fields (flag : bool) (p p1 : NugetPackage.t) :
  after_sub_load flag NugetPackage.set_reg p p1 ->
  NugetPackage.id p1 = NugetPackage.id p
  /\ NugetPackage.version p1 = NugetPackage.version p
  /\ NugetPackage._catalog_url p1 = NugetPackage._catalog_url p
  /\ NugetPackage.loaded p1 = NugetPackage.loaded p.
Proof. apply after_sub_load_fields. intros q v. now repeat split. Qed.

Lemma after_search_fields (flag : bool) (p p1 : NugetPackage.t) :
  after_sub_load flag NugetPackage.set_search p p1 ->
  NugetPackage.id p1 = NugetPackage.id p
  /\ NugetPackage.version p1 = NugetPackage.version p
  /\ NugetPackage._catalog_url p1 = NugetPackage._catalog_url p
  /\ NugetPackage.loaded p1 = NugetPackage.loaded p.
Proof. apply after_sub_load_fields. intros q v. now repeat split. Qed.

(** The package a raising [try] block leaves behind differs from the one
    it started with in its component fields only. *)
Lemma load_body_raise_fields (catalog reg search : bool)
      (p p' : NugetPackage.t) (tr tr' : trace) (e : exn) :
  load_body py net ctx catalog reg search (p, tr) = (Raise e, (p', tr')) ->
  NugetPackage.id p' = NugetPackage.id p
  /\ NugetPackage.version p' = NugetPackage.version p
  /\ NugetPackage._catalog_url p' = NugetPackage._catalog_url p
  /\ NugetPackage.loaded p' = NugetPackage.loaded p.
Proof.
  intros Hrun.
  destruct (load_body_spec _ _ _ _ _ _ _ _ _ _ _ Hrun)
    as [_ [[_ ->] | [[_ H1] | [_ (p1 & H1 & H2)]]]].
  - now repeat split.
  - now apply after_catalog_fields in H1.
  - apply after_catalog_fields in H1. apply after_reg_fields in H2.
    destruct H1 as (Hi & Hv & Hu & Hl), H2 as (Hi' & Hv' & Hu' & Hl').
    repeat split; congruence.
Qed.

(** What [load] leaves when it raises, in terms of its [try] block. *)
Lemma load_raise_inv (catalog reg search : bool)
      (p p' : NugetPackage.t) (tr tr' : trace) (e : exn) :
  load py net ctx catalog reg search (p, tr) = (Raise e, (p', tr')) ->
  exists evs,
    load_body py net ctx catalog reg search (p, tr)
    = (Raise e, (p', tr ++ evs))
    /\ forallb is_get evs = true
    /\ tr' = tr ++ evs
             ++ (if isinstance e Exception
                 then [log_event (NugetPackage.id p) e] else []).
Proof.
  rewrite load_run.
  destruct (load_body py net ctx catalog reg search (p, tr))
    as [[q|e0] [p0 tr0]] eqn:Hbody; [discriminate|].
  destruct (load_body_spec _ _ _ _ _ _ _ _ _ _ _ Hbody)
    as [(evs & -> & Hevs) _].
  destruct (load_body_raise_fields _ _ _ _ _ _ _ _ Hbody) as [Hid _].
  destruct (isinstance e0 Exception) eqn:Hexc; intros [= <- <- <-];
    exists evs; rewrite ?Hexc, ?Hid, ?app_nil_r, ?app_assoc; now repeat split.
Qed.

(** Where a raising [try] block stopped: in the first sub-load, or in
    the second after the first completed, or in the third after the two
    before it completed. *)
Lemma load_body_raise_stages (catalog reg search : bool)
      (p : NugetPackage.t) (tr : trace) (e : exn)
      (st : NugetPackage.t * trace) :
  load_body py net ctx catalog reg search (p, tr) = (Raise e, st) ->
  (if catalog then _load_catalog_info py net else ret tt) (p, tr)
  = (Raise e, st)
  \/ (exists st1,
         (if catalog then _load_catalog_info py net else ret tt) (p, tr)
         = (Ok tt, st1)
         /\ (if reg then _load_reg_info py net ctx else ret tt) st1
            = (Raise e, st))
  \/ (exists st1 st2,
         (if catalog then _load_catalog_info py net else ret tt) (p, tr)
         = (Ok tt, st1)
         /\ (if reg then _load_reg_info py net ctx else ret tt) st1
            = (Ok tt, st2)
         /\ (if search then _load_search_info py net ctx else ret tt) st2
            = (Raise e, st)).
Proof.
  unfold load_body. intros Hrun.
  apply bind_inv in Hrun as [(u1 & st1 & H1 & Hrun) | (e1 & H1 & He)].
  2:{ injection He as <-. left. exact H1. }
  destruct u1.
  apply bind_inv in Hrun as [(u2 & st2 & H2 & Hrun) | (e2 & H2 & He)].
  2:{ injection He as <-. right; left. exists st1.
      split; [exact H1 | exact H2]. }
  destruct u2.
  apply bind_inv in Hrun as [(u3 & st3 & H3 & Hrun) | (e3 & H3 & He)].
  2:{ injection He as <-. right; right. exists st1, st2.
      split; [exact H1|]. split; [exact H2 | exact H3]. }
  exfalso. unfold bind, assign, self_ in Hrun; cbn [fst snd] in Hrun.
  discriminate Hrun.
Qed.

(** A sub-load behind its flag that raises: the flag was set, and the
    sub-load raised from that state without touching the package. *)
Lemma guarded_sub_load_raise {V : Type} (flag : bool) (m : PM unit)
      (setter : NugetPackage.t -> V -> NugetPackage.t) :
  sub_load_spec m setter ->
  forall p tr e p1 tr1,
    (if flag then m else ret tt) (p, tr) = (Raise e, (p1, tr1)) ->
    flag = true /\ p1 = p /\ m (p, tr) = (Raise e, (p, tr1)).
Proof.
  intros Hm p tr e p1 tr1 Hrun.
  destruct (guarded_sub_load_spec flag m setter Hm _ _ _ _ _ Hrun)
    as [_ [-> ->]].
  split; [reflexivity|]. split; [reflexivity | exact Hrun].
Qed.

Lemma _load_catalog_info_ok (p : NugetPackage.t) (tr : trace)
      (doc : json) (info : PackageCatalogInfo.t) :
  net tr (NugetPackage._catalog_url p) = Ok doc ->
  PackageCatalogInfo_init py doc = Ok info ->
  _load_catalog_info py net (p, tr)
  = (Ok tt, (NugetPackage.set_catalog p info,
             tr ++ [Get (NugetPackage._catalog_url p)])).
Proof.
  intros Hnet Hinit.
  unfold _load_catalog_info, client_get, bind, self_, io, lift, assign.
  cbn [fst snd]. now rewrite Hnet, Hinit.
Qed.

Lemma after_reg_keeps_catalog (flag : bool) (p p1 : NugetPackage.t) :
  after_sub_load flag NugetPackage.set_reg p p1 ->
  NugetPackage.catalog p1 = NugetPackage.catalog p.
Proof.
  unfold after_sub_load. destruct flag; [intros [v ->] | intros ->];
    reflexivity.
Qed.

End Load.

Section Load_claims.

Variable py : python.
Variable net : trace -> json -> result json.
Variable ctx : NugetContext.

(** C1 (amended). When [load] returns, [loaded] is the conjunction of the
    three component fields being set, whatever the flags: a sub-load that
    ran has set its field, a sub-load skipped by a false flag has left
    its field as it was.  On a package none of whose components had been
    loaded, [loaded] is therefore true exactly when all three flags are
    true. *)
Theorem load_sets_loaded (catalog reg search : bool)
    (p q : NugetPackage.t) (tr : trace) (st : NugetPackage.t * trace) :
  load py net ctx catalog reg search (p, tr) = (Ok q, st) ->
  fst st = q
  /\ NugetPackage.loaded q
     = truthy (NugetPackage.catalog q) && truthy (NugetPackage.reg q)
       && truthy (NugetPackage.search q)
  /\ (if catalog then truthy (NugetPackage.catalog q) = true
      else NugetPackage.catalog q = NugetPackage.catalog p)
  /\ (if reg then truthy (NugetPackage.reg q) = true
      else NugetPackage.reg q = NugetPackage.reg p)
  /\ (if search then truthy (NugetPackage.search q) = true
      else NugetPackage.search q = NugetPackage.search p)
  /\ (NugetPackage.catalog p = None ->
      NugetPackage.reg p = None ->
      NugetPackage.search p = None ->
      NugetPackage.loaded q = catalog && reg && search).
Proof.
  rewrite load_run.
  destruct (load_body py net ctx catalog reg search (p, tr))
    as [[q0|e] [p' tr']] eqn:Hbody.
  2:{ destruct (isinstance e Exception); discriminate. }
  intros [= <- <-].
  destruct (load_body_spec _ _ _ _ _ _ _ _ _ _ _ Hbody)
    as [_ [-> (p1 & p2 & p3 & H1 & H2 & H3 & ->)]].
  unfold after_sub_load in *.
  destruct catalog, reg, search;
    repeat match goal with
           | H : exists _, _ |- _ => destruct H as [? ?]
           end;
    subst; simpl; repeat split; intros; simpl in *; subst;
    try reflexivity;
    repeat match goal with
           | H : _ = None |- _ => rewrite H
           end;
    simpl; rewrite ?andb_false_r; reflexivity.
Qed.


(** C8 (amended). The sub-loads the flags enable run one after another,
    catalog, then registration, then search, each from the package and
    the trace the one before left: when one raises, those after it are
    not started and the [try] block ends with that exception; when all
    complete, the trace is the one the last left.  So when the catalog
    entry cannot be fetched, [load] issues that one request and no
    other. *)
Theorem load_sub_loads_in_sequence (catalog reg search : bool)
    (p : NugetPackage.t) (tr : trace) :
  (forall e st1,
      (if catalog then _load_catalog_info py net else ret tt) (p, tr)
      = (Raise e, st1) ->
      load_body py net ctx catalog reg search (p, tr) = (Raise e, st1))
  /\ (forall e st1 st2,
         (if catalog then _load_catalog_info py net else ret tt) (p, tr)
         = (Ok tt, st1) ->
         (if reg then _load_reg_info py net ctx else ret tt) st1
         = (Raise e, st2) ->
         load_body py net ctx catalog reg search (p, tr) = (Raise e, st2))
  /\ (forall e st1 st2 st3,
         (if catalog then _load_catalog_info py net else ret tt) (p, tr)
         = (Ok tt, st1) ->
         (if reg then _load_reg_info py net ctx else ret tt) st1
         = (Ok tt, st2) ->
         (if search then _load_search_info py net ctx else ret tt) st2
         = (Raise e, st3) ->
         load_body py net ctx catalog reg search (p, tr) = (Raise e, st3))
  /\ (forall st1 st2 st3,
         (if catalog then _load_catalog_info py net else ret tt) (p, tr)
         = (Ok tt, st1) ->
         (if reg then _load_reg_info py net ctx else ret tt) st1
         = (Ok tt, st2) ->
         (if search then _load_search_info py net ctx else ret tt) st2
         = (Ok tt, st3) ->
         snd (snd (load_body py net ctx catalog reg search (p, tr)))
         = snd st3)
  /\ (forall e,
         catalog = true ->
         net tr (NugetPackage._catalog_url p) = Raise e ->
         load py net ctx catalog reg search (p, tr)
         = (Raise e,
            (p, tr ++ Get (NugetPackage._catalog_url p)
                       :: (if isinstance e Exception
                           then [log_event (NugetPackage.id p) e]
                           else [])))).
Proof.
  assert (Hcat : forall e st1,
      (if catalog then _load_catalog_info py net else ret tt) (p, tr)
      = (Raise e, st1) ->
      load_body py net ctx catalog reg search (p, tr) = (Raise e, st1)).
  { intros e st1 H1. unfold load_body. apply bind_raise. exact H1. }
  split; [exact Hcat|]. repeat split.
  - intros e st1 st2 H1 H2. unfold load_body.
    etransitivity; [apply bind_ok; exact H1|].
    apply bind_raise. exact H2.
  - intros e st1 st2 st3 H1 H2 H3. unfold load_body.
    etransitivity; [apply bind_ok; exact H1|].
    etransitivity; [apply bind_ok; exact H2|].
    apply bind_raise. exact H3.
  - intros st1 st2 st3 H1 H2 H3.
    assert (Hrun : load_body py net ctx catalog reg search (p, tr)
                   = (Ok (NugetPackage.set_loaded (fst st3)
                            (truthy (NugetPackage.catalog (fst st3))
                             && truthy (NugetPackage.reg (fst st3))
                             && truthy (NugetPackage.search (fst st3)))),
                      (NugetPackage.set_loaded (fst st3)
                            (truthy (NugetPackage.catalog (fst st3))
                             && truthy (NugetPackage.reg (fst st3))
                             && truthy (NugetPackage.search (fst st3))),
                       snd st3))).
    { unfold load_body.
      etransitivity; [apply bind_ok; exact H1|].
      etransitivity; [apply bind_ok; exact H2|].
      etransitivity; [apply bind_ok; exact H3|].
      reflexivity. }
    now rewrite Hrun.
  - intros e -> Hnet. rewrite load_run.
    rewrite (Hcat e (p, tr ++ [Get (NugetPackage._catalog_url p)])).
    + destruct (isinstance e Exception); [|reflexivity].
      now rewrite <- app_assoc.
    + unfold _load_catalog_info, client_get, bind, self_, io.
      cbn [fst snd]. now rewrite Hnet.
Qed.

(** C9 (amended). When [load] raises, the package keeps its identity and
    its [loaded] flag, and its component fields are those left by the
    sub-loads that completed before the failure.  Either the catalog
    sub-load raised, and the package is as it was; or the registration
    sub-load raised, from the package the catalog sub-load left, and the
    package is that one; or the search sub-load raised, from the package
    the registration sub-load left, and the package is that one.  The
    failing sub-load has assigned nothing, and what was assigned before it
    is not taken back: a catalog entry that was fetched and read is the
    [catalog] of the package when a later sub-load raises.  The
    registration and the search sub-load each start with a client of
    their own, whose first request is the service index, whatever
    happened before. *)
Theorem load_raise_keeps_completed_sub_loads (catalog reg search : bool)
    (p p' : NugetPackage.t) (tr tr' : trace) (e : exn) :
  load py net ctx catalog reg search (p, tr) = (Raise e, (p', tr')) ->
  (NugetPackage.id p' = NugetPackage.id p
   /\ NugetPackage.version p' = NugetPackage.version p
   /\ NugetPackage._catalog_url p' = NugetPackage._catalog_url p
   /\ NugetPackage.loaded p' = NugetPackage.loaded p)
  /\ ((catalog = true
       /\ (exists t,
              _load_catalog_info py net (p, tr) = (Raise e, (p, t)))
       /\ p' = p)
      \/ (reg = true
          /\ (exists t1 t,
                 (if catalog then _load_catalog_info py net else ret tt)
                   (p, tr)
                 = (Ok tt, (p', t1))
                 /\ _load_reg_info py net ctx (p', t1)
                    = (Raise e, (p', t)))
          /\ after_sub_load catalog NugetPackage.set_catalog p p')
      \/ (search = true
          /\ exists p1 t1 t2 t,
              (if catalog then _load_catalog_info py net else ret tt)
                (p, tr)
              = (Ok tt, (p1, t1))
              /\ (if reg then _load_reg_info py net ctx else ret tt)
                   (p1, t1)
                 = (Ok tt, (p', t2))
              /\ _load_search_info py net ctx (p', t2)
                 = (Raise e, (p', t))
              /\ after_sub_load catalog NugetPackage.set_catalog p p1
              /\ after_sub_load reg NugetPackage.set_reg p1 p'))
  /\ (forall doc info,
         catalog = true ->
         net tr (NugetPackage._catalog_url p) = Ok doc ->
         PackageCatalogInfo_init py doc = Ok info ->
         NugetPackage.catalog p' = Some info)
  /\ (forall q t, exists rest,
         snd (snd (_load_reg_info py net ctx (q, t)))
         = t ++ Get (endpoint_url ctx) :: rest)
  /\ (forall q t, exists rest,
         snd (snd (_load_search_info py net ctx (q, t)))
         = t ++ Get (endpoint_url ctx) :: rest).
Proof.
  intros Hrun.
  destruct (load_raise_inv _ _ _ _ _ _ _ _ _ _ _ Hrun)
    as (evs & Hbody & _ & _).
  split; [exact (load_body_raise_fields _ _ _ _ _ _ _ _ _ _ _ Hbody)|].
  assert (Hstages :
    (catalog = true
     /\ (exists t,
            _load_catalog_info py net (p, tr) = (Raise e, (p, t)))
     /\ p' = p)
    \/ (reg = true
        /\ (exists t1 t,
               (if catalog then _load_catalog_info py net else ret tt)
                 (p, tr)
               = (Ok tt, (p', t1))
               /\ _load_reg_info py net ctx (p', t1)
                  = (Raise e, (p', t)))
        /\ after_sub_load catalog NugetPackage.set_catalog p p')
    \/ (search = true
        /\ exists p1 t1 t2 t,
            (if catalog then _load_catalog_info py net else ret tt)
              (p, tr)
            = (Ok tt, (p1, t1))
            /\ (if reg then _load_reg_info py net ctx else ret tt)
                 (p1, t1)
               = (Ok tt, (p', t2))
            /\ _load_search_info py net ctx (p', t2)
               = (Raise e, (p', t))
            /\ after_sub_load catalog NugetPackage.set_catalog p p1
            /\ after_sub_load reg NugetPackage.set_reg p1 p')).
  { destruct (load_body_raise_stages _ _ _ _ _ _ _ _ _ _ Hbody)
      as [H1 | [([p1 t1] & H1 & H2) | ([p1 t1] & [p2 t2] & H1 & H2 & H3)]].
    - destruct (guarded_sub_load_raise catalog _ _
                  (_load_catalog_info_spec py net) _ _ _ _ _ H1)
        as (Hflag & Hp & Hm).
      left. split; [exact Hflag|]. split; [eexists; exact Hm | exact Hp].
    - destruct (guarded_sub_load_raise reg _ _
                  (_load_reg_info_spec py net ctx) _ _ _ _ _ H2)
        as (Hflag & Hp & Hm).
      subst p'.
      destruct (guarded_sub_load_spec catalog _ _
                  (_load_catalog_info_spec py net) _ _ _ _ _ H1)
        as [_ Hafter].
      right; left. split; [exact Hflag|]. split; [|exact Hafter].
      exists t1. eexists. split; [exact H1 | exact Hm].
    - destruct (guarded_sub_load_raise search _ _
                  (_load_search_info_spec py net ctx) _ _ _ _ _ H3)
        as (Hflag & Hp & Hm).
      subst p'.
      destruct (guarded_sub_load_spec catalog _ _
                  (_load_catalog_info_spec py net) _ _ _ _ _ H1)
        as [_ Hafter1].
      destruct (guarded_sub_load_spec reg _ _
                  (_load_reg_info_spec py net ctx) _ _ _ _ _ H2)
        as [_ Hafter2].
      right; right. split; [exact Hflag|].
      exists p1, t1, t2. eexists.
      split; [exact H1|]. split; [exact H2|]. split; [exact Hm|].
      split; [exact Hafter1 | exact Hafter2]. }
  split; [exact Hstages|]. split; [|split; intros q t].
  - intros doc info -> Hnet Hinit.
    pose proof (_load_catalog_info_ok _ _ _ _ _ _ Hnet Hinit) as Hok.
    destruct Hstages
      as [(_ & (t & Hraise) & _)
         | [(_ & (t1 & t & H1 & _) & _)
           | (_ & p1 & t1 & t2 & t & H1 & _ & _ & _ & Hreg)]].
    + rewrite Hok in Hraise. discriminate Hraise.
    + cbv iota in H1. rewrite Hok in H1. now injection H1 as <- _.
    + cbv iota in H1. rewrite Hok in H1. injection H1 as <- _.
      now rewrite (after_reg_keeps_catalog _ _ _ Hreg).
  - apply _load_reg_info_first_request.
  - apply _load_search_info_first_request.
Qed.

End Load_claims.

(** ** Registration: only the last page *)

Lemma last_item_app {A : Type} (l : list A) (x : A) :
  last_item (l ++ [x]) = Ok x.
Proof.
  unfold last_item. destruct l as [|y l]; [reflexivity|].
  simpl. now rewrite last_last.
Qed.

Lemma rmap_app {A B : Type} (f : A -> result B) (l : list A) (x : A)
      (ys : list B) (y : B) :
  rmap f l = Ok ys -> f x = Ok y -> rmap f (l ++ [x]) = Ok (ys ++ [y]).
Proof.
  revert ys. induction l as [|a l IH]; intros ys Hl Hx; simpl in *.
  - injection Hl as <-. now rewrite Hx.
  - destruct (f a) as [b|e]; [|discriminate]. simpl in *.
    destruct (rmap f l) as [bs|e]; [|discriminate]. simpl in *.
    injection Hl as <-. now rewrite (IH bs eq_refl Hx).
Qed.

Section Registration_last_page.

Variable py : python.
Variable net : trace -> json -> result json.

Lemma RegistrationPage_load_run (self : RegistrationPage.t) (tr : trace) :
  RegistrationPage_load net self tr =
  match contains (RegistrationPage._json self) "items" with
  | Raise e => (Raise e, tr)
  | Ok true => (page_loaded_from self (RegistrationPage._json self), tr)
  | Ok false =>
      match getitem (RegistrationPage._json self) "@id" with
      | Raise e => (Raise e, tr)
      | Ok url =>
          match net tr url with
          | Ok doc => (page_loaded_from self doc, tr ++ [Get url])
          | Raise e => (Raise e, tr ++ [Get url])
          end
      end
  end.
Proof.
  unfold RegistrationPage_load, page_loaded_from, client_get, bind, lift, ret.
  destruct (contains (RegistrationPage._json self) "items") as [[|]|e];
    cbn [negb]; try reflexivity.
  - destruct (leaves_of (RegistrationPage._json self)); reflexivity.
  - destruct (getitem (RegistrationPage._json self) "@id") as [url|e];
      [|reflexivity].
    destruct (net tr url) as [doc|e]; [|reflexivity].
    destruct (leaves_of doc); reflexivity.
Qed.

Lemma RegistrationPage_init_inv (node : json) (page : RegistrationPage.t) :
  RegistrationPage_init node = Ok page ->
  exists count,
    getitem node "count" = Ok count
    /\ page = RegistrationPage.mk count node None.
Proof.
  unfold RegistrationPage_init.
  destruct (getitem node "count") as [count|e]; [|discriminate].
  intros [= <-]. now exists count.
Qed.

Lemma rmap_snoc_inv {A B : Type} (f : A -> result B) (l : list A) (x : A)
      (ys : list B) :
  rmap f (l ++ [x]) = Ok ys ->
  exists ys' y, rmap f l = Ok ys' /\ f x = Ok y /\ ys = ys' ++ [y].
Proof.
  revert ys. induction l as [|a l IH]; intros ys; simpl.
  - destruct (f x) as [y|e]; [|discriminate]. simpl. intros [= <-].
    now exists [], y.
  - destruct (f a) as [b|e]; [|discriminate]. simpl.
    destruct (rmap f (l ++ [x])) as [bs|e] eqn:Hrec; [|discriminate].
    simpl. intros [= <-].
    destruct (IH bs eq_refl) as (ys' & y & -> & Hx & ->).
    now exists (b :: ys'), y.
Qed.

Lemma rmap_length {A B : Type} (f : A -> result B) (l : list A)
      (ys : list B) :
  rmap f l = Ok ys -> List.length ys = List.length l.
Proof.
  revert ys. induction l as [|a l IH]; intros ys; simpl.
  - now intros [= <-].
  - destruct (f a) as [b|e]; [|discriminate]. simpl.
    destruct (rmap f l) as [bs|e]; [|discriminate]. simpl.
    intros [= <-]. simpl. now rewrite (IH bs eq_refl).
Qed.

(** What the pages of a registration are iterated from is a list: a dict
    or a string would give the constructor of a page a string. *)
Lemma pages_from_list (items : json) (l : list json)
      (pages : list RegistrationPage.t) :
  iter items = Ok l ->
  rmap RegistrationPage_init l = Ok pages ->
  l <> [] ->
  items = JArr l.
Proof.
  destruct items as [|b|n|lit|s|items|m]; try discriminate; simpl.
  - destruct s as [|a s]; simpl; intros [= <-]; [now intros _ []|].
    discriminate.
  - now intros [= <-].
  - destruct m as [|[k v] m]; simpl; intros [= <-]; [now intros _ []|].
    discriminate.
Qed.

(** The last page of a [PackageRegistrationInfo] is made from the last
    item of the index it was built from. *)
Lemma PackageRegistrationInfo_init_last (reg_json : json)
      (info : PackageRegistrationInfo.t) (page : RegistrationPage.t) :
  PackageRegistrationInfo_init reg_json = Ok info ->
  last_item (PackageRegistrationInfo._pages info) = Ok page ->
  exists nodes,
    getitem reg_json "items"
    = Ok (JArr (nodes ++ [RegistrationPage._json page])).
Proof.
  unfold PackageRegistrationInfo_init.
  destruct (getitem reg_json "count") as [count|e]; [|discriminate].
  destruct (getitem reg_json "items") as [items|e]; [|discriminate].
  simpl. destruct (iter items) as [l|e] eqn:Hiter; [|discriminate].
  simpl. destruct (rmap RegistrationPage_init l) as [pages|e] eqn:Hpages;
    [|discriminate].
  intros [= <-]. cbn [PackageRegistrationInfo._pages]. intros Hlast.
  assert (Hne : l <> []).
  { intros ->. simpl in Hpages. injection Hpages as <-. discriminate Hlast. }
  destruct (exists_last Hne) as (nodes & node & ->).
  destruct (rmap_snoc_inv _ _ _ _ Hpages) as (before & page' & _ & Hnode & ->).
  rewrite last_item_app in Hlast. injection Hlast as <-.
  destruct (RegistrationPage_init_inv _ _ Hnode) as (c & _ & ->).
  exists nodes. f_equal. now apply (pages_from_list _ _ _ Hiter Hpages).
Qed.

(** C4. [load_package] first requests the index at the URL made of the
    client's base URL, the id lower-cased by [str.lower] and
    [index.json].  After it, it requests at most one more URL, and then
    it is the [@id] of the last item of the index document, that item
    having no [items] of its own: no other page is ever requested.  When
    the index lists well-formed pages and the document of its last page
    (the last item itself when its leaves are inline, the answer to that
    request otherwise) lists well-formed leaves, [load_package] returns
    after these requests, the pages before the last are as the
    constructor left them, and [newest_leaf] is the leaf built from the
    last item of the last page's document. *)
Theorem load_package_last_page_only
    (self : NugetClient.t) (id_ : string) (tr : trace) :
  let index_url :=
    JStr (format_opt (NugetClient._endpoint_url self) ++ "/" ++ lower py id_
            ++ "/index.json")%string in
  (exists rest,
      snd (load_package py net self id_ tr) = tr ++ Get index_url :: rest
      /\ (rest = []
          \/ exists reg_json nodes last_node url,
              net tr index_url = Ok reg_json
              /\ getitem reg_json "items" = Ok (JArr (nodes ++ [last_node]))
              /\ contains last_node "items" = Ok false
              /\ getitem last_node "@id" = Ok url
              /\ rest = [Get url]))
  /\ (forall reg_json count nodes last_node before last_count doc evs
             leaf_nodes leaf_node leaves leaf,
         net tr index_url = Ok reg_json ->
         getitem reg_json "count" = Ok count ->
         getitem reg_json "items" = Ok (JArr (nodes ++ [last_node])) ->
         rmap RegistrationPage_init nodes = Ok before ->
         getitem last_node "count" = Ok last_count ->
         (contains last_node "items" = Ok true
          /\ doc = last_node /\ evs = [])
         \/ (contains last_node "items" = Ok false
             /\ exists url,
                 getitem last_node "@id" = Ok url
                 /\ net (tr ++ [Get index_url]) url = Ok doc
                 /\ evs = [Get url]) ->
         getitem doc "items" = Ok (JArr (leaf_nodes ++ [leaf_node])) ->
         rmap leaf_of_node leaf_nodes = Ok leaves ->
         leaf_of_node leaf_node = Ok leaf ->
         exists info,
           load_package py net self id_ tr
           = (Ok info, tr ++ Get index_url :: evs)
           /\ PackageRegistrationInfo.count info = count
           /\ PackageRegistrationInfo._pages info
              = before
                ++ [RegistrationPage.mk last_count doc
                      (Some (leaves ++ [leaf]))]
           /\ newest_leaf info = Ok leaf).
Proof.
  intros index_url. split.
  - unfold load_package, PackageRegistrationInfo_load, client_get, bind, lift.
    fold (reg_url py self id_).
    change (JStr (reg_url py self id_)) with index_url.
    destruct (net tr index_url) as [reg_json|e] eqn:Hnet;
      [|exists []; now split; [|left]].
    destruct (PackageRegistrationInfo_init reg_json) as [info|e] eqn:Hinfo;
      [|exists []; now split; [|left]].
    destruct (last_item (PackageRegistrationInfo._pages info))
      as [page|e] eqn:Hlast; [|exists []; now split; [|left]].
    rewrite RegistrationPage_load_run.
    destruct (contains (RegistrationPage._json page) "items")
      as [[|]|e] eqn:Hc.
    + exists []. split; [|now left].
      now destruct (page_loaded_from page (RegistrationPage._json page)).
    + destruct (getitem (RegistrationPage._json page) "@id")
        as [url|e] eqn:Hid; [|exists []; now split; [|left]].
      exists [Get url]. split.
      * destruct (net (tr ++ [Get index_url]) url) as [doc|e];
          [destruct (page_loaded_from page doc)|];
          cbn [snd]; now rewrite <- app_assoc.
      * right.
        destruct (PackageRegistrationInfo_init_last _ _ _ Hinfo Hlast)
          as [nodes Hitems].
        now exists reg_json, nodes, (RegistrationPage._json page), url.
    + exists []. now split; [|left].
  - intros reg_json count nodes last_node before last_count doc evs
           leaf_nodes leaf_node leaves leaf
           Hnet Hcount Hitems Hbefore Hlast Hdoc Hleafs Hleaves Hleaf.
    assert (Hls : leaves_of doc = Ok (leaves ++ [leaf])).
    { unfold leaves_of. rewrite Hleafs. simpl. now apply rmap_app. }
    set (page := RegistrationPage.mk last_count last_node None).
    assert (Hinit : PackageRegistrationInfo_init reg_json
                    = Ok (PackageRegistrationInfo.mk count
                            (before ++ [page]))).
    { unfold PackageRegistrationInfo_init. rewrite Hcount, Hitems. simpl.
      rewrite (rmap_app RegistrationPage_init nodes last_node before page
                 Hbefore); [reflexivity|].
      unfold RegistrationPage_init. now rewrite Hlast. }
    assert (Hpage : RegistrationPage_load net page (tr ++ [Get index_url])
                    = (Ok (RegistrationPage.mk last_count doc
                             (Some (leaves ++ [leaf]))),
                       (tr ++ [Get index_url]) ++ evs)).
    { rewrite RegistrationPage_load_run. cbn [page RegistrationPage._json].
      destruct Hdoc as [(Hc & -> & ->) | (Hc & url & Hid & Hurl & ->)];
        rewrite Hc.
      - unfold page_loaded_from. rewrite Hls. simpl. now rewrite app_nil_r.
      - rewrite Hid, Hurl. unfold page_loaded_from. now rewrite Hls. }
    eexists. split; [|split; [|split]].
    + unfold load_package, PackageRegistrationInfo_load, client_get,
        bind, lift.
      fold (reg_url py self id_).
      change (JStr (reg_url py self id_)) with index_url.
      rewrite Hnet, Hinit. cbn [PackageRegistrationInfo._pages].
      rewrite last_item_app, Hpage.
      unfold ret. rewrite <- app_assoc. reflexivity.
    + reflexivity.
    + cbn [PackageRegistrationInfo._pages]. now rewrite removelast_last.
    + unfold newest_leaf. cbn [PackageRegistrationInfo._pages].
      rewrite removelast_last, last_item_app. simpl.
      unfold RegistrationPage_newest_leaf. simpl.
      apply last_item_app.
Qed.

End Registration_last_page.

(** ** The properties on the sample service *)

Lemma load_pages_sequential_witness :
  snd (snd (take_pages sample_python sample_net 2
              (load_pages sample_catalog_client, [])))
  = [Get (JStr "https://api.nuget.org/v3/catalog0/page0.json");
     Get (JStr "https://api.nuget.org/v3/catalog0/page1.json")].
Proof.
  destruct (proj2 (load_pages_sequential sample_python sample_net
                     sample_catalog_client
                     (map (fun url => JObj [("@id", url)]) sample_page_urls)
                     sample_page_urls 2 [] eq_refl
                     ltac:(repeat constructor)))
    as (pages & _ & _ & Htr).
  - repeat constructor; eexists; vm_compute; reflexivity.
  - intros history url [<- | [<- | []]]; eexists; vm_compute; reflexivity.
  - exact Htr.
Defined.

Lemma load_package_last_page_only_witness :
  exists info,
    load_package sample_python sample_net_paged sample_registration_client
      "Paged.Lib" []
    = (Ok info,
       [Get (JStr "https://api.nuget.org/v3/registration/paged.lib/index.json");
        Get (JStr "https://api.nuget.org/v3/registration/paged.lib/page/2.json")])
    /\ newest_leaf info = Ok sample_leaf_object.
Proof.
  destruct (proj2 (load_package_last_page_only sample_python sample_net_paged
                     sample_registration_client "Paged.Lib" [])
              sample_paged_index (JNum 3)
              [JObj [("@id",
                      JStr "https://api.nuget.org/v3/registration/paged.lib/page/1.json");
                     ("count", JNum 2)]]
              (JObj [("@id",
                      JStr "https://api.nuget.org/v3/registration/paged.lib/page/2.json");
                     ("count", JNum 1)])
              _ (JNum 1) sample_paged_last_page
              [Get (JStr "https://api.nuget.org/v3/registration/paged.lib/page/2.json")]
              [] (JObj [("catalogEntry", sample_leaf)]) []
              sample_leaf_object
              eq_refl eq_refl eq_refl eq_refl eq_refl
              (or_intror
                 (conj eq_refl
                    (ex_intro _
                       (JStr "https://api.nuget.org/v3/registration/paged.lib/page/2.json")
                       (conj eq_refl (conj eq_refl eq_refl)))))
              eq_refl eq_refl eq_refl)
    as (info & Hrun & _ & _ & Hleaf).
  exists info. split; [exact Hrun | exact Hleaf].
Defined.

Lemma registration_requires_pages_and_leaves_witness :
  load_package sample_python
    (serve [("https://api.nuget.org/v3/registration/empty/index.json",
             JObj [("count", JNum 0); ("items", JArr [])])]
           not_found)
    sample_registration_client "Empty" []
  = (Raise (builtin_exn IndexError),
     [Get (JStr "https://api.nuget.org/v3/registration/empty/index.json")]).
Proof.
  apply (proj1 (proj2 (registration_requires_pages_and_leaves
                         sample_python
                         (serve [("https://api.nuget.org/v3/registration/empty/index.json",
                                  JObj [("count", JNum 0); ("items", JArr [])])]
                                not_found)))
           sample_registration_client "Empty" []
           (JObj [("count", JNum 0); ("items", JArr [])]) (JNum 0));
    reflexivity.
Defined.

(** C1 as stated fails.  With [search=False] the two sub-loads that were
    requested complete on the sample service, and [loaded] is false. *)
Lemma load_without_search_not_loaded :
  ~ (forall net ctx (catalog reg search : bool) p tr q st,
        load sample_python net ctx catalog reg search (p, tr) = (Ok q, st) ->
        NugetPackage.loaded q = true).
Proof.
  intros H.
  pose (out := load sample_python sample_net sample_ctx true true false (sample_package, [])).
  assert (Hrun : out = (Ok (fst (snd out)), snd out))
    by (vm_compute; reflexivity).
  specialize (H _ _ _ _ _ _ _ _ _ Hrun).
  vm_compute in H. discriminate H.
Qed.

Lemma load_sets_loaded_witness :
  NugetPackage.loaded
    (fst (snd (load sample_python sample_net sample_ctx true true true (sample_package, []))))
  = true.
Proof.
  pose (out := load sample_python sample_net sample_ctx true true true (sample_package, [])).
  assert (Hrun : out = (Ok (fst (snd out)), snd out))
    by (vm_compute; reflexivity).
  destruct (load_sets_loaded _ _ _ _ _ _ _ _ _ _ Hrun)
    as (_ & _ & _ & _ & _ & Hfresh).
  exact (Hfresh eq_refl eq_refl eq_refl).
Defined.



(** C8 as stated fails.  Were the three sub-loads issued together, the
    request for the service index, with which the registration and the
    search sub-load start, would be in the trace however the catalog entry
    answers.  When the entry answers 404 it is not: the entry is the only
    request. *)
Lemma load_not_concurrent :
  ~ (forall net ctx p tr,
        In (Get (NugetPackage._catalog_url p))
           (snd (snd (load sample_python net ctx true true true (p, tr))))
        /\ In (Get (endpoint_url ctx))
              (snd (snd (load sample_python net ctx true true true (p, tr))))).
Proof.
  intros H.
  destruct (H sample_net_no_entry sample_ctx sample_package []) as [_ Hin].
  vm_compute in Hin. destruct Hin as [Hin | [Hin | []]]; discriminate Hin.
Qed.

Lemma load_sub_loads_in_sequence_witness :
  load sample_python sample_net_no_entry sample_ctx true true true (sample_package, [])
  = (Raise not_found,
     (sample_package,
      [Get (JStr sample_entry_url); LogDebug "Foo" "ClientResponseError"])).
Proof.
  apply (proj2 (proj2 (proj2 (proj2
           (load_sub_loads_in_sequence sample_python sample_net_no_entry sample_ctx
              true true true sample_package []))))
           not_found eq_refl eq_refl).
Defined.

(** C9 as stated fails.  With the service index unreachable, the catalog
    sub-load completes and the registration sub-load is cancelled: [load]
    raises and the package keeps the catalog information it was given. *)
Lemma load_raise_leaves_catalog_set :
  ~ (forall net ctx (catalog reg search : bool) p tr e p' tr',
        load sample_python net ctx catalog reg search (p, tr) = (Raise e, (p', tr')) ->
        p' = p).
Proof.
  intros H.
  pose (out := load sample_python sample_net_no_index sample_ctx true true true
                 (sample_package, [])).
  assert (Hrun : out = (Raise (mkExn CancelledError 0),
                        (fst (snd out), snd (snd out))))
    by (vm_compute; reflexivity).
  specialize (H _ _ _ _ _ _ _ _ _ _ Hrun).
  apply (f_equal NugetPackage.catalog) in H.
  vm_compute in H. discriminate H.
Qed.

Lemma load_raise_keeps_completed_sub_loads_witness :
  NugetPackage.catalog
    (fst (snd (load sample_python sample_net_no_index sample_ctx
                 true true true (sample_package, []))))
  = Some (PackageCatalogInfo.mk ["Ann"; "Bob"]
            (JStr "2023-01-01T00:00:00Z") (JStr EmptyString)
            (JStr "Foo") (JBool false) (JBool true) JNull (JArr [])
            (JStr "1.0.0")).
Proof.
  pose (out := load sample_python sample_net_no_index sample_ctx
                 true true true (sample_package, [])).
  assert (Hrun : out = (Raise (mkExn CancelledError 0),
                        (fst (snd out), snd (snd out))))
    by (vm_compute; reflexivity).
  destruct (load_raise_keeps_completed_sub_loads _ _ _ _ _ _ _ _ _ _ _ Hrun)
    as (_ & _ & Hkept & _).
  exact (Hkept sample_entry _ eq_refl eq_refl eq_refl).
Defined.

(** * Further properties of the module *)

(** ** Strings *)

Lemma string_app_nil_r (s : string) : (s ++ EmptyString)%string = s.
Proof. induction s as [|a s IH]; simpl; [reflexivity | now rewrite IH]. Qed.

Lemma string_app_assoc (s t u : string) :
  ((s ++ t) ++ u)%string = (s ++ t ++ u)%string.
Proof. induction s as [|a s IH]; simpl; [reflexivity | now rewrite IH]. Qed.

Lemma rev_string_acc (s acc : string) :
  rev_string s acc = (rev_string s EmptyString ++ acc)%string.
Proof.
  revert acc. induction s as [|a s IH]; intros acc; simpl; [reflexivity|].
  rewrite (IH (String a acc)), (IH (String a EmptyString)).
  now rewrite string_app_assoc.
Qed.

Lemma rev_string_app (s t acc : string) :
  rev_string (s ++ t)%string acc = rev_string t (rev_string s acc).
Proof. revert acc. induction s as [|a s IH]; intros acc; simpl; auto. Qed.

Lemma rev_string_rev (s acc out : string) :
  rev_string (rev_string s acc) out = rev_string acc (s ++ out)%string.
Proof.
  revert acc out. induction s as [|a s IH]; intros acc out; simpl;
    [reflexivity|]. now rewrite IH.
Qed.

Lemma rev_string_involutive (s : string) :
  rev_string (rev_string s EmptyString) EmptyString = s.
Proof. rewrite rev_string_rev. simpl. apply string_app_nil_r. Qed.

Lemma ends_with_rev_acc (f : ascii -> bool) (s acc : string) :
  ends_with f (rev_string s acc)
  = match acc with
    | EmptyString => starts_with f s
    | String _ _ => ends_with f acc
    end.
Proof.
  revert acc. induction s as [|a s IH]; intros acc.
  - now destruct acc.
  - simpl. rewrite IH. now destruct acc.
Qed.

Lemma ends_with_rev (f : ascii -> bool) (s : string) :
  ends_with f (rev_string s EmptyString) = starts_with f s.
Proof. apply ends_with_rev_acc. Qed.

Lemma all_chars_app (f : ascii -> bool) (s t : string) :
  all_chars f (s ++ t)%string = all_chars f s && all_chars f t.
Proof.
  induction s as [|a s IH]; simpl; [reflexivity|].
  now rewrite IH, andb_assoc.
Qed.

Lemma all_chars_rev (f : ascii -> bool) (s acc : string) :
  all_chars f (rev_string s acc) = all_chars f s && all_chars f acc.
Proof.
  revert acc. induction s as [|a s IH]; intros acc; simpl; [reflexivity|].
  rewrite IH. simpl. destruct (f a), (all_chars f s); reflexivity.
Qed.

Lemma lstrip_by_spec (f : ascii -> bool) (s : string) :
  starts_with f (lstrip_by f s) = false
  /\ exists p, s = (p ++ lstrip_by f s)%string /\ all_chars f p = true.
Proof.
  induction s as [|a s [IH1 (p & IH2 & IH3)]]; simpl.
  - split; [reflexivity|]. now exists EmptyString.
  - destruct (f a) eqn:Hfa.
    + split; [exact IH1|]. exists (String a p). simpl.
      now rewrite <- IH2, Hfa, IH3.
    + simpl. split; [exact Hfa|]. now exists EmptyString.
Qed.

Lemma lstrip_by_fixed (f : ascii -> bool) (s : string) :
  starts_with f s = false -> lstrip_by f s = s.
Proof. destruct s as [|a s]; simpl; [reflexivity|]. now intros ->. Qed.

Lemma rstrip_by_spec (f : ascii -> bool) (s : string) :
  ends_with f (rstrip_by f s) = false
  /\ exists q, s = (rstrip_by f s ++ q)%string /\ all_chars f q = true.
Proof.
  unfold rstrip_by.
  destruct (lstrip_by_spec f (rev_string s EmptyString))
    as [Hstart (p & Hp & Hall)].
  split; [now rewrite ends_with_rev|].
  exists (rev_string p EmptyString). split.
  - rewrite <- (rev_string_involutive s) at 1. rewrite Hp at 1.
    rewrite rev_string_app. apply rev_string_acc.
  - now rewrite all_chars_rev, Hall.
Qed.

Lemma rstrip_by_fixed (f : ascii -> bool) (s : string) :
  ends_with f s = false -> rstrip_by f s = s.
Proof.
  intros Hend. unfold rstrip_by. rewrite lstrip_by_fixed.
  - apply rev_string_involutive.
  - rewrite <- ends_with_rev, rev_string_involutive. exact Hend.
Qed.

Lemma lstrip_char_by (c : ascii) (s : string) :
  lstrip_char c s = lstrip_by (fun a => Ascii.eqb a c) s.
Proof.
  induction s as [|a s IH]; simpl; [reflexivity|].
  now destruct (Ascii.eqb a c).
Qed.

Lemma lstrip_by_space (s : string) : lstrip s = lstrip_by is_space s.
Proof.
  induction s as [|a s IH]; simpl; [reflexivity|].
  now destruct (is_space a).
Qed.

Lemma rstrip_slash_by (s : string) :
  rstrip_char "/"%char s = rstrip_by is_slash s.
Proof. unfold rstrip_char, rstrip_by. now rewrite lstrip_char_by. Qed.

Lemma strip_by (s : string) :
  ascii_strip s = rstrip_by is_space (lstrip_by is_space s).
Proof. unfold ascii_strip, rstrip_by. now rewrite !lstrip_by_space. Qed.

Lemma rstrip_slash_end (s : string) :
  ends_with is_slash (rstrip_char "/"%char s) = false.
Proof. rewrite rstrip_slash_by. apply rstrip_by_spec. Qed.

(** [str.rstrip('/')] as the module uses it: the result does not end
    with a slash, the argument is the result followed by slashes only,
    and stripping again changes nothing. *)
Lemma rstrip_char_slash (s : string) :
  ends_with is_slash (rstrip_char "/"%char s) = false
  /\ (exists slashes,
         s = (rstrip_char "/"%char s ++ slashes)%string
         /\ all_chars is_slash slashes = true)
  /\ rstrip_char "/"%char (rstrip_char "/"%char s) = rstrip_char "/"%char s.
Proof.
  rewrite !rstrip_slash_by.
  destruct (rstrip_by_spec is_slash s) as [Hend Hdec].
  split; [exact Hend|]. split; [exact Hdec|].
  now apply rstrip_by_fixed.
Qed.

Lemma strip_between (s : string) :
  starts_with is_space (ascii_strip s) = false
  /\ ends_with is_space (ascii_strip s) = false
  /\ exists before after,
       s = (before ++ ascii_strip s ++ after)%string
       /\ all_chars is_space before = true
       /\ all_chars is_space after = true.
Proof.
  rewrite !strip_by.
  destruct (lstrip_by_spec is_space s) as [Hstart (p & Hp & Hpall)].
  destruct (rstrip_by_spec is_space (lstrip_by is_space s))
    as [Hend (q & Hq & Hqall)].
  split; [|split; [exact Hend|]].
  - rewrite Hq in Hstart.
    destruct (rstrip_by is_space (lstrip_by is_space s)); [reflexivity|].
    exact Hstart.
  - exists p, q. split; [|now split]. now rewrite <- Hq.
Qed.

(** [str.strip()] on ASCII strings: the result neither starts nor ends with white
    space, the argument is the result between two runs of white space,
    and stripping again changes nothing. *)
Lemma strip_spec (s : string) :
  starts_with is_space (ascii_strip s) = false
  /\ ends_with is_space (ascii_strip s) = false
  /\ (exists before after,
         s = (before ++ ascii_strip s ++ after)%string
         /\ all_chars is_space before = true
         /\ all_chars is_space after = true)
  /\ ascii_strip (ascii_strip s) = ascii_strip s.
Proof.
  destruct (strip_between s) as (Hstart & Hend & Hdec).
  split; [exact Hstart|]. split; [exact Hend|]. split; [exact Hdec|].
  rewrite (strip_by (ascii_strip s)).
  rewrite (lstrip_by_fixed _ _ Hstart). now apply rstrip_by_fixed.
Qed.

Lemma split_comma_aux_cons (s cur : string) :
  exists field rest, split_comma_aux s cur = field :: rest.
Proof.
  revert cur. induction s as [|a s IH]; intros cur; simpl.
  - now eexists; eexists.
  - destruct (Ascii.eqb a ","%char); [now eexists; eexists | apply IH].
Qed.

Lemma split_comma_aux_join (s cur : string) :
  join_comma (split_comma_aux s cur)
  = (rev_string cur EmptyString ++ s)%string.
Proof.
  revert cur. induction s as [|a s IH]; intros cur; simpl.
  - now rewrite string_app_nil_r.
  - destruct (Ascii.eqb a ","%char) eqn:Ha.
    + apply Ascii.eqb_eq in Ha. subst a.
      destruct (split_comma_aux_cons s EmptyString) as (f & fs & Hs).
      pose proof (IH EmptyString) as IH0. rewrite Hs in *.
      change (join_comma (rev_string cur EmptyString :: f :: fs))
        with (rev_string cur EmptyString ++ "," ++ join_comma (f :: fs))%string.
      now rewrite IH0.
    + rewrite IH. simpl. rewrite (rev_string_acc cur (String a EmptyString)).
      now rewrite string_app_assoc.
Qed.

Lemma split_comma_aux_fields (s cur : string) :
  all_chars not_comma cur = true ->
  Forall (fun field => all_chars not_comma field = true)
         (split_comma_aux s cur).
Proof.
  revert cur. induction s as [|a s IH]; intros cur Hcur; simpl.
  - constructor; [|constructor]. now rewrite all_chars_rev, Hcur.
  - destruct (Ascii.eqb a ","%char) eqn:Ha.
    + constructor; [now rewrite all_chars_rev, Hcur | now apply IH].
    + apply IH. simpl. unfold not_comma at 1, is_comma. now rewrite Ha.
Qed.

Lemma split_comma_aux_length (s cur : string) :
  List.length (split_comma_aux s cur) = S (count_chars is_comma s).
Proof.
  revert cur. induction s as [|a s IH]; intros cur; simpl; [reflexivity|].
  unfold is_comma at 1. destruct (Ascii.eqb a ","%char); simpl; now rewrite IH.
Qed.

(** [s.split(',')]: joining the fields with commas gives [s] back, no
    field holds a comma, and there is one field more than [s] has commas,
    so that the empty string splits into one empty field. *)
Lemma split_comma_spec (s : string) :
  join_comma (split_comma s) = s
  /\ Forall (fun field => all_chars not_comma field = true) (split_comma s)
  /\ List.length (split_comma s) = S (count_chars is_comma s).
Proof.
  unfold split_comma. split; [|split].
  - now rewrite split_comma_aux_join.
  - now apply split_comma_aux_fields.
  - apply split_comma_aux_length.
Qed.

(** ** Documents accepted by the constructors *)

Lemma split_authors_names (py : python) (j : json) (names : list string) :
  split_authors py j = Ok names ->
  exists s, j = JStr s /\ names = map (strip py) (split_comma s).
Proof.
  destruct j; try discriminate. simpl. intros [= <-]. now exists s.
Qed.

Lemma inside_comma_free (before name after : string) :
  all_chars not_comma (before ++ name ++ after)%string = true ->
  all_chars not_comma name = true.
Proof.
  rewrite !all_chars_app. intros H.
  apply andb_true_iff in H as [_ H].
  now apply andb_true_iff in H as [H _].
Qed.

Lemma stripped_fields_comma_free (py : python) (s : string) :
  strip_inside py ->
  Forall (fun name => all_chars not_comma name = true)
         (map (strip py) (split_comma s)).
Proof.
  intros Hinside.
  pose proof (split_comma_aux_fields s EmptyString eq_refl) as Hfields.
  fold (split_comma s) in Hfields.
  induction Hfields as [|f fs Hf _ IH]; simpl; constructor; [|exact IH].
  destruct (Hinside f) as (before & after & Hdec).
  rewrite Hdec in Hf. exact (inside_comma_free _ _ _ Hf).
Qed.

Lemma PackageCatalogInfo_init_authors (py : python) (j : json)
    (info : PackageCatalogInfo.t) :
  PackageCatalogInfo_init py j = Ok info ->
  (contains j "authors" = Ok false /\ PackageCatalogInfo.authors info = [])
  \/ (exists s,
         contains j "authors" = Ok true
         /\ getitem j "authors" = Ok (JStr s)
         /\ PackageCatalogInfo.authors info
            = map (strip py) (split_comma s)).
Proof.
  unfold PackageCatalogInfo_init.
  destruct (contains j "authors") as [[|]|e]; simpl; [| |discriminate].
  - destruct (getitem j "authors") as [a|e]; simpl; [|discriminate].
    destruct (split_authors py a) as [names|e] eqn:Hnames; simpl;
      [|discriminate].
    destruct (split_authors_names _ _ _ Hnames) as (s & -> & ->).
    repeat match goal with
           | |- context [rbind ?x _] =>
               destruct x; simpl; try discriminate
           end.
    intros [= <-]. simpl. right. now exists s.
  - repeat match goal with
           | |- context [rbind ?x _] =>
               destruct x; simpl; try discriminate
           end.
    intros [= <-]. simpl. now left.
Qed.

(** X1. The authors of a [PackageCatalogInfo]: the list is empty exactly
    when the document has no [authors] entry; otherwise the entry is a
    string and the names are its comma-separated fields, each passed
    through [str.strip], one more than the string has commas; and, as
    [str.strip] returns a part of its argument, no name holds a comma. *)
Theorem PackageCatalogInfo_authors (py : python) (j : json)
    (info : PackageCatalogInfo.t) :
  PackageCatalogInfo_init py j = Ok info ->
  (PackageCatalogInfo.authors info = [] <-> contains j "authors" = Ok false)
  /\ (contains j "authors" = Ok true ->
      exists s,
        getitem j "authors" = Ok (JStr s)
        /\ PackageCatalogInfo.authors info = map (strip py) (split_comma s)
        /\ List.length (PackageCatalogInfo.authors info)
           = S (count_chars is_comma s))
  /\ (strip_inside py ->
      Forall (fun name => all_chars not_comma name = true)
             (PackageCatalogInfo.authors info)).
Proof.
  intros Hinit.
  destruct (PackageCatalogInfo_init_authors _ _ _ Hinit)
    as [[Hno Hnil] | (s & Hhas & Hget & Hnames)].
  - rewrite Hno, Hnil. split; [now split|]. split; [discriminate|].
    intros _. constructor.
  - rewrite Hhas, Hnames.
    assert (Hlen : List.length (map (strip py) (split_comma s))
                   = S (count_chars is_comma s)).
    { rewrite length_map. apply split_comma_aux_length. }
    split; [|split].
    + split; [|discriminate].
      intros Hnil. rewrite Hnil in Hlen. discriminate Hlen.
    + intros _. exists s. now repeat split.
    + intros Hinside. now apply stripped_fields_comma_free.
Qed.

Lemma ascii_strip_inside : strip_inside sample_python.
Proof.
  intros s. destruct (strip_between s) as (_ & _ & before & after & Hdec & _).
  now exists before, after.
Qed.

Lemma PackageCatalogInfo_authors_witness :
  exists info,
    PackageCatalogInfo_init sample_python sample_entry = Ok info
    /\ PackageCatalogInfo.authors info = ["Ann"; "Bob"]
    /\ Forall (fun name => all_chars not_comma name = true)
              (PackageCatalogInfo.authors info).
Proof.
  eexists. split; [reflexivity|]. split; [reflexivity|].
  apply (proj2 (proj2 (PackageCatalogInfo_authors sample_python sample_entry
                         _ eq_refl))).
  exact ascii_strip_inside.
Defined.

Lemma dict_get_members (m : list (string * json)) (k : string) (d : json) :
  dict_get (JObj m) k d = Ok (lookup_default k m d).
Proof. unfold dict_get, lookup_default. now destruct (lookup k m). Qed.

Lemma dict_get_dict (j : json) (k : string) (d v : json) :
  dict_get j k d = Ok v -> exists m, j = JObj m.
Proof. destruct j; try discriminate. intros _. now eexists. Qed.

(** X2. [PackageCatalogInfo(json)] accepts exactly the dicts that hold an
    [id] and a [version] and whose [authors], when present, is a string.
    The other fields are read with their defaults: the empty string for
    [created] and [description], [False] for [isPrerelease], [True] for
    [listed], [None] for [summary] and the empty list for [tags]. *)
Theorem PackageCatalogInfo_init_accepts (py : python) (j : json) :
  ((exists info, PackageCatalogInfo_init py j = Ok info) <->
   (exists m,
       j = JObj m
       /\ lookup "id" m <> None
       /\ lookup "version" m <> None
       /\ (forall a, lookup "authors" m = Some a -> exists s, a = JStr s)))
  /\ (forall m info,
         j = JObj m ->
         PackageCatalogInfo_init py j = Ok info ->
         Some (PackageCatalogInfo.id info) = lookup "id" m
         /\ Some (PackageCatalogInfo.version info) = lookup "version" m
         /\ PackageCatalogInfo.created info
            = lookup_default "created" m (JStr EmptyString)
         /\ PackageCatalogInfo.description info
            = lookup_default "description" m (JStr EmptyString)
         /\ PackageCatalogInfo.is_prerelease info
            = lookup_default "isPrerelease" m (JBool false)
         /\ PackageCatalogInfo.listed info
            = lookup_default "listed" m (JBool true)
         /\ PackageCatalogInfo.summary info
            = lookup_default "summary" m JNull
         /\ PackageCatalogInfo.tags info
            = lookup_default "tags" m (JArr [])).
Proof.
  split; [split|].
  - intros [info Hinit]. unfold PackageCatalogInfo_init in Hinit.
    destruct j as [|b|n|lit|s|l|m];
      try (simpl in Hinit; discriminate Hinit).
    + simpl in Hinit. destruct (substringb "authors" s);
        simpl in Hinit; discriminate Hinit.
    + simpl in Hinit. destruct (existsb (is_str "authors") l);
        simpl in Hinit; discriminate Hinit.
    + exists m. split; [reflexivity|].
      rewrite !dict_get_members in Hinit. unfold contains, getitem in Hinit.
      destruct (lookup "authors" m) as [a|] eqn:Ha; simpl in Hinit.
      * destruct a; simpl in Hinit; try discriminate Hinit.
        destruct (lookup "id" m); simpl in Hinit; [|discriminate Hinit].
        destruct (lookup "version" m); simpl in Hinit; [|discriminate Hinit].
        repeat split; try discriminate. intros a [= <-]. now eexists.
      * destruct (lookup "id" m); simpl in Hinit; [|discriminate Hinit].
        destruct (lookup "version" m); simpl in Hinit; [|discriminate Hinit].
        repeat split; discriminate.
  - intros (m & -> & Hid & Hversion & Hauthors).
    unfold PackageCatalogInfo_init. rewrite !dict_get_members.
    unfold contains, getitem.
    destruct (lookup "id" m) as [i|]; [|now destruct Hid].
    destruct (lookup "version" m) as [v|]; [|now destruct Hversion].
    destruct (lookup "authors" m) as [a|]; simpl.
    + destruct (Hauthors a eq_refl) as [s ->]. simpl. now eexists.
    + now eexists.
  - intros m info -> Hinit. unfold PackageCatalogInfo_init in Hinit.
    rewrite !dict_get_members in Hinit. unfold contains, getitem in Hinit.
    destruct (lookup "id" m) as [i|];
      [|destruct (lookup "authors" m) as [[]|]; simpl in Hinit;
        discriminate Hinit].
    destruct (lookup "version" m) as [v|];
      [|destruct (lookup "authors" m) as [[]|]; simpl in Hinit;
        discriminate Hinit].
    destruct (lookup "authors" m) as [a|]; simpl in Hinit.
    + destruct a; simpl in Hinit; try discriminate Hinit.
      injection Hinit as <-. now repeat split.
    + injection Hinit as <-. now repeat split.
Qed.

Lemma PackageCatalogInfo_init_accepts_witness :
  PackageCatalogInfo.listed
    (PackageCatalogInfo.mk ["Ann"; "Bob"]
       (JStr "2023-01-01T00:00:00Z") (JStr EmptyString)
       (JStr "Foo") (JBool false) (JBool true) JNull (JArr [])
       (JStr "1.0.0"))
  = JBool true.
Proof.
  destruct (proj2 (PackageCatalogInfo_init_accepts sample_python sample_entry)
              _ _ eq_refl eq_refl)
    as (_ & _ & _ & _ & _ & Hlisted & _).
  exact Hlisted.
Defined.

(** X3. [RegistrationLeaf(json)] accepts exactly the dicts that hold an
    [id] and a [version]; [published] defaults to the empty string and
    [listed] to [True]. *)
Theorem RegistrationLeaf_init_accepts (j : json) :
  ((exists leaf, RegistrationLeaf_init j = Ok leaf) <->
   (exists m, j = JObj m /\ lookup "id" m <> None
              /\ lookup "version" m <> None))
  /\ (forall m leaf,
         j = JObj m ->
         RegistrationLeaf_init j = Ok leaf ->
         Some (RegistrationLeaf.id leaf) = lookup "id" m
         /\ Some (RegistrationLeaf.version leaf) = lookup "version" m
         /\ RegistrationLeaf.published leaf
            = lookup_default "published" m (JStr EmptyString)
         /\ RegistrationLeaf.listed leaf
            = lookup_default "listed" m (JBool true)).
Proof.
  split; [split|].
  - intros [leaf Hinit]. unfold RegistrationLeaf_init in Hinit.
    destruct j as [|b|n|lit|s|l|m]; try (simpl in Hinit; discriminate Hinit).
    exists m. split; [reflexivity|].
    rewrite !dict_get_members in Hinit. unfold getitem in Hinit.
    simpl in Hinit.
    destruct (lookup "id" m); simpl in Hinit; [|discriminate Hinit].
    destruct (lookup "version" m); simpl in Hinit; [|discriminate Hinit].
    split; discriminate.
  - intros (m & -> & Hid & Hversion).
    unfold RegistrationLeaf_init. rewrite !dict_get_members.
    unfold getitem. simpl.
    destruct (lookup "id" m) as [i|]; [|now destruct Hid].
    destruct (lookup "version" m) as [v|]; [|now destruct Hversion].
    simpl. now eexists.
  - intros m leaf -> Hinit. unfold RegistrationLeaf_init in Hinit.
    rewrite !dict_get_members in Hinit. unfold getitem in Hinit.
    simpl in Hinit.
    destruct (lookup "id" m) as [i|]; simpl in Hinit; [|discriminate Hinit].
    destruct (lookup "version" m) as [v|]; simpl in Hinit;
      [|discriminate Hinit].
    injection Hinit as <-. now repeat split.
Qed.

Lemma RegistrationLeaf_init_accepts_witness :
  exists leaf, RegistrationLeaf_init sample_leaf = Ok leaf.
Proof.
  apply (proj1 (RegistrationLeaf_init_accepts sample_leaf)).
  eexists. split; [reflexivity|]. split; discriminate.
Defined.

(** ** Page numbers *)

Lemma all_chars_impl (f g : ascii -> bool) (s : string) :
  (forall a, f a = true -> g a = true) ->
  all_chars f s = true -> all_chars g s = true.
Proof.
  intros Hfg. induction s as [|a s IH]; simpl; [reflexivity|].
  intros H. apply andb_true_iff in H as [Ha Hs].
  now rewrite (Hfg a Ha), IH.
Qed.

Lemma span_digits_spec (s ds r : string) :
  span_digits s = (ds, r) ->
  s = (ds ++ r)%string
  /\ all_chars is_digit ds = true
  /\ starts_with is_digit r = false.
Proof.
  revert ds r. induction s as [|a s IH]; intros ds r; simpl.
  - intros [= <- <-]. now repeat split.
  - destruct (is_digit a) eqn:Ha.
    + destruct (span_digits s) as [ds' r'].
      intros [= <- <-]. destruct (IH ds' r' eq_refl) as (-> & Hds & Hr).
      simpl. now rewrite Ha, Hds.
    + intros [= <- <-]. simpl. now repeat split.
Qed.

Lemma span_digits_app (ds r : string) :
  all_chars is_digit ds = true ->
  starts_with is_digit r = false ->
  span_digits (ds ++ r)%string = (ds, r).
Proof.
  intros Hds Hr. induction ds as [|a ds IH]; simpl in *.
  - destruct r as [|b r]; simpl in *; [reflexivity | now rewrite Hr].
  - apply andb_true_iff in Hds as [Ha Hds]. now rewrite Ha, IH.
Qed.

Lemma drop_prefix_spec (p s r : string) :
  drop_prefix p s = Some r <-> s = (p ++ r)%string.
Proof.
  revert s. induction p as [|a p IH]; intros s; simpl.
  - split; [now intros [= ->] | now intros ->].
  - destruct s as [|b s]; [split; discriminate|].
    destruct (Ascii.eqb a b) eqn:Hab.
    + apply Ascii.eqb_eq in Hab. subst b. rewrite IH.
      split; [now intros -> | now intros [= ->]].
    + apply Ascii.eqb_neq in Hab. split; [discriminate|].
      intros [= -> _]. now destruct Hab.
Qed.

Lemma int_of_digits_nonneg (ds : string) (acc : Z) :
  (0 <= acc)%Z -> (0 <= int_of_digits ds acc)%Z.
Proof.
  revert acc. induction ds as [|a ds IH]; intros acc Hacc;
    cbn [int_of_digits]; [exact Hacc|]. apply IH.
  pose proof (Nat2Z.is_nonneg (nat_of_ascii a - 48)). lia.
Qed.

Lemma match_page_here_sound (s ds : string) :
  match_page_here s = Some ds ->
  exists tail,
    s = ("page" ++ ds ++ ".json" ++ tail)%string
    /\ (tail = EmptyString \/ tail = newline)
    /\ ds <> EmptyString
    /\ all_chars is_digit ds = true.
Proof.
  unfold match_page_here.
  destruct (drop_prefix "page" s) as [r|] eqn:Hdrop; [|discriminate].
  apply drop_prefix_spec in Hdrop. subst s.
  destruct (span_digits r) as [ds' r'] eqn:Hspan.
  destruct (span_digits_spec _ _ _ Hspan) as (-> & Hds & _).
  destruct (String.eqb ds' EmptyString) eqn:Hempty; [discriminate|].
  apply String.eqb_neq in Hempty.
  destruct (String.eqb r' ".json") eqn:H1.
  - apply String.eqb_eq in H1. subst r'. intros [= <-].
    exists EmptyString. repeat split; auto.
  - destruct (String.eqb r' (".json" ++ newline)%string) eqn:H2;
      [|discriminate].
    apply String.eqb_eq in H2. subst r'. intros [= <-].
    exists newline. repeat split; auto.
Qed.

Lemma match_page_here_complete (ds : string) :
  ds <> EmptyString ->
  all_chars is_digit ds = true ->
  match_page_here ("page" ++ ds ++ ".json")%string = Some ds.
Proof.
  intros Hne Hds. unfold match_page_here.
  change (drop_prefix "page" ("page" ++ ds ++ ".json")%string)
    with (Some (ds ++ ".json")%string).
  cbv beta iota. rewrite (span_digits_app ds ".json" Hds eq_refl).
  apply String.eqb_neq in Hne. now rewrite Hne.
Qed.

Lemma digit_not_p (a : ascii) : is_digit a = true -> not_p a = true.
Proof. destruct a as [[] [] [] [] [] [] [] []]; simpl; auto. Qed.

(** A match cannot start before the last [page] of the string: past its
    first letter a match holds no [p]. *)
Lemma match_page_here_late (c : ascii) (before ds : string) :
  match_page_here (String c (before ++ "page" ++ ds ++ ".json"))%string
  = None.
Proof.
  destruct (match_page_here _) as [n|] eqn:Hmatch; [|reflexivity].
  exfalso.
  destruct (match_page_here_sound _ _ Hmatch)
    as (tail & Heq & Htail & _ & Hds').
  simpl in Heq. injection Heq as _ Heq.
  apply (f_equal (all_chars not_p)) in Heq.
  rewrite all_chars_app in Heq. simpl in Heq.
  rewrite andb_false_r in Heq.
  rewrite all_chars_app in Heq.
  rewrite (all_chars_impl _ _ _ digit_not_p Hds') in Heq.
  destruct Htail as [-> | ->]; discriminate Heq.
Qed.

Lemma search_pageno_complete (before ds : string) :
  ds <> EmptyString ->
  all_chars is_digit ds = true ->
  search_pageno (before ++ "page" ++ ds ++ ".json")%string = Some ds.
Proof.
  intros Hne Hds. induction before as [|c before IH].
  - change (search_pageno (EmptyString ++ "page" ++ ds ++ ".json")%string)
      with (match match_page_here ("page" ++ ds ++ ".json")%string with
            | Some n => Some n
            | None => search_pageno ("age" ++ ds ++ ".json")%string
            end).
    now rewrite match_page_here_complete.
  - change (search_pageno (String c before ++ "page" ++ ds ++ ".json")%string)
      with (match match_page_here
                    (String c (before ++ "page" ++ ds ++ ".json"))%string with
            | Some n => Some n
            | None => search_pageno (before ++ "page" ++ ds ++ ".json")%string
            end).
    rewrite match_page_here_late. exact IH.
Qed.

Lemma search_pageno_sound (s ds : string) :
  search_pageno s = Some ds ->
  exists before rest,
    s = (before ++ rest)%string /\ match_page_here rest = Some ds.
Proof.
  induction s as [|c s IH].
  - cbn [search_pageno].
    destruct (match_page_here EmptyString) eqn:H; [|discriminate].
    intros [= <-]. now exists EmptyString, EmptyString.
  - cbn [search_pageno].
    destruct (match_page_here (String c s)) eqn:H.
    + intros [= <-]. now exists EmptyString, (String c s).
    + intros Hrec. destruct (IH Hrec) as (before & rest & -> & Hrest).
      now exists (String c before), rest.
Qed.

(** X4. [NugetPage(url)] reads the page number off the end of the URL.
    For a URL that ends in [page<digits>.json], whatever precedes it,
    [int] is applied to these digits: the constructor raises the
    [ValueError] of [int] when the interpreter refuses a run of digits of
    that length, and builds the page of that number otherwise.  And a page
    is built only from a string of that form (a final line feed apart),
    with digits that [int] accepts, its number being their value, never
    negative. *)
Theorem NugetPage_init_pageno (py : python) :
  (forall before ds,
      ds <> EmptyString ->
      all_chars is_digit ds = true ->
      NugetPage_init py (JStr (before ++ "page" ++ ds ++ ".json")%string)
      = if int_refuses py ds
        then Raise (builtin_exn ValueError)
        else Ok (NugetPage.mk (int_of_digits ds 0)
                   (JStr (before ++ "page" ++ ds ++ ".json")%string) JNull))
  /\ (forall url page,
         NugetPage_init py url = Ok page ->
         exists before ds tail,
           url = JStr (before ++ "page" ++ ds ++ ".json" ++ tail)%string
           /\ (tail = EmptyString \/ tail = newline)
           /\ ds <> EmptyString
           /\ all_chars is_digit ds = true
           /\ int_refuses py ds = false
           /\ NugetPage.pageno page = int_of_digits ds 0
           /\ (0 <= NugetPage.pageno page)%Z).
Proof.
  split.
  - intros before ds Hne Hds. unfold NugetPage_init, py_int.
    rewrite search_pageno_complete by assumption.
    now destruct (int_refuses py ds).
  - intros url page. unfold NugetPage_init, py_int.
    destruct url; try discriminate.
    destruct (search_pageno s) as [ds|] eqn:Hsearch; [|discriminate].
    destruct (int_refuses py ds) eqn:Hint; [discriminate|].
    intros [= <-]. simpl.
    destruct (search_pageno_sound _ _ Hsearch) as (before & rest & -> & Hm).
    destruct (match_page_here_sound _ _ Hm)
      as (tail & -> & Htail & Hne & Hds).
    exists before, ds, tail. repeat split; auto.
    now apply int_of_digits_nonneg.
Qed.

Lemma NugetPage_init_pageno_witness :
  NugetPage_init sample_python
    (JStr "https://api.nuget.org/v3/catalog0/page0042.json")
  = Ok (NugetPage.mk 42
          (JStr "https://api.nuget.org/v3/catalog0/page0042.json") JNull).
Proof.
  apply (proj1 (NugetPage_init_pageno sample_python)
           "https://api.nuget.org/v3/catalog0/" "0042");
    [discriminate | reflexivity].
Defined.

(** ** Service discovery *)

Lemma first_resource_skip (type_ : string) (before rest : list json) :
  Forall (fun node => has_other_type type_ node = true) before ->
  first_resource type_ (before ++ rest) = first_resource type_ rest.
Proof.
  induction before as [|node before IH]; intros Hother; [reflexivity|].
  inversion Hother as [|? ? Hnode Hother']; subst.
  simpl. unfold has_other_type in Hnode.
  destruct (getitem node "@type") as [ty|e]; [|discriminate]. simpl.
  apply negb_true_iff in Hnode. rewrite Hnode. now apply IH.
Qed.

Section Discovery.

Variable py : python.
Variable net : trace -> json -> result json.
Variable ctx : NugetContext.

Lemma NugetClient_load_endpoint (self cli : NugetClient.t) (tr : trace) :
  fst (NugetClient_load net ctx self tr) = Ok cli ->
  NugetClient._type cli = NugetClient._type self
  /\ exists url,
      NugetClient._endpoint_url cli = Some url
      /\ ends_with is_slash url = false.
Proof.
  unfold NugetClient_load, load_index, client_get, bind, lift, ret.
  destruct (net tr (endpoint_url ctx)) as [j|e]; [|discriminate].
  destruct (getitem j "resources") as [nodes|e]; [|discriminate].
  destruct (iter nodes) as [l|e]; [|discriminate].
  destruct (first_resource (NugetClient._type self) l) as [url|e];
    [|discriminate].
  destruct url; try discriminate. simpl. intros [= <-]. simpl.
  split; [reflexivity|]. eexists. split; [reflexivity|].
  apply rstrip_slash_end.
Qed.

(** X5. Service discovery.  [NugetClient.load] issues exactly one
    request, for the service index, whatever the outcome.  When it
    completes, the client keeps its type and its base URL is a string that
    does not end with a slash.  The base URL is the [@id], stripped of its
    final slashes, of the first resource of the client's type, the
    resources before it declaring other types; and when every resource
    declares another type the load raises [RuntimeError]. *)
Theorem NugetClient_load_discovers (self : NugetClient.t) (tr : trace) :
  snd (NugetClient_load net ctx self tr) = tr ++ [Get (endpoint_url ctx)]
  /\ (forall cli,
         fst (NugetClient_load net ctx self tr) = Ok cli ->
         NugetClient._type cli = NugetClient._type self
         /\ exists url,
             NugetClient._endpoint_url cli = Some url
             /\ ends_with is_slash url = false)
  /\ (forall index nodes before node rest url,
         net tr (endpoint_url ctx) = Ok index ->
         getitem index "resources" = Ok (JArr nodes) ->
         nodes = before ++ node :: rest ->
         Forall (fun n => has_other_type (NugetClient._type self) n = true)
                before ->
         has_type (NugetClient._type self) node = true ->
         getitem node "@id" = Ok (JStr url) ->
         fst (NugetClient_load net ctx self tr)
         = Ok (NugetClient.mk (NugetClient._type self)
                 (Some (rstrip_char "/"%char url))))
  /\ (forall index nodes,
         net tr (endpoint_url ctx) = Ok index ->
         getitem index "resources" = Ok (JArr nodes) ->
         Forall (fun n => has_other_type (NugetClient._type self) n = true)
                nodes ->
         fst (NugetClient_load net ctx self tr)
         = Raise (builtin_exn RuntimeError)).
Proof.
  split; [apply NugetClient_load_trace|]. split; [|split].
  - intros cli. apply NugetClient_load_endpoint.
  - intros index nodes before node rest url Hnet Hres -> Hbefore Hnode Hid.
    unfold NugetClient_load, load_index, client_get, bind, lift, ret.
    rewrite Hnet, Hres. simpl.
    rewrite first_resource_skip by assumption. simpl.
    unfold has_type in Hnode.
    destruct (getitem node "@type") as [ty|e]; [|discriminate]. simpl.
    rewrite Hnode, Hid. reflexivity.
  - intros index nodes Hnet Hres Hnodes.
    unfold NugetClient_load, load_index, client_get, bind, lift, ret.
    rewrite Hnet, Hres. simpl.
    rewrite <- (app_nil_r nodes), first_resource_skip by assumption.
    reflexivity.
Qed.

End Discovery.

Lemma NugetClient_load_discovers_witness :
  fst (NugetClient_load sample_net sample_ctx NugetRegistrationClient_init [])
  = Ok (NugetClient.mk REGISTRATION_TYPE
          (Some "https://api.nuget.org/v3/registration")).
Proof.
  apply (proj1 (proj2 (proj2
           (NugetClient_load_discovers sample_net sample_ctx
              NugetRegistrationClient_init [])))
           sample_index _
           [JObj [("@id", JStr "https://api.nuget.org/v3/catalog0/index.json");
                  ("@type", JStr CATALOG_TYPE)]]
           (JObj [("@id", JStr "https://api.nuget.org/v3/registration/");
                  ("@type", JStr REGISTRATION_TYPE)])
           [JObj [("@id", JStr "https://api.nuget.org/query");
                  ("@type", JStr SEARCH_TYPE)]]
           "https://api.nuget.org/v3/registration/"
           eq_refl eq_refl eq_refl).
  - repeat constructor.
  - reflexivity.
  - reflexivity.
Defined.

(** ** The catalog client and its generator *)

Lemma rmap_raises {A B : Type} (f : A -> result B) (l : list A) :
  Exists (fun x => forall y, f x <> Ok y) l ->
  exists e, rmap f l = Raise e.
Proof.
  induction 1 as [x l Hx | x l _ [e IH]]; simpl.
  - destruct (f x) as [y|e]; [now destruct (Hx y) | now exists e].
  - destruct (f x) as [y|e']; simpl; [|now exists e'].
    rewrite IH. now exists e.
Qed.

Section Catalog_generator.

Variable py : python.
Variable net : trace -> json -> result json.
Variable ctx : NugetContext.

(** X6. [NugetCatalogClient.load] discovers the catalog service and then
    requests the catalog document at the discovered base URL, in this
    order: when discovery fails the document is not requested, and when
    discovery completes the client returned holds what the transport
    answered to the second request. *)
Theorem NugetCatalogClient_load_requests
    (self : NugetCatalogClient.t) (tr : trace) :
  (forall e,
      fst (NugetClient_load net ctx (NugetCatalogClient.client self) tr)
      = Raise e ->
      NugetCatalogClient_load net ctx self tr
      = (Raise e, tr ++ [Get (endpoint_url ctx)]))
  /\ (forall cli,
         fst (NugetClient_load net ctx (NugetCatalogClient.client self) tr)
         = Ok cli ->
         exists url,
           NugetClient._endpoint_url cli = Some url
           /\ NugetCatalogClient_load net ctx self tr
              = (rbind (net (tr ++ [Get (endpoint_url ctx)]) (JStr url))
                   (fun doc => Ok (NugetCatalogClient.mk cli doc)),
                 tr ++ [Get (endpoint_url ctx); Get (JStr url)])).
Proof.
  pose proof (NugetClient_load_trace net ctx
                (NugetCatalogClient.client self) tr) as Htr.
  pose proof (NugetClient_load_endpoint net ctx
                (NugetCatalogClient.client self)) as Hcli.
  specialize (fun cli => Hcli cli tr).
  unfold NugetCatalogClient_load, bind.
  destruct (NugetClient_load net ctx (NugetCatalogClient.client self) tr)
    as [[cli|e] tr1]; cbn [fst snd] in *; subst tr1; split.
  - discriminate.
  - intros cli' [= <-]. destruct (Hcli cli eq_refl) as (_ & url & Hurl & _).
    exists url. split; [exact Hurl|].
    unfold load_catalog, client_get, bind, ret. cbn [NugetCatalogClient.client].
    rewrite Hurl. cbn [url_of_opt]. rewrite <- app_assoc. cbn [app].
    now destruct (net (tr ++ [Get (endpoint_url ctx)]) (JStr url)).
  - now intros e' [= <-].
  - discriminate.
Qed.

(** X7. The page URLs are read off the root document before the first
    page is requested: when the document cannot be read, the iteration
    raises at its first step without a request and the generator is
    finished; this is the case as soon as one item of the document, be it
    the last, has no [@id]. *)
Theorem load_pages_reads_urls_first
    (self : NugetCatalogClient.t) (n : nat) (tr : trace) :
  (forall e,
      page_urls self = Raise e ->
      take_pages py net (S n) (load_pages self, tr)
      = (Raise e, (GenFinished, tr)))
  /\ (forall nodes,
         getitem (NugetCatalogClient._catalog_json self) "items"
         = Ok (JArr nodes) ->
         Exists (fun node => forall url, getitem node "@id" <> Ok url) nodes ->
         exists e,
           take_pages py net (S n) (load_pages self, tr)
           = (Raise e, (GenFinished, tr))).
Proof.
  assert (Hraise : forall e,
      page_urls self = Raise e ->
      take_pages py net (S n) (load_pages self, tr)
      = (Raise e, (GenFinished, tr))).
  { intros e He. cbn [take_pages]. apply bind_raise.
    unfold load_pages. cbn [anext]. now rewrite He. }
  split; [exact Hraise|].
  intros nodes Hitems Hbad.
  destruct (rmap_raises (fun node => getitem node "@id") nodes Hbad)
    as [e He].
  exists e. apply Hraise. unfold page_urls. rewrite Hitems. simpl. exact He.
Qed.

Lemma anext_none (s s' : pages_gen * trace) :
  anext py net s = (Ok None, s') -> s' = (GenFinished, snd s).
Proof.
  destruct s as [g tr].
  assert (Hresume : forall urls,
            resume py net urls tr = (Ok None, s') -> s' = (GenFinished, tr)).
  { intros [|url rest]; [now intros [= <-]|].
    rewrite resume_cons.
    destruct (NugetPage_init py url); [destruct (net tr url)|]; discriminate. }
  destruct g as [self|rest|]; cbn [anext snd].
  - destruct (page_urls self); [apply Hresume | discriminate].
  - apply Hresume.
  - now intros [= <-].
Qed.

Lemma anext_raise (s s' : pages_gen * trace) (e : exn) :
  anext py net s = (Raise e, s') -> fst s' = GenFinished.
Proof.
  destruct s as [g tr].
  assert (Hresume : forall urls,
            resume py net urls tr = (Raise e, s') -> fst s' = GenFinished).
  { intros [|url rest]; [discriminate|].
    rewrite resume_cons.
    destruct (NugetPage_init py url); [destruct (net tr url)|];
      try discriminate; now intros [= _ <-]. }
  destruct g as [self|rest|]; cbn [anext].
  - destruct (page_urls self); [apply Hresume | now intros [= _ <-]].
  - apply Hresume.
  - discriminate.
Qed.

Lemma take_pages_step (n : nat) (s : pages_gen * trace) :
  take_pages py net (S n) s =
  match anext py net s with
  | (Ok (Some page), s') =>
      match take_pages py net n s' with
      | (Ok pages, s2) => (Ok (page :: pages), s2)
      | (Raise e, s2) => (Raise e, s2)
      end
  | (Ok None, s') => (Ok [], s')
  | (Raise e, s') => (Raise e, s')
  end.
Proof.
  cbn [take_pages]. unfold bind at 1.
  destruct (anext py net s) as [[[page|]|e] s']; reflexivity.
Qed.

(** X8. The generator can be consumed in pieces: taking [a] pages and
    then [b] more delivers the same pages, issues the same requests and
    leaves the generator in the same state as taking [a + b] pages at
    once. *)
Theorem take_pages_add (a b : nat) (s : pages_gen * trace) :
  take_pages py net (a + b) s =
  match take_pages py net a s with
  | (Ok first, s1) =>
      match take_pages py net b s1 with
      | (Ok more, s2) => (Ok (first ++ more), s2)
      | (Raise e, s2) => (Raise e, s2)
      end
  | (Raise e, s1) => (Raise e, s1)
  end.
Proof.
  revert s. induction a as [|a IH]; intros s.
  - cbn [Nat.add take_pages]. unfold ret.
    now destruct (take_pages py net b s) as [[more|e] s2].
  - cbn [Nat.add]. rewrite !take_pages_step.
    destruct (anext py net s) as [[[page|]|e] s'] eqn:Hnext.
    + rewrite IH.
      destruct (take_pages py net a s') as [[first|e] s1]; [|reflexivity].
      now destruct (take_pages py net b s1) as [[more|e] s2].
    + apply anext_none in Hnext. subst s'.
      now rewrite take_pages_finished.
    + reflexivity.
Qed.

(** X9. The generator cannot be restarted: once an iteration has raised,
    or has delivered fewer pages than it was asked for, the generator is
    finished, and iterating again delivers no page and issues no
    request. *)
Theorem take_pages_finishes (n : nat) :
  forall (s s1 : pages_gen * trace) (r : result (list NugetPage.t)),
    take_pages py net n s = (r, s1) ->
    match r with
    | Ok pages => (List.length pages < n)%nat
    | Raise _ => True
    end ->
    fst s1 = GenFinished
    /\ forall m, take_pages py net m s1 = (Ok [], s1).
Proof.
  assert (Hdone : forall s1 : pages_gen * trace,
            fst s1 = GenFinished ->
            fst s1 = GenFinished
            /\ forall m, take_pages py net m s1 = (Ok [], s1)).
  { intros [g tr1]; simpl; intros ->. split; [reflexivity|].
    intros m. apply take_pages_finished. }
  induction n as [|n IH]; intros s s1 r Hrun Hshort.
  - cbn [take_pages] in Hrun. injection Hrun as <- <-. simpl in Hshort. lia.
  - cbn [take_pages] in Hrun.
    apply bind_inv in Hrun as [(next & s' & Hnext & Hrun) | (e & Hnext & ->)].
    + destruct next as [page|].
      * apply bind_inv in Hrun
          as [(pages & s2 & Hrec & Hrun) | (e & Hrec & ->)].
        -- injection Hrun as <- <-. simpl in Hshort.
           apply (IH _ _ _ Hrec). simpl. lia.
        -- now apply (IH _ _ _ Hrec).
      * injection Hrun as <- <-. apply anext_none in Hnext. subst s'.
        now apply Hdone.
    + apply Hdone. eapply anext_raise. exact Hnext.
Qed.

End Catalog_generator.

Lemma NugetCatalogClient_load_requests_witness :
  snd (NugetCatalogClient_load sample_net sample_ctx
         NugetCatalogClient_init [])
  = [Get (JStr PROD_INDEX);
     Get (JStr "https://api.nuget.org/v3/catalog0/index.json")].
Proof.
  destruct (proj2 (NugetCatalogClient_load_requests sample_net sample_ctx
                     NugetCatalogClient_init [])
              (NugetClient.mk CATALOG_TYPE
                 (Some "https://api.nuget.org/v3/catalog0/index.json"))
              eq_refl)
    as (url & Hurl & Hrun).
  injection Hurl as <-. now rewrite Hrun.
Defined.

Lemma load_pages_reads_urls_first_witness :
  exists e,
    take_pages sample_python sample_net 1 (load_pages sample_broken_catalog_client, [])
    = (Raise e, (GenFinished, [])).
Proof.
  apply (proj2 (load_pages_reads_urls_first sample_python sample_net
                  sample_broken_catalog_client 0 [])
           [JObj [("@id",
                   JStr "https://api.nuget.org/v3/catalog0/page0.json")];
            JObj []]
           eq_refl).
  apply Exists_cons_tl, Exists_cons_hd. discriminate.
Defined.

Lemma take_pages_finishes_witness :
  take_pages sample_python sample_net 5
    (snd (take_pages sample_python sample_net 3 (load_pages sample_catalog_client, [])))
  = (Ok [],
     snd (take_pages sample_python sample_net 3 (load_pages sample_catalog_client, []))).
Proof.
  pose (out := take_pages sample_python sample_net 3 (load_pages sample_catalog_client, [])).
  assert (Hrun : out = (fst out, snd out)) by now destruct out.
  apply (proj2 (take_pages_finishes sample_python sample_net 3 _ _ _ Hrun
                  ltac:(vm_compute; constructor)) 5%nat).
Defined.

(** ** Registration: what is loaded *)

Lemma leaves_of_contains (doc : json) (leaves : list RegistrationLeaf.t) :
  leaves_of doc = Ok leaves -> contains doc "items" = Ok true.
Proof.
  unfold leaves_of, getitem, contains.
  destruct doc; try discriminate.
  now destruct (lookup "items" members).
Qed.

Lemma rmap_Forall {A B : Type} (f : A -> result B) (P : B -> Prop)
      (l : list A) (ys : list B) :
  (forall x y, f x = Ok y -> P y) -> rmap f l = Ok ys -> Forall P ys.
Proof.
  intros Hf. revert ys. induction l as [|x l IH]; intros ys; simpl.
  - intros [= <-]. constructor.
  - destruct (f x) as [y|e] eqn:Hx; [|discriminate]. simpl.
    destruct (rmap f l) as [ys'|e]; [|discriminate]. simpl.
    intros [= <-]. constructor; [now apply (Hf x) | now apply IH].
Qed.

Lemma Forall_removelast {A : Type} (P : A -> Prop) (l : list A) :
  Forall P l -> Forall P (removelast l).
Proof.
  induction 1 as [|x l Hx Hl IH]; simpl; [constructor|].
  destruct l; [constructor | now constructor].
Qed.

Section Registration_loaded.

Variable py : python.
Variable net : trace -> json -> result json.

Lemma RegistrationPage_load_inv (self page : RegistrationPage.t)
      (tr tr' : trace) :
  RegistrationPage_load net self tr = (Ok page, tr') ->
  exists doc leaves,
    leaves_of doc = Ok leaves
    /\ page = RegistrationPage.mk (RegistrationPage.count self) doc
                (Some leaves).
Proof.
  rewrite RegistrationPage_load_run. unfold page_loaded_from.
  destruct (contains (RegistrationPage._json self) "items") as [[|]|e];
    [| |discriminate].
  - destruct (leaves_of (RegistrationPage._json self)) as [leaves|e] eqn:Hl;
      simpl; [|discriminate].
    intros [= <- _]. exists (RegistrationPage._json self), leaves.
    now split.
  - destruct (getitem (RegistrationPage._json self) "@id") as [url|e];
      [|discriminate].
    destruct (net tr url) as [doc|e]; [|discriminate].
    destruct (leaves_of doc) as [leaves|e] eqn:Hl; simpl; [|discriminate].
    intros [= <- _]. exists doc, leaves. now split.
Qed.

Lemma RegistrationPage_load_again (self page : RegistrationPage.t)
      (tr tr' : trace) :
  RegistrationPage_load net self tr = (Ok page, tr') ->
  forall tr2, RegistrationPage_load net page tr2 = (Ok page, tr2).
Proof.
  intros Hload tr2.
  destruct (RegistrationPage_load_inv _ _ _ _ Hload)
    as (doc & leaves & Hleaves & ->).
  rewrite RegistrationPage_load_run. cbn [RegistrationPage._json].
  rewrite (leaves_of_contains _ _ Hleaves).
  unfold page_loaded_from. now rewrite Hleaves.
Qed.

(** X10. Loading is idempotent: once [PackageRegistrationInfo.load] has
    completed, loading the same object again returns it unchanged and
    issues no request, the last page now holding its leaves. *)
Theorem PackageRegistrationInfo_load_idempotent
    (self info : PackageRegistrationInfo.t) (tr tr' : trace) :
  PackageRegistrationInfo_load net self tr = (Ok info, tr') ->
  forall tr2, PackageRegistrationInfo_load net info tr2 = (Ok info, tr2).
Proof.
  unfold PackageRegistrationInfo_load at 1. intros Hload tr2.
  apply bind_inv in Hload as [(page & tr1 & Hlast & Hload) | (e & _ & H)];
    [|discriminate H].
  apply bind_inv in Hload as [(page' & tr3 & Hpage & Hret) | (e & _ & H)];
    [|discriminate H].
  injection Hret as <- <-.
  unfold PackageRegistrationInfo_load. cbn [PackageRegistrationInfo._pages
    PackageRegistrationInfo.count].
  etransitivity; [apply bind_ok; unfold lift; now rewrite last_item_app|].
  etransitivity;
    [apply bind_ok; apply (RegistrationPage_load_again _ _ _ _ Hpage)|].
  unfold ret. now rewrite removelast_last.
Qed.

(** X11. After [load_package] every page of the registration but the last
    is as the constructor left it, without leaves, and the last page holds
    its list of leaves, of which [newest_leaf] is the last. *)
Theorem load_package_loads_last_page_only
    (self : NugetClient.t) (id_ : string)
    (info : PackageRegistrationInfo.t) (tr tr' : trace) :
  load_package py net self id_ tr = (Ok info, tr') ->
  Forall (fun page => RegistrationPage._leaves page = None)
         (removelast (PackageRegistrationInfo._pages info))
  /\ exists page leaves,
       last_item (PackageRegistrationInfo._pages info) = Ok page
       /\ RegistrationPage._leaves page = Some leaves
       /\ newest_leaf info = last_item leaves.
Proof.
  unfold load_package. intros Hload.
  apply bind_inv in Hload as [(reg_json & tr1 & _ & Hload) | (e & _ & H)];
    [|discriminate H].
  apply bind_inv in Hload as [(info0 & tr2 & Hinit & Hload) | (e & _ & H)];
    [|discriminate H].
  unfold lift in Hinit. injection Hinit as Hinit _.
  assert (Hpages : Forall (fun page => RegistrationPage._leaves page = None)
                     (PackageRegistrationInfo._pages info0)).
  { unfold PackageRegistrationInfo_init in Hinit.
    destruct (getitem reg_json "count") as [count|e]; [|discriminate].
    destruct (getitem reg_json "items") as [items|e]; [|discriminate].
    simpl in Hinit. destruct (iter items) as [nodes|e]; [|discriminate].
    simpl in Hinit.
    destruct (rmap RegistrationPage_init nodes) as [pages|e] eqn:Hr;
      [|discriminate].
    injection Hinit as <-. simpl.
    apply (rmap_Forall RegistrationPage_init _ nodes pages); [|exact Hr].
    intros x y. unfold RegistrationPage_init.
    destruct (getitem x "count"); [|discriminate]. now intros [= <-]. }
  unfold PackageRegistrationInfo_load in Hload.
  apply bind_inv in Hload as [(page & tr3 & _ & Hload) | (e & _ & H)];
    [|discriminate H].
  apply bind_inv in Hload as [(page' & tr4 & Hpage & Hret) | (e & _ & H)];
    [|discriminate H].
  injection Hret as <- <-. cbn [PackageRegistrationInfo._pages].
  rewrite removelast_last. split; [now apply Forall_removelast|].
  destruct (RegistrationPage_load_inv _ _ _ _ Hpage)
    as (doc & leaves & _ & ->).
  exists (RegistrationPage.mk (RegistrationPage.count page) doc (Some leaves)),
    leaves.
  split; [apply last_item_app|]. split; [reflexivity|].
  unfold newest_leaf. cbn [PackageRegistrationInfo._pages].
  now rewrite last_item_app.
Qed.

End Registration_loaded.

Lemma PackageRegistrationInfo_load_idempotent_witness :
    PackageRegistrationInfo_load sample_net
      (PackageRegistrationInfo.mk (JNum 1)
         [RegistrationPage.mk (JNum 1)
            (JObj [("count", JNum 1);
                   ("items", JArr [JObj [("catalogEntry", sample_leaf)]])])
            (Some [RegistrationLeaf.mk (JArr []) (JStr EmptyString)
                     (JStr EmptyString) (JStr "Foo") (JStr EmptyString)
                     (JBool true) (JStr EmptyString)
                     (JStr "2023-06-01T00:00:00Z") (JStr EmptyString)
                     (JArr []) (JStr "1.0.0")])])
      []
    = (Ok (PackageRegistrationInfo.mk (JNum 1)
             [RegistrationPage.mk (JNum 1)
                (JObj [("count", JNum 1);
                       ("items", JArr [JObj [("catalogEntry", sample_leaf)]])])
                (Some [RegistrationLeaf.mk (JArr []) (JStr EmptyString)
                         (JStr EmptyString) (JStr "Foo") (JStr EmptyString)
                         (JBool true) (JStr EmptyString)
                         (JStr "2023-06-01T00:00:00Z") (JStr EmptyString)
                         (JArr []) (JStr "1.0.0")])]),
       []).
Proof.
  apply (PackageRegistrationInfo_load_idempotent sample_net
           (PackageRegistrationInfo.mk (JNum 1)
              [RegistrationPage.mk (JNum 1)
                 (JObj [("count", JNum 1);
                        ("items",
                         JArr [JObj [("catalogEntry", sample_leaf)]])])
                 None])
           _ [] [] eq_refl []).
Defined.

Lemma load_package_loads_last_page_only_witness :
  exists page leaves,
    last_item
      (PackageRegistrationInfo._pages
         (PackageRegistrationInfo.mk (JNum 1)
            [RegistrationPage.mk (JNum 1)
               (JObj [("count", JNum 1);
                      ("items", JArr [JObj [("catalogEntry", sample_leaf)]])])
               (Some [RegistrationLeaf.mk (JArr []) (JStr EmptyString)
                        (JStr EmptyString) (JStr "Foo") (JStr EmptyString)
                        (JBool true) (JStr EmptyString)
                        (JStr "2023-06-01T00:00:00Z") (JStr EmptyString)
                        (JArr []) (JStr "1.0.0")])]))
    = Ok page
    /\ RegistrationPage._leaves page = Some leaves
    /\ newest_leaf
         (PackageRegistrationInfo.mk (JNum 1)
            [RegistrationPage.mk (JNum 1)
               (JObj [("count", JNum 1);
                      ("items", JArr [JObj [("catalogEntry", sample_leaf)]])])
               (Some [RegistrationLeaf.mk (JArr []) (JStr EmptyString)
                        (JStr EmptyString) (JStr "Foo") (JStr EmptyString)
                        (JBool true) (JStr EmptyString)
                        (JStr "2023-06-01T00:00:00Z") (JStr EmptyString)
                        (JArr []) (JStr "1.0.0")])])
       = last_item leaves.
Proof.
  apply (proj2 (load_package_loads_last_page_only sample_python sample_net
                  sample_registration_client "Foo" _ []
                  [Get (JStr "https://api.nuget.org/v3/registration/foo/index.json")]
                  eq_refl)).
Defined.

(** ** Search requests *)

Lemma hex_digits_safe (a : ascii) :
  url_safe (hex_digit (nat_of_ascii a / 16)) = true
  /\ url_safe (hex_digit (nat_of_ascii a mod 16)) = true.
Proof. destruct a as [[] [] [] [] [] [] [] []]; split; reflexivity. Qed.

Lemma url_safe_not_delimiter (a : ascii) :
  url_safe a = true -> is_delimiter a = false.
Proof. destruct a as [[] [] [] [] [] [] [] []]; simpl; auto. Qed.

Lemma quote_plus_safe (s : string) : all_chars url_safe (quote_plus s) = true.
Proof.
  induction s as [|a s IH]; [reflexivity|].
  cbn [quote_plus]. destruct (is_unreserved a) eqn:Hu.
  - cbn [all_chars]. unfold url_safe at 1. now rewrite Hu, IH.
  - destruct (Ascii.eqb a " "%char).
    + cbn [all_chars]. now rewrite IH.
    + destruct (hex_digits_safe a) as [Hhi Hlo].
      cbn [all_chars]. now rewrite Hhi, Hlo, IH.
Qed.

Lemma quote_plus_unreserved (s : string) :
  all_chars is_unreserved s = true -> quote_plus s = s.
Proof.
  induction s as [|a s IH]; [reflexivity|].
  cbn [all_chars quote_plus]. intros H.
  apply andb_true_iff in H as [Ha Hs]. now rewrite Ha, IH.
Qed.

Section Search_requests.

Variable py : python.
Variable net : trace -> json -> result json.

(** X12. [search(q)] issues exactly one request, to the base URL followed
    by [?q=], the quoted query and [&prerelease=True].  The quoted query
    is made of letters, digits and [_ . - ~ + %] only, so that no
    character of the query can end the parameter or open another one, and
    a query made of unreserved characters is sent as it is.  The result
    set carries the answer and its [totalHits]. *)
Theorem search_request (self : NugetClient.t) (q : string) (tr : trace) :
  let url :=
    (format_opt (NugetClient._endpoint_url self) ++ "?q=" ++ quote_plus q
       ++ "&prerelease=True")%string in
  search net self q tr
  = (rbind (net tr (JStr url)) (fun doc =>
     rbind (getitem doc "totalHits") (fun total_hits =>
     Ok (NugetSearchResults.mk url doc total_hits))),
     tr ++ [Get (JStr url)])
  /\ all_chars url_safe (quote_plus q) = true
  /\ all_chars (fun a => negb (is_delimiter a)) (quote_plus q) = true
  /\ (all_chars is_unreserved q = true -> quote_plus q = q).
Proof.
  intros url. split; [|split; [|split]].
  - unfold search, NugetSearchResults_load, client_get, bind, lift, ret.
    cbn [NugetSearchResults._url urlencode].
    change (quote_plus "q") with "q".
    change (quote_plus "prerelease") with "prerelease".
    change (quote_plus "True") with "True".
    assert (Hurl : (format_opt (NugetClient._endpoint_url self) ++ "?"
                      ++ "q" ++ "=" ++ quote_plus q ++ "&" ++ "prerelease"
                      ++ "=" ++ "True")%string = url).
    { reflexivity. }
    rewrite Hurl.
    destruct (net tr (JStr url)) as [doc|e]; [|reflexivity]. simpl.
    now destruct (getitem doc "totalHits").
  - apply quote_plus_safe.
  - apply (all_chars_impl url_safe); [|apply quote_plus_safe].
    intros a Ha. now rewrite (url_safe_not_delimiter a Ha).
  - apply quote_plus_unreserved.
Qed.

End Search_requests.

Lemma search_request_witness : quote_plus "Foo.Bar-1_2~3" = "Foo.Bar-1_2~3".
Proof.
  apply (proj2 (proj2 (proj2
           (search_request sample_net NugetSearchClient_init
              "Foo.Bar-1_2~3" [])))).
  reflexivity.
Defined.

(** ** Repeated and failing loads *)

Section Load_again.

Variable py : python.
Variable net : trace -> json -> result json.
Variable ctx : NugetContext.

Lemma load_ok_fields (catalog reg search : bool)
      (p q : NugetPackage.t) (tr : trace) (st : NugetPackage.t * trace) :
  load py net ctx catalog reg search (p, tr) = (Ok q, st) ->
  fst st = q
  /\ truthy (NugetPackage.catalog q)
     = catalog || truthy (NugetPackage.catalog p)
  /\ truthy (NugetPackage.reg q) = reg || truthy (NugetPackage.reg p)
  /\ truthy (NugetPackage.search q)
     = search || truthy (NugetPackage.search p)
  /\ NugetPackage.loaded q
     = truthy (NugetPackage.catalog q) && truthy (NugetPackage.reg q)
       && truthy (NugetPackage.search q)
  /\ exists evs, snd st = tr ++ evs /\ forallb is_get evs = true.
Proof.
  rewrite load_run.
  destruct (load_body py net ctx catalog reg search (p, tr))
    as [[q0|e] [p' tr']] eqn:Hbody.
  2:{ destruct (isinstance e Exception); discriminate. }
  intros [= <- <-].
  destruct (load_body_spec _ _ _ _ _ _ _ _ _ _ _ Hbody)
    as [(evs & -> & Hevs) [-> (p1 & p2 & p3 & H1 & H2 & H3 & ->)]].
  unfold after_sub_load in *.
  destruct catalog, reg, search;
    repeat match goal with
           | H : exists _, _ |- _ => destruct H as [? ?]
           end;
    subst; simpl; repeat split; try reflexivity; exists evs; now split.
Qed.

(** X14. Loads add up.  After two calls of [load] that both return, the
    second on the package the first left, [loaded] tells whether each
    component was requested by one of the calls or was there from the
    start; so a package loaded without its search entry becomes [loaded]
    by a later [load] with the search flag alone.  Calls that return add
    requests to the trace and nothing else. *)
Theorem load_accumulates
    (catalog1 reg1 search1 catalog2 reg2 search2 : bool)
    (p q1 q2 : NugetPackage.t) (tr : trace)
    (st1 st2 : NugetPackage.t * trace) :
  load py net ctx catalog1 reg1 search1 (p, tr) = (Ok q1, st1) ->
  load py net ctx catalog2 reg2 search2 st1 = (Ok q2, st2) ->
  NugetPackage.loaded q2
  = (catalog1 || catalog2 || truthy (NugetPackage.catalog p))
    && (reg1 || reg2 || truthy (NugetPackage.reg p))
    && (search1 || search2 || truthy (NugetPackage.search p))
  /\ exists evs, snd st2 = tr ++ evs /\ forallb is_get evs = true.
Proof.
  intros Hfirst Hsecond. destruct st1 as [p1 tr1].
  destruct (load_ok_fields _ _ _ _ _ _ _ Hfirst)
    as (Hq1 & Hc1 & Hr1 & Hs1 & _ & evs1 & Htr1 & Hevs1).
  destruct (load_ok_fields _ _ _ _ _ _ _ Hsecond)
    as (_ & Hc2 & Hr2 & Hs2 & Hloaded & evs2 & Htr2 & Hevs2).
  cbn [fst snd] in *. subst p1 tr1. split.
  - rewrite Hloaded, Hc2, Hr2, Hs2, Hc1, Hr1, Hs1.
    destruct catalog1, catalog2, reg1, reg2, search1, search2;
      reflexivity.
  - exists (evs1 ++ evs2).
    now rewrite Htr2, app_assoc, forallb_app, Hevs1, Hevs2.
Qed.

(** X15. Failures that are not ignorable.  When [load] raises an
    [Exception] that [can_ignore_exception] rejects, the events it adds
    are the requests of the sub-loads followed by the printed trace of that
    exception; an exception that is not an [Exception] passes without any
    log event.  The errors raised on a malformed document ([KeyError],
    [IndexError], [TypeError], [AttributeError]) and on a missing service
    ([RuntimeError]) are of the first kind. *)
Theorem load_prints_unexpected (catalog reg search : bool)
    (p p' : NugetPackage.t) (tr tr' : trace) (e : exn) :
  load py net ctx catalog reg search (p, tr) = (Raise e, (p', tr')) ->
  (isinstance e Exception = true ->
   can_ignore_exception e = false ->
   exists evs,
     forallb is_get evs = true /\ tr' = tr ++ evs ++ [PrintExc e])
  /\ (isinstance e Exception = false ->
      exists evs, forallb is_get evs = true /\ tr' = tr ++ evs)
  /\ (In (exc_type e)
         [KeyError; IndexError; TypeError; AttributeError; RuntimeError] ->
      isinstance e Exception = true /\ can_ignore_exception e = false).
Proof.
  intros Hrun.
  destruct (load_raise_inv _ _ _ _ _ _ _ _ _ _ _ Hrun)
    as (evs & _ & Hevs & ->).
  split; [|split].
  - intros Hexc Hcan. exists evs. split; [exact Hevs|].
    rewrite Hexc. unfold log_event. now rewrite Hcan.
  - intros Hexc. exists evs. split; [exact Hevs|].
    rewrite Hexc. now rewrite app_nil_r.
  - destruct e as [cls status]. simpl.
    intros [<- | [<- | [<- | [<- | [<- | []]]]]]; now split.
Qed.

End Load_again.

Lemma load_accumulates_witness :
  NugetPackage.loaded
    (fst (snd (load sample_python sample_net sample_ctx false false true
                 (snd (load sample_python sample_net sample_ctx true true false
                         (sample_package, []))))))
  = true.
Proof.
  pose (out1 := load sample_python sample_net sample_ctx true true false
                  (sample_package, [])).
  pose (out2 := load sample_python sample_net sample_ctx false false true (snd out1)).
  assert (Hrun1 : out1 = (Ok (fst (snd out1)), snd out1))
    by (vm_compute; reflexivity).
  assert (Hrun2 : out2 = (Ok (fst (snd out2)), snd out2))
    by (vm_compute; reflexivity).
  destruct (load_accumulates _ _ _ _ _ _ _ _ _ _ _ _ _ _ _ Hrun1 Hrun2)
    as [Hloaded _].
  exact Hloaded.
Defined.

Lemma load_prints_unexpected_witness :
  exists evs,
    forallb is_get evs = true
    /\ snd (snd (load sample_python sample_net_bad_entry sample_ctx true true true
                   (sample_package, [])))
       = [] ++ evs ++ [PrintExc (builtin_exn KeyError)].
Proof.
  pose (out := load sample_python sample_net_bad_entry sample_ctx true true true
                 (sample_package, [])).
  assert (Hrun : out = (Raise (builtin_exn KeyError),
                        (fst (snd out), snd (snd out))))
    by (vm_compute; reflexivity).
  apply (proj1 (load_prints_unexpected _ _ _ _ _ _ _ _ _ _ _ Hrun));
    reflexivity.
Defined.

(** ** Ages *)

Lemma PackageCatalogInfo_init_created (py : python)
      (m : list (string * json)) (info : PackageCatalogInfo.t) :
  PackageCatalogInfo_init py (JObj m) = Ok info ->
  PackageCatalogInfo.created info
  = lookup_default "created" m (JStr EmptyString).
Proof.
  unfold PackageCatalogInfo_init. rewrite !dict_get_members.
  unfold contains, getitem.
  destruct (lookup "authors" m) as [a|]; simpl.
  - destruct (split_authors py a); simpl; [|discriminate].
    destruct (lookup "id" m); simpl; [|discriminate].
    destruct (lookup "version" m); simpl; [|discriminate].
    now intros [= <-].
  - destruct (lookup "id" m); simpl; [|discriminate].
    destruct (lookup "version" m); simpl; [|discriminate].
    now intros [= <-].
Qed.

Section Ages_properties.

Variable float_truth : string -> bool.
Variable days_to_tomorrow : json -> result Z.

(** X16. [days_alive] and [days_abandoned] return either the sentinel -1
    or a number of days that is at least 1, never 0 and no other negative
    number: -1 exactly when the time stamp ([created] of the catalog
    entry, [published] of the newest leaf) is empty or otherwise false,
    and else the days up to [UTC_TOMORROW], raised to 1 when the date is
    not in the past.  They raise [AttributeError] on a package whose
    component is not loaded, and a catalog entry without [created] gives
    -1. *)
Theorem ages_sentinel_or_positive (self : NugetPackage.t) :
  (forall n,
      days_alive float_truth days_to_tomorrow self = Ok n ->
      exists info,
        NugetPackage.catalog self = Some info
        /\ if py_bool float_truth (PackageCatalogInfo.created info)
           then (1 <= n)%Z
                /\ exists days,
                    days_to_tomorrow (PackageCatalogInfo.created info)
                    = Ok days
                    /\ n = Z.max days 1
           else n = (-1)%Z)
  /\ (forall n,
         days_abandoned float_truth days_to_tomorrow self = Ok n ->
         exists info leaf,
           NugetPackage.reg self = Some info
           /\ newest_leaf info = Ok leaf
           /\ if py_bool float_truth (RegistrationLeaf.published leaf)
              then (1 <= n)%Z
                   /\ exists days,
                       days_to_tomorrow (RegistrationLeaf.published leaf)
                       = Ok days
                       /\ n = Z.max days 1
              else n = (-1)%Z)
  /\ (NugetPackage.catalog self = None ->
      days_alive float_truth days_to_tomorrow self
      = Raise (builtin_exn AttributeError))
  /\ (NugetPackage.reg self = None ->
      days_abandoned float_truth days_to_tomorrow self
      = Raise (builtin_exn AttributeError))
  /\ (forall py m info,
         PackageCatalogInfo_init py (JObj m) = Ok info ->
         lookup "created" m = None ->
         days_alive float_truth days_to_tomorrow
           (NugetPackage.set_catalog self info)
         = Ok (-1)%Z).
Proof.
  split; [|split; [|split; [|split]]].
  - intros n. unfold days_alive.
    destruct (NugetPackage.catalog self) as [info|]; [|discriminate].
    intros Hn. exists info. split; [reflexivity|].
    destruct (py_bool float_truth (PackageCatalogInfo.created info));
      cbn [negb] in Hn.
    + destruct (days_to_tomorrow (PackageCatalogInfo.created info))
        as [days|e]; [|discriminate]. injection Hn as <-.
      split; [lia|]. now exists days.
    + now injection Hn as <-.
  - intros n. unfold days_abandoned, last_updated.
    destruct (NugetPackage.reg self) as [info|]; [|discriminate].
    destruct (newest_leaf info) as [leaf|e] eqn:Hleaf; [|discriminate].
    cbn [rbind]. intros Hn. exists info, leaf.
    split; [reflexivity|]. split; [exact Hleaf|].
    destruct (py_bool float_truth (RegistrationLeaf.published leaf));
      cbn [negb] in Hn.
    + destruct (days_to_tomorrow (RegistrationLeaf.published leaf))
        as [days|e]; [|discriminate]. injection Hn as <-.
      split; [lia|]. now exists days.
    + now injection Hn as <-.
  - intros Hnone. unfold days_alive. now rewrite Hnone.
  - intros Hnone. unfold days_abandoned. now rewrite Hnone.
  - intros py m info Hinit Hcreated. unfold days_alive.
    cbn [NugetPackage.set_catalog NugetPackage.catalog].
    rewrite (PackageCatalogInfo_init_created _ _ _ Hinit).
    unfold lookup_default. now rewrite Hcreated.
Qed.

End Ages_properties.

Lemma ages_sentinel_or_positive_witness :
  days_alive (fun _ => true) (fun _ => Ok 5%Z)
    (NugetPackage.set_catalog sample_package
       (PackageCatalogInfo.mk [] (JStr EmptyString) (JStr EmptyString)
          (JStr "Foo") (JBool false) (JBool true) JNull (JArr [])
          (JStr "1.0.0")))
  = Ok (-1)%Z.
Proof.
  apply (proj2 (proj2 (proj2 (proj2
           (ages_sentinel_or_positive (fun _ => true) (fun _ => Ok 5%Z)
              sample_package))))
           sample_python [("id", JStr "Foo"); ("version", JStr "1.0.0")]);
    reflexivity.
Defined.
